(** * clean-icloud.py: date-filtered download and deletion of iCloud photos

    A shallow embedding of [clean-icloud.py] and the properties of its
    selection and action pipeline.

    The script is sequential glue code around three collaborators: the
    terminal (print / input), the pyicloud service and the local file
    system.  A Python computation is embedded as a function from the
    mutable part of the world (pending stdin lines, the disk) to a result
    (a value or a raised exception), the new world and the list of
    observable events it produced, in order. *)

From Stdlib Require Import ZArith Ascii String List Lia.
From stdpp Require Import base decidable option list strings pretty gmap.
Import ListNotations.


Local Open Scope Z_scope.

(** ** Python strings

    A text is the sequence of the bytes of its UTF-8 form; it is ASCII
    text when every byte is below 128, and then a byte is a character.
    The character classes and [strip] below are Python's on ASCII text;
    what Python does with text beyond ASCII where that matters (the
    decimal digits and the white space of Unicode) is not computed here
    but asked of the runtime, see [world] below.  No character outside
    ASCII is mapped by [str.lower] to one of the letters [y], [e] or [s],
    the only ones the script compares against. *)

Module PyStr.

Definition code (c : ascii) : Z := Z.of_N (N_of_ascii c).

(** [s.isascii()] *)
Fixpoint is_ascii (s : string) : bool :=
  match s with
  | EmptyString => true
  | String c s' => (code c <? 128) && is_ascii s'
  end.

Definition is_upper (c : ascii) : bool := (65 <=? code c) && (code c <=? 90).

Definition is_digit (c : ascii) : bool := (48 <=? code c) && (code c <=? 57).

(** [str.isspace] on ASCII: tab, LF, VT, FF, CR, FS, GS, RS, US, space. *)
Definition is_space (c : ascii) : bool :=
  ((9 <=? code c) && (code c <=? 13)) ||
  ((28 <=? code c) && (code c <=? 32)).

Definition lower_char (c : ascii) : ascii :=
  if is_upper c then ascii_of_N (Z.to_N (code c + 32)) else c.

(** [s.lower()] *)
Fixpoint lower (s : string) : string :=
  match s with
  | EmptyString => EmptyString
  | String c s' => String (lower_char c) (lower s')
  end.

(** [s.lstrip()] on ASCII text *)
Fixpoint lstrip (s : string) : string :=
  match s with
  | String c s' => if is_space c then lstrip s' else s
  | EmptyString => EmptyString
  end.

(** [s.rstrip()] on ASCII text *)
Fixpoint rstrip (s : string) : string :=
  match s with
  | EmptyString => EmptyString
  | String c s' =>
      match rstrip s' with
      | EmptyString => if is_space c then EmptyString else String c EmptyString
      | r => String c r
      end
  end.

(** [s.strip()] on ASCII text *)
Definition strip (s : string) : string := rstrip (lstrip s).

(** [str(n)] for a non-negative integer. *)
Definition of_nat (n : nat) : string := pretty n.

(** [f"{z:0{w}d}"] for a non-negative integer: decimal, left-padded with
    zeros to at least [w] characters. *)
Fixpoint zeros (n : nat) : string :=
  match n with
  | O => EmptyString
  | S n' => String "0" (zeros n')
  end.

Definition zero_pad (w : nat) (z : Z) : string :=
  let digits := pretty (Z.to_N z) in
  zeros (w - String.length digits) +:+ digits.

End PyStr.

(** ** Values, exceptions and attribute access *)

(** What evaluating an attribute or calling a method of a foreign object
    does: it raises an [Exception] (whose [str()] is [msg]) or gives a
    value. *)
Inductive attr (A : Type) : Type :=
  | Raises (msg : string)
  | Gives (a : A).
Arguments Raises {A} msg.
Arguments Gives {A} a.

(** The control effects of the script: [sys.exit(code)] raises
    [SystemExit], which is not an [Exception] and so passes through every
    [except Exception] handler; everything else raised is an [Exception]. *)
Inductive exn : Type :=
  | Exception (msg : string)
  | SystemExit (code : Z).

Inductive result (A : Type) : Type :=
  | Ok (a : A)
  | Raise (e : exn).
Arguments Ok {A} a.
Arguments Raise {A} e.

(** The exit status of the interpreter when the main module finishes with
    the given result: 0 on a normal return, the code of [sys.exit], and 1
    after the traceback of an uncaught exception. *)
Definition exit_status {A} (r : result A) : Z :=
  match r with
  | Ok _ => 0
  | Raise (SystemExit c) => c
  | Raise (Exception _) => 1
  end.

(** ** Calendar dates: [datetime.date] and [datetime.datetime] *)

Record date : Type := Date { year : Z; month : Z; day : Z }.

Record datetime : Type := Datetime {
  dt_year : Z; dt_month : Z; dt_day : Z;
  dt_hour : Z; dt_minute : Z; dt_second : Z; dt_microsecond : Z
}.

(** [dt.date()] *)
Definition datetime_date (dt : datetime) : date :=
  Date (dt_year dt) (dt_month dt) (dt_day dt).

(** [a <= b] on dates: the comparison of the (year, month, day) triples. *)
Definition date_leb (a b : date) : bool :=
  (year a <? year b) ||
  ((year a =? year b) &&
   ((month a <? month b) ||
    ((month a =? month b) && (day a <=? day b)))).

(** The same order as a proposition. *)
Definition date_le (a b : date) : Prop :=
  year a < year b \/
  (year a = year b /\ (month a < month b \/ (month a = month b /\ day a <= day b))).

(** [str(d)], the ISO form [YYYY-MM-DD]. *)
Definition date_str (d : date) : string :=
  PyStr.zero_pad 4 (year d) +:+ "-" +:+ PyStr.zero_pad 2 (month d) +:+ "-" +:+
  PyStr.zero_pad 2 (day d).

Definition is_leap (y : Z) : bool :=
  (y mod 4 =? 0) && (negb (y mod 100 =? 0) || (y mod 400 =? 0)).

Definition days_in_month (y m : Z) : Z :=
  if m =? 2 then (if is_leap y then 29 else 28)
  else if (m =? 4) || (m =? 6) || (m =? 9) || (m =? 11) then 30
  else 31.

(** The check of the [date(year, month, day)] constructor. *)
Definition valid_date (y m d : Z) : bool :=
  (1 <=? y) && (y <=? 9999) && (1 <=? m) && (m <=? 12) &&
  (1 <=? d) && (d <=? days_in_month y m).

(** ** [datetime.datetime.strptime(s, "%Y-%m-%d")]

    The standard library turns the format into the regular expression
    [(?P<Y>\d\d\d\d)-(?P<m>1[0-2]|0[1-9]|[1-9])-(?P<d>3[0-1]|[1-2]\d|0[1-9]|[1-9]| [1-9])],
    matches it at the start of the text, rejects unconverted trailing
    text, converts the three groups with [int] and builds the date, whose
    constructor checks the ranges.  This module is that procedure on
    ASCII text, where [\d] is [0-9] and [int] reads the digits [0-9];
    for any other text the script's call is [strptime_date] below, which
    asks the runtime. *)

Module Strptime.

Definition cls : Type := ascii -> bool.

Definition chr (c : ascii) : cls := fun x => bool_decide (x = c).

Definition between (lo hi : ascii) : cls :=
  fun x => (PyStr.code lo <=? PyStr.code x) && (PyStr.code x <=? PyStr.code hi).

(** Match a sequence of character classes at the start of [s]; gives the
    matched text and the rest. *)
Fixpoint match_seq (p : list cls) (s : string) : option (string * string) :=
  match p with
  | [] => Some (EmptyString, s)
  | c :: p' =>
      match s with
      | EmptyString => None
      | String x s' =>
          if c x then
            match match_seq p' s' with
            | Some (m, rest) => Some (String x m, rest)
            | None => None
            end
          else None
      end
  end.

(** An alternation followed by the continuation [k] of the pattern: the
    alternatives are tried in order, and the first one after which the
    continuation also matches wins. *)
Fixpoint match_alt {A} (alts : list (list cls)) (s : string)
    (k : string -> string -> option A) : option A :=
  match alts with
  | [] => None
  | p :: alts' =>
      match match_seq p s with
      | Some (m, rest) =>
          match k m rest with
          | Some a => Some a
          | None => match_alt alts' s k
          end
      | None => match_alt alts' s k
      end
  end.

(** [\d] on ASCII text *)
Definition digit : cls := PyStr.is_digit.

Definition re_Y : list (list cls) := [[digit; digit; digit; digit]].

Definition re_m : list (list cls) :=
  [[chr "1"; between "0" "2"]; [chr "0"; between "1" "9"]; [between "1" "9"]].

Definition re_d : list (list cls) :=
  [[chr "3"; between "0" "1"]; [between "1" "2"; digit];
   [chr "0"; between "1" "9"]; [between "1" "9"]; [chr " "; between "1" "9"]].

Definition re_dash : list (list cls) := [[chr "-"]].

(** The groups Y, m and d of the first match, and the text left after
    it. *)
Definition re_match (s : string) : option (string * string * string * string) :=
  match_alt re_Y s (fun Y s1 =>
  match_alt re_dash s1 (fun _ s2 =>
  match_alt re_m s2 (fun m s3 =>
  match_alt re_dash s3 (fun _ s4 =>
  match_alt re_d s4 (fun d rest => Some (Y, m, d, rest)))))).

(** [int(s)] on a matched group of ASCII text: decimal digits, the
    blank in front of a day ignored. *)
Fixpoint int_acc (acc : Z) (s : string) : Z :=
  match s with
  | EmptyString => acc
  | String c s' =>
      if PyStr.is_digit c then int_acc (10 * acc + (PyStr.code c - 48)) s'
      else int_acc acc s'
  end.

Definition int (s : string) : Z := int_acc 0 s.

(** [datetime.datetime.strptime(s, "%Y-%m-%d").date()] on ASCII text;
    [Raises] is a [ValueError]. *)
Definition strptime_ymd (s : string) : attr date :=
  match re_match s with
  | None => Raises ("time data '" +:+ s +:+ "' does not match format '%Y-%m-%d'")
  | Some (Y, m, d, rest) =>
      match rest with
      | String _ _ => Raises ("unconverted data remains: " +:+ rest)
      | EmptyString =>
          if valid_date (int Y) (int m) (int d)
          then Gives (Date (int Y) (int m) (int d))
          else if int Y <? 1 then Raises "year 0 is out of range"
          else Raises "day is out of range for month"
      end
  end.

End Strptime.

(** ** The configuration document

    What [yaml.safe_load] gives for the configuration file: a tree of
    scalars, sequences and mappings.  A mapping is kept as the list of its
    entries, the first entry of a key being the one [dict.get] finds; keys
    are strings, as no other key can equal the two the script looks up. *)

#[local] Set Warnings "-register-all".

Inductive yaml : Type :=
  | YNull
  | YBool (b : bool)
  | YInt (z : Z)
  | YStr (s : string)
  | YSeq (items : list yaml)
  | YMap (entries : list (string * yaml)).

(** [d.get(key)] on the entries of a mapping. *)
Fixpoint dict_get (entries : list (string * yaml)) (key : string) : option yaml :=
  match entries with
  | [] => None
  | (k, v) :: rest => if String.eqb k key then Some v else dict_get rest key
  end.

(** Python truthiness, [bool(v)]. *)
Definition truthy (v : yaml) : bool :=
  match v with
  | YNull => false
  | YBool b => b
  | YInt z => negb (z =? 0)
  | YStr s => negb (String.eqb s "")
  | YSeq items => match items with [] => false | _ => true end
  | YMap entries => match entries with [] => false | _ => true end
  end.

(** ** Remote items and the session handle *)

(** The response of [photo.download()]: its [raw.read()] raises or gives
    the bytes of the file. *)
Record response : Type := Response { raw_read : attr (list Byte.byte) }.

(** One photo of the library, as pyicloud presents it.  [created] raises,
    or gives [None] (for which [.date()] raises), or a datetime.
    [download()] raises, or gives [None] (no such version), or a response.
    [delete()] raises or returns. *)
Record photo : Type := Photo {
  filename : string;
  created : attr (option datetime);
  download : attr (option response);
  delete : attr unit
}.

(** The handle [PyiCloudService(username, password)] returns; [photos_all]
    is the sequence [api.photos.all] enumerates. *)
Record api : Type := Api {
  requires_2fa : bool;
  requires_2sa : bool;
  validate_2fa_code : string -> bool;
  validate_2sa_code : string -> bool;
  photos_all : list photo
}.

(** ** The command line *)

(** The [argparse] namespace of an invocation that names a sub-command or
    none; [args_date] and [args_output_dir] are those of the sub-command. *)
Inductive command : Type := CmdDownload | CmdDelete.

Record args : Type := Args {
  args_config : string;
  args_command : option command;
  args_date : string;
  args_output_dir : string
}.

(** What [parser.parse_args()] does with a command line: it returns the
    namespace, or (for [-h]) writes a help text to stdout and exits with
    status 0, or writes a usage error to stderr and exits with
    status 2. *)
Inductive parsed : Type :=
  | Namespace (a : args)
  | HelpExit (text : string)
  | UsageExit.

(** ** What the script only reads *)

(** The collaborators the script calls without changing them: what
    loading the YAML file at a path gives, what the pyicloud constructor
    does for given credentials, what the parser built by lines 136-172
    makes of a command line and the help text it prints, and what the
    Python runtime does with text beyond ASCII: [strptime] with the
    format [%Y-%m-%d] (whose [\d] and [int] take the decimal digits of
    every script) and [str.strip] (which removes the white space of
    Unicode). *)
Record world : Type := World {
  yaml_load : string -> attr yaml;
  PyiCloudService : yaml -> yaml -> attr api;
  parse_args : list string -> parsed;
  format_help : string;
  strptime_beyond_ascii : string -> attr date;
  strip_beyond_ascii : string -> string
}.

(** [datetime.datetime.strptime(s, "%Y-%m-%d").date()]; [Raises] is a
    [ValueError]. *)
Definition strptime_date (w : world) (s : string) : attr date :=
  if PyStr.is_ascii s then Strptime.strptime_ymd s else strptime_beyond_ascii w s.

(** [s.strip()] *)
Definition str_strip (w : world) (s : string) : string :=
  if PyStr.is_ascii s then PyStr.strip s else strip_beyond_ascii w s.

(** ** The local file system: [posixpath] and the [os] calls

    The disk is a tree of directories and regular files; a location is
    the list of the names that lead to it from the root.  The process
    sees the directories from its current directory: the root and the
    directories on the way to the current directory are always there, the
    others are those made.  The system resolves the text of a path name by
    name, from the root when the text starts with a slash and from the
    current directory otherwise: an empty name and [.] stay in place,
    [..] goes to the parent (the root is its own parent), any other name
    goes to the entry of that name, and every location reached on the way
    has to be a directory.  Names are compared byte by byte.  There are
    no links, no permissions and no limits on the length of a name or the
    space of the disk. *)

Module Posix.

Definition is_slash (c : ascii) : bool := bool_decide (c = "/"%char).

(** [s.endswith('/')] *)
Fixpoint ends_with_slash (s : string) : bool :=
  match s with
  | EmptyString => false
  | String c EmptyString => is_slash c
  | String _ s' => ends_with_slash s'
  end.

(** [posixpath.join(a, b)] *)
Definition join (a b : string) : string :=
  match b with
  | String c _ =>
      if is_slash c then b
      else if String.eqb a "" || ends_with_slash a then a +:+ b
      else a +:+ "/" +:+ b
  | EmptyString =>
      if String.eqb a "" || ends_with_slash a then a else a +:+ "/"
  end.

(** [s.split('/')] *)
Fixpoint split_slash (s : string) : list string :=
  match s with
  | EmptyString => [EmptyString]
  | String c s' =>
      if is_slash c then EmptyString :: split_slash s'
      else
        match split_slash s' with
        | x :: r => String c x :: r
        | [] => [String c EmptyString]
        end
  end.

(** [i = p.rfind('/') + 1; p[:i], p[i:]] *)
Fixpoint cut_last_slash (p : string) : string * string :=
  match p with
  | EmptyString => (EmptyString, EmptyString)
  | String c p' =>
      let '(head, tail) := cut_last_slash p' in
      match head with
      | EmptyString =>
          if is_slash c then (String c EmptyString, tail)
          else (EmptyString, String c tail)
      | _ => (String c head, tail)
      end
  end.

(** [s == '/' * len(s)] *)
Fixpoint all_slashes (s : string) : bool :=
  match s with
  | EmptyString => true
  | String c s' => is_slash c && all_slashes s'
  end.

(** [s.rstrip('/')] *)
Fixpoint rstrip_slashes (s : string) : string :=
  match s with
  | EmptyString => EmptyString
  | String c s' =>
      match rstrip_slashes s' with
      | EmptyString => if is_slash c then EmptyString else String c EmptyString
      | r => String c r
      end
  end.

(** [posixpath.split(p)] *)
Definition split (p : string) : string * string :=
  let '(head, tail) := cut_last_slash p in
  if negb (String.eqb head "") && negb (all_slashes head)
  then (rstrip_slashes head, tail)
  else (head, tail).

(** A text with a NUL character is no path: every call given one raises
    [ValueError]. *)
Fixpoint has_nul (s : string) : bool :=
  match s with
  | EmptyString => false
  | String c s' => bool_decide (c = Ascii.zero) || has_nul s'
  end.

(** A location: the names from the root. *)
Definition location : Type := list string.

(** The directories as the process sees them: its current directory,
    the directories made, and how deep [os.makedirs] may call itself
    before the interpreter raises [RecursionError]. *)
Record tree : Type := Tree {
  cwd : location;
  made : gset location;
  stack : nat
}.

Record filesystem : Type := Filesystem {
  dirs : tree;
  files : gmap location (list Byte.byte)
}.

(** The exceptions of the calls: the [OSError]s, the [ValueError] for a
    NUL character and the [RecursionError]. *)
Inductive oserror : Type :=
  | FileExistsError (path : string)
  | FileNotFoundError (path : string)
  | NotADirectoryError (path : string)
  | IsADirectoryError (path : string)
  | EmbeddedNull
  | RecursionError.

Definition oserror_str (e : oserror) : string :=
  match e with
  | FileExistsError p => "[Errno 17] File exists: '" +:+ p +:+ "'"
  | FileNotFoundError p => "[Errno 2] No such file or directory: '" +:+ p +:+ "'"
  | NotADirectoryError p => "[Errno 20] Not a directory: '" +:+ p +:+ "'"
  | IsADirectoryError p => "[Errno 21] Is a directory: '" +:+ p +:+ "'"
  | EmbeddedNull => "embedded null byte"
  | RecursionError => "maximum recursion depth exceeded"
  end.

Fixpoint is_prefix (l k : location) : bool :=
  match l, k with
  | [], _ => true
  | x :: l', y :: k' => String.eqb x y && is_prefix l' k'
  | _ :: _, [] => false
  end.

(** Whether a location is a directory. *)
Definition dir_at (T : tree) (l : location) : bool :=
  is_prefix l (cwd T) || bool_decide (l ∈ made T).

Definition file_at (fs : filesystem) (l : location) : bool :=
  bool_decide (is_Some (files fs !! l)).

(** The names of a path text: what stands between its slashes. *)
Definition names_of (s : string) : list string :=
  List.filter (fun name => negb (String.eqb name "")) (split_slash s).

Definition is_absolute (s : string) : bool :=
  match s with
  | String c _ => is_slash c
  | EmptyString => false
  end.

(** Where the walk of a path text starts. *)
Definition start (T : tree) (s : string) : location :=
  if is_absolute s then [] else cwd T.

(** One name further from a location. *)
Definition step (cur : location) (name : string) : location :=
  if String.eqb name "." then cur
  else if String.eqb name ".." then removelast cur
  else cur ++ [name].

(** The walk through [names] from the directory [cur]: the location
    reached, when every location on the way is a directory. *)
Fixpoint enter (T : tree) (cur : location) (names : list string) : option location :=
  match names with
  | [] => Some cur
  | name :: rest =>
      if dir_at T (step cur name) then enter T (step cur name) rest else None
  end.

(** Whether the walk stops at a regular file (and not at a missing
    entry). *)
Fixpoint file_in_the_way (fs : filesystem) (cur : location) (names : list string)
    : bool :=
  match names with
  | [] => false
  | name :: rest =>
      if dir_at (dirs fs) (step cur name) then file_in_the_way fs (step cur name) rest
      else file_at fs (step cur name)
  end.

(** The error of a walk to the parent of [s] that fails. *)
Definition walk_error (fs : filesystem) (s : string) : oserror :=
  if file_in_the_way fs (start (dirs fs) s) (removelast (names_of s))
  then NotADirectoryError s
  else FileNotFoundError s.

(** [os.stat(s)], as far as it finds something: the location of the
    directory or regular file the text names.  A text that ends in a
    slash names a directory only. *)
Definition stat (fs : filesystem) (s : string) : option location :=
  if String.eqb s "" || has_nul s then None
  else
    match enter (dirs fs) (start (dirs fs) s) (removelast (names_of s)) with
    | None => None
    | Some parent =>
        match last (names_of s) with
        | None => Some parent
        | Some name =>
            if dir_at (dirs fs) (step parent name) then Some (step parent name)
            else if negb (ends_with_slash s) && file_at fs (step parent name)
            then Some (step parent name)
            else None
        end
    end.

(** [os.path.exists(s)] *)
Definition exists_ (fs : filesystem) (s : string) : bool :=
  match stat fs s with
  | Some _ => true
  | None => false
  end.

(** [os.path.isdir(s)] *)
Definition isdir (fs : filesystem) (s : string) : bool :=
  match stat fs s with
  | Some l => dir_at (dirs fs) l
  | None => false
  end.

(** [os.mkdir(s)]: the parent has to be there, the last name must be a
    new entry of it. *)
Definition mkdir (s : string) (fs : filesystem) : oserror + filesystem :=
  if has_nul s then inl EmbeddedNull
  else if String.eqb s "" then inl (FileNotFoundError s)
  else
    match last (names_of s) with
    | None => inl (FileExistsError s)
    | Some name =>
        match enter (dirs fs) (start (dirs fs) s) (removelast (names_of s)) with
        | None => inl (walk_error fs s)
        | Some parent =>
            if String.eqb name "." || String.eqb name ".." then inl (FileExistsError s)
            else if dir_at (dirs fs) (parent ++ [name]) || file_at fs (parent ++ [name])
            then inl (FileExistsError s)
            else inr (Filesystem
                        (Tree (cwd (dirs fs)) ({[ parent ++ [name] ]} ∪ made (dirs fs))
                           (stack (dirs fs)))
                        (files fs))
        end
    end.

(** [head, tail = path.split(name)], and once more on [head] when
    [tail] is empty. *)
Definition head_tail (name : string) : string * string :=
  let '(head, tail) := split name in
  if String.eqb tail "" then split head else (head, tail).

(** A call that raises leaves the disk as it is. *)
Definition attempt (f : filesystem -> oserror + filesystem) (fs : filesystem)
    : option oserror * filesystem :=
  match f fs with
  | inr fs' => (None, fs')
  | inl e => (Some e, fs)
  end.

(** [os.makedirs(name)], with [exist_ok] left at [False]: the function
    of the standard library, which makes the missing directories above
    [name] by calling itself on the head of [name], passes over a
    [FileExistsError] of that call, and then makes [name] itself unless
    its last name is [.].  The result is the exception raised, if any,
    and the disk as the call leaves it; [depth] is how deep the calls may
    still nest. *)
Fixpoint makedirs_from (depth : nat) (name : string) (fs : filesystem)
    : option oserror * filesystem :=
  match depth with
  | O => (Some RecursionError, fs)
  | S depth' =>
      let '(head, tail) := head_tail name in
      if negb (String.eqb head "") && negb (String.eqb tail "") && negb (exists_ fs head)
      then
        let '(raised, fs1) := makedirs_from depth' head fs in
        match raised with
        | None | Some (FileExistsError _) =>
            if String.eqb tail "." then (None, fs1) else attempt (mkdir name) fs1
        | Some e => (Some e, fs1)
        end
      else attempt (mkdir name) fs
  end.

Definition makedirs (name : string) (fs : filesystem) : option oserror * filesystem :=
  makedirs_from (stack (dirs fs)) name fs.

(** Where [open(s, "wb")] makes or empties a file, when it succeeds; it
    depends on the directories only.  The walk to the parent has to
    succeed, the last name has to be the name of an entry ([.], [..] and
    a text that ends in a slash name directories) and no directory may
    sit there. *)
Definition open_target (T : tree) (s : string) : option location :=
  if String.eqb s "" || has_nul s || ends_with_slash s then None
  else
    match last (names_of s) with
    | None => None
    | Some name =>
        if String.eqb name "." || String.eqb name ".." then None
        else
          match enter T (start T s) (removelast (names_of s)) with
          | None => None
          | Some parent =>
              if dir_at T (parent ++ [name]) then None else Some (parent ++ [name])
          end
    end.

(** The exception of an [open(s, "wb")] that fails. *)
Definition open_failure (fs : filesystem) (s : string) : oserror :=
  if has_nul s then EmbeddedNull
  else if String.eqb s "" then FileNotFoundError s
  else
    match enter (dirs fs) (start (dirs fs) s) (removelast (names_of s)) with
    | None => walk_error fs s
    | Some _ => IsADirectoryError s
    end.

(** [open(s, "wb")]: makes or empties the file and gives the open file,
    here the location of the file. *)
Definition open_wb (s : string) (fs : filesystem) : oserror + location * filesystem :=
  match open_target (dirs fs) s with
  | Some l => inr (l, Filesystem (dirs fs) (<[ l := [] ]> (files fs)))
  | None => inl (open_failure fs s)
  end.

(** [f.write(data)] on a file just opened, then closing it. *)
Definition write_close (f : location) (data : list Byte.byte) (fs : filesystem)
    : filesystem :=
  Filesystem (dirs fs) (<[ f := data ]> (files fs)).

End Posix.

(** ** Computations of the script *)

(** What an observer outside the process sees, in order. *)
Inductive event : Type :=
  | Print (line : string)                     (* print(line) *)
  | Input (prompt : string)                   (* input(prompt) *)
  | LoadConfig (path : string)                (* open + yaml.safe_load *)
  | Authenticate (username password : yaml)   (* PyiCloudService(u, p) *)
  | Validate2fa (code : string)               (* api.validate_2fa_code(code) *)
  | Validate2sa (code : string)               (* api.validate_2sa_code(code) *)
  | Enumerate                                 (* iterating api.photos.all *)
  | CallDownload (p : photo)                  (* p.download() *)
  | CallDelete (p : photo).                   (* p.delete() *)

(** The part of the world the script changes: the lines the operator has
    yet to type, and the disk. *)
Record state : Type := State {
  stdin : list string;
  disk : Posix.filesystem
}.

Definition py (A : Type) : Type := state -> result A * state * list event.

Definition ret {A} (a : A) : py A := fun st => (Ok a, st, []).

Definition bind {A B} (k : A -> py B) (m : py A) : py B := fun st =>
  match m st with
  | (Ok a, st', t) => let '(r, st'', t') := k a st' in (r, st'', t ++ t')
  | (Raise e, st', t) => (Raise e, st', t)
  end.

#[global] Instance py_ret : MRet py := @ret.
#[global] Instance py_bind : MBind py := @bind.

(** [try: body  except Exception as e: handler(str(e))] *)
Definition try_except {A} (body : py A) (handler : string -> py A) : py A := fun st =>
  match body st with
  | (Raise (Exception msg), st', t) =>
      let '(r, st'', t') := handler msg st' in (r, st'', t ++ t')
  | other => other
  end.

Definition emit (e : event) : py unit := fun st => (Ok tt, st, [e]).

Definition raise {A} (e : exn) : py A := fun st => (Raise e, st, []).

(** [print(line)] *)
Definition print (line : string) : py unit := emit (Print line).

(** [sys.exit(code)] *)
Definition sys_exit {A} (code : Z) : py A := raise (SystemExit code).

(** [input(prompt)]: the next line of stdin, or [EOFError] at its end. *)
Definition input (prompt : string) : py string := fun st =>
  match stdin st with
  | line :: rest => (Ok line, State rest (disk st), [Input prompt])
  | [] => (Raise (Exception "EOF when reading a line"), st, [Input prompt])
  end.

(** Evaluating an attribute or a call of a foreign object. *)
Definition eval {A} (a : attr A) : py A :=
  match a with
  | Gives v => ret v
  | Raises msg => raise (Exception msg)
  end.

(** A call of the file system that changes the disk: when it raises,
    the disk stays as the call left it. *)
Definition fs_call (f : Posix.filesystem -> option Posix.oserror * Posix.filesystem)
    : py unit := fun st =>
  match f (disk st) with
  | (None, fs') => (Ok tt, State (stdin st) fs', [])
  | (Some e, fs') => (Raise (Exception (Posix.oserror_str e)), State (stdin st) fs', [])
  end.

(** [open(path, "wb")] *)
Definition fs_open (path : string) : py Posix.location := fun st =>
  match Posix.open_wb path (disk st) with
  | inr (f, fs') => (Ok f, State (stdin st) fs', [])
  | inl e => (Raise (Exception (Posix.oserror_str e)), st, [])
  end.

Definition fs_update (f : Posix.filesystem -> Posix.filesystem) : py unit :=
  fun st => (Ok tt, State (stdin st) (f (disk st)), []).

Definition fs_test (f : Posix.filesystem -> bool) : py bool :=
  fun st => (Ok (f (disk st)), st, []).

(** Projections of a finished run. *)
Definition outcome {A} (r : result A * state * list event) : result A := fst (fst r).
Definition final {A} (r : result A * state * list event) : state := snd (fst r).
Definition trace {A} (r : result A * state * list event) : list event := snd r.

(** ** The script *)

Definition type_name (v : yaml) : string :=
  match v with
  | YNull => "NoneType"
  | YBool _ => "bool"
  | YInt _ => "int"
  | YStr _ => "str"
  | YSeq _ => "list"
  | YMap _ => "dict"
  end.

(** [v.get(key, default)]: only a mapping has the method; on anything
    else the attribute lookup raises [AttributeError]. *)
Definition yaml_get (v : yaml) (key : string) (default : yaml) : attr yaml :=
  match v with
  | YMap entries =>
      match dict_get entries key with
      | Some x => Gives x
      | None => Gives default
      end
  | _ => Raises ("'" +:+ type_name v +:+ "' object has no attribute 'get'")
  end.

Section Script.

Variable w : world.

Definition load_config (config_file : string) : py yaml :=
  try_except
    (emit (LoadConfig config_file);;
     eval (yaml_load w config_file))
    (fun e =>
       print ("Error loading config file: " +:+ e);;
       sys_exit 1).

(** The second-factor branches of [login]. *)
Definition challenge (api : api) : py unit :=
  if requires_2fa api then
    print "Two-factor authentication required. A code has been sent to your devices.";;
    line ← input "Enter the 2FA code: ";
    let code := str_strip w line in
    emit (Validate2fa code);;
    if negb (validate_2fa_code api code) then
      print "Failed to verify the 2FA code.";;
      sys_exit 1
    else mret tt
  else if requires_2sa api then
    print "Two-step authentication required. A code has been sent to your trusted devices.";;
    line ← input "Enter the 2SA code: ";
    let code := str_strip w line in
    emit (Validate2sa code);;
    if negb (validate_2sa_code api code) then
      print "Failed to verify the 2SA code.";;
      sys_exit 1
    else mret tt
  else mret tt.

Definition login (config : yaml) : py api :=
  icloud_config ← eval (yaml_get config "icloud" (YMap []));
  username ← eval (yaml_get icloud_config "username" YNull);
  password ← eval (yaml_get icloud_config "password" YNull);
  (if negb (truthy username) || negb (truthy password) then
     print "Username and/or password not provided in the config file.";;
     sys_exit 1
   else mret tt);;
  emit (Authenticate username password);;
  api ← eval (PyiCloudService w username password);
  challenge api;;
  mret api.

Definition parse_date (date_str : string) : py date :=
  match strptime_date w date_str with
  | Gives d => mret d
  | Raises _ =>
      print "Invalid date format. Please provide a date in YYYY-MM-DD format.";;
      sys_exit 1
  end.

(** [photo.created.date()] *)
Definition created_date (photo : photo) : py date :=
  c ← eval (created photo);
  match c with
  | Some dt => mret (datetime_date dt)
  | None => raise (Exception "'NoneType' object has no attribute 'date'")
  end.

(** The first statement of both loops: the date of the photo, or the
    diagnostic and [continue]. *)
Definition read_date (photo : photo) : py (option date) :=
  try_except
    (photo_date ← created_date photo; mret (Some photo_date))
    (fun e =>
       print ("Could not determine creation date for a photo: " +:+ e);;
       mret None).

(** [download_response.raw.read()] *)
Definition raw_read_of (download_response : option response) : py (list Byte.byte) :=
  match download_response with
  | Some r => eval (raw_read r)
  | None => raise (Exception "'NoneType' object has no attribute 'raw'")
  end.

(** The guarded body of the download loop; gives the new [count]. *)
Definition download_one (photo : photo) (photo_date : date)
    (output_dir : string) (count : nat) : py nat :=
  try_except
    (print ("Downloading " +:+ filename photo +:+ " taken on " +:+
            date_str photo_date +:+ " ...");;
     emit (CallDownload photo);;
     download_response ← eval (download photo);
     let file_path := Posix.join output_dir (filename photo) in
     f ← fs_open file_path;
     data ← raw_read_of download_response;
     fs_update (Posix.write_close f data);;
     mret (S count))
    (fun e =>
       print ("Failed to download " +:+ filename photo +:+ ": " +:+ e);;
       mret count).

(** [for photo in api.photos.all: ...] of [download_photos]. *)
Fixpoint download_loop (photos : list photo) (target_date : date)
    (output_dir : string) (count : nat) : py nat :=
  match photos with
  | [] => mret count
  | photo :: rest =>
      d ← read_date photo;
      match d with
      | None => download_loop rest target_date output_dir count
      | Some photo_date =>
          if date_leb photo_date target_date then
            count' ← download_one photo photo_date output_dir count;
            download_loop rest target_date output_dir count'
          else download_loop rest target_date output_dir count
      end
  end.

Definition download_photos (api : api) (target_date : date)
    (output_dir : string) : py unit :=
  output_dir_exists ← fs_test (fun fs => Posix.exists_ fs output_dir);
  (if negb output_dir_exists then fs_call (Posix.makedirs output_dir)
   else mret tt);;
  emit Enumerate;;
  count ← download_loop (photos_all api) target_date output_dir 0;
  print ("Downloaded " +:+ PyStr.of_nat count +:+ " photos to '" +:+
         output_dir +:+ "'.").

(** [for photo in api.photos.all: ...] of [delete_photos]; gives
    [photos_to_delete]. *)
Fixpoint collect_loop (photos : list photo) (target_date : date)
    (photos_to_delete : list photo) : py (list photo) :=
  match photos with
  | [] => mret photos_to_delete
  | photo :: rest =>
      d ← read_date photo;
      match d with
      | None => collect_loop rest target_date photos_to_delete
      | Some photo_date =>
          if date_leb photo_date target_date then
            collect_loop rest target_date (photos_to_delete ++ [photo])
          else collect_loop rest target_date photos_to_delete
      end
  end.

(** The body of the deletion loop; gives the new [count]. *)
Definition delete_one (photo : photo) (count : nat) : py nat :=
  try_except
    (emit (CallDelete photo);;
     eval (delete photo);;
     print ("Deleted " +:+ filename photo);;
     mret (S count))
    (fun e =>
       print ("Failed to delete " +:+ filename photo +:+ ": " +:+ e);;
       mret count).

(** [for photo in photos_to_delete: ...] *)
Fixpoint delete_loop (photos_to_delete : list photo) (count : nat) : py nat :=
  match photos_to_delete with
  | [] => mret count
  | photo :: rest =>
      count' ← delete_one photo count;
      delete_loop rest count'
  end.

Definition confirm_prompt : string :=
  "Are you sure you want to delete these photos? This action cannot be undone. (yes/[no]): ".

Definition delete_photos (api : api) (target_date : date) : py unit :=
  emit Enumerate;;
  photos_to_delete ← collect_loop (photos_all api) target_date [];
  let total := length photos_to_delete in
  print ("Found " +:+ PyStr.of_nat total +:+ " photos to delete.");;
  confirm ← input confirm_prompt;
  if negb (String.eqb (PyStr.lower confirm) "yes") then
    print "Deletion canceled."
  else
    count ← delete_loop photos_to_delete 0;
    print ("Deleted " +:+ PyStr.of_nat count +:+ " out of " +:+
           PyStr.of_nat total +:+ " photos.").

(** [main] from line 174 on, with the namespace [parse_args]
    returned. *)
Definition main (args : args) : py unit :=
  match args_command args with
  | None => print (format_help w);; sys_exit 1
  | Some command =>
      config ← load_config (args_config args);
      api ← login config;
      target_date ← parse_date (args_date args);
      match command with
      | CmdDownload => download_photos api target_date (args_output_dir args)
      | CmdDelete => delete_photos api target_date
      end
  end.

(** The whole of [main]: the command line [argv] is parsed first. *)
Definition script (argv : list string) : py unit :=
  match parse_args w argv with
  | Namespace args => main args
  | HelpExit text => print text;; sys_exit 0
  | UsageExit => sys_exit 2
  end.

End Script.

(** ** Vocabulary of the specification *)

(** The creation date of an item, when it can be read. *)
Definition creation_date (p : photo) : option date :=
  match created p with
  | Gives (Some dt) => Some (datetime_date dt)
  | _ => None
  end.

(** An item matches when its creation date can be read and is on or
    before the cutoff. *)
Definition matches (cutoff : date) (p : photo) : bool :=
  match creation_date p with
  | Some d => date_leb d cutoff
  | None => false
  end.

(** [selectMatching]: the matching items, in enumeration order. *)
Definition select_matching (photos : list photo) (cutoff : date) : list photo :=
  List.filter (matches cutoff) photos.

(** The text of the exception that reading the creation date raises. *)
Definition date_error (p : photo) : option string :=
  match created p with
  | Raises msg => Some msg
  | Gives None => Some "'NoneType' object has no attribute 'date'"
  | Gives (Some _) => None
  end.

(** The diagnostic for an item whose creation date cannot be read. *)
Definition diagnostic (p : photo) : list event :=
  match date_error p with
  | Some msg => [Print ("Could not determine creation date for a photo: " +:+ msg)]
  | None => []
  end.

Definition diagnostics (photos : list photo) : list event :=
  flat_map diagnostic photos.

(** The items on which a trace calls [download()], resp. [delete()], in
    order. *)
Definition downloads_of (t : list event) : list photo :=
  flat_map (fun e => match e with CallDownload p => [p] | _ => [] end) t.

Definition deletes_of (t : list event) : list photo :=
  flat_map (fun e => match e with CallDelete p => [p] | _ => [] end) t.

(** The prompts a trace reads an answer for. *)
Definition prompts_of (t : list event) : list string :=
  flat_map (fun e => match e with Input prompt => [prompt] | _ => [] end) t.

(** The lines a trace prints. *)
Definition lines_of (t : list event) : list string :=
  flat_map (fun e => match e with Print line => [line] | _ => [] end) t.

(** The events of a trace that reach the photo library. *)
Definition touches_library (e : event) : bool :=
  match e with
  | Enumerate | CallDownload _ | CallDelete _ => true
  | _ => false
  end.

(** Whether [delete()] succeeds on an item. *)
Definition delete_ok (p : photo) : bool :=
  match delete p with
  | Gives _ => true
  | Raises _ => false
  end.

(** What one round of the deletion loop shows. *)
Definition delete_events (p : photo) : list event :=
  match delete p with
  | Gives _ => [CallDelete p; Print ("Deleted " +:+ filename p)]
  | Raises msg =>
      [CallDelete p; Print ("Failed to delete " +:+ filename p +:+ ": " +:+ msg)]
  end.

Definition found_line (total : nat) : string :=
  "Found " +:+ PyStr.of_nat total +:+ " photos to delete.".

Definition deleted_line (count total : nat) : string :=
  "Deleted " +:+ PyStr.of_nat count +:+ " out of " +:+ PyStr.of_nat total +:+ " photos.".

Definition downloaded_line (count : nat) (output_dir : string) : string :=
  "Downloaded " +:+ PyStr.of_nat count +:+ " photos to '" +:+ output_dir +:+ "'.".

(** The number of items of a batch on which an action succeeds, resp.
    fails. *)
Definition succeeded (ok : photo -> bool) (batch : list photo) : nat :=
  length (List.filter ok batch).

Definition failed (ok : photo -> bool) (batch : list photo) : nat :=
  length (List.filter (fun p => negb (ok p)) batch).

(** The beginning of a line that logs a failed action. *)
Definition is_failure_line (line : string) : bool :=
  String.prefix "Failed to " line.

Definition failures_logged (t : list event) : nat :=
  length (List.filter is_failure_line (lines_of t)).

(** What [delete_photos] shows up to and including its prompt. *)
Definition delete_prefix (api : api) (c : date) : list event :=
  Enumerate :: diagnostics (photos_all api)
  ++ [Print (found_line (length (select_matching (photos_all api) c)));
      Input confirm_prompt].

(** ** The effect of a download on the disk *)

(** What [download_photos] does about the output directory: nothing when
    the path exists, [os.makedirs] otherwise; the exception raised, if
    any, and the disk afterwards. *)
Definition ensure (output_dir : string) (fs : Posix.filesystem)
    : option Posix.oserror * Posix.filesystem :=
  if Posix.exists_ fs output_dir then (None, fs) else Posix.makedirs output_dir fs.

(** The output directory as [download_photos] ensures it: the disk on
    which the loop runs, or the exception that ends the run. *)
Definition ensure_dir (output_dir : string) (fs : Posix.filesystem)
    : Posix.oserror + Posix.filesystem :=
  match ensure output_dir fs with
  | (None, fs') => inr fs'
  | (Some e, _) => inl e
  end.

(** Whether the download of an item into [output_dir] succeeds, given the
    directories of the disk. *)
Definition download_ok (d : Posix.tree) (output_dir : string) (p : photo)
    : bool :=
  match download p with
  | Gives (Some r) =>
      match raw_read r, Posix.open_target d (Posix.join output_dir (filename p)) with
      | Gives _, Some _ => true
      | _, _ => false
      end
  | _ => false
  end.

(** The text of the exception a failed download attempt raises. *)
Definition download_failure (fs : Posix.filesystem) (output_dir : string) (p : photo)
    : option string :=
  match download p with
  | Raises msg => Some msg
  | Gives resp =>
      match Posix.open_wb (Posix.join output_dir (filename p)) fs with
      | inl e => Some (Posix.oserror_str e)
      | inr _ =>
          match resp with
          | None => Some "'NoneType' object has no attribute 'raw'"
          | Some r =>
              match raw_read r with
              | Raises msg => Some msg
              | Gives _ => None
              end
          end
      end
  end.

(** The contents a download attempt gives to files, in order: the file is
    emptied when opened and filled when the bytes have been read. *)
Definition download_writes (d : Posix.tree) (output_dir : string) (p : photo)
    : list (Posix.location * list Byte.byte) :=
  match download p with
  | Raises _ => []
  | Gives resp =>
      match Posix.open_target d (Posix.join output_dir (filename p)) with
      | None => []
      | Some l =>
          (l, []) ::
          match resp with
          | Some r =>
              match raw_read r with
              | Gives data => [(l, data)]
              | Raises _ => []
              end
          | None => []
          end
      end
  end.

Fixpoint apply_writes (ws : list (Posix.location * list Byte.byte))
    (m : gmap Posix.location (list Byte.byte)) : gmap Posix.location (list Byte.byte) :=
  match ws with
  | [] => m
  | (l, data) :: ws' => apply_writes ws' (<[ l := data ]> m)
  end.

(** The last contents a sequence of writes gives to a location. *)
Fixpoint last_write (ws : list (Posix.location * list Byte.byte)) (l : Posix.location)
    : option (list Byte.byte) :=
  match ws with
  | [] => None
  | (l', data) :: ws' =>
      match last_write ws' l with
      | Some data' => Some data'
      | None => if decide (l' = l) then Some data else None
      end
  end.

(** What one round of the download loop shows on the disk [fs]. *)
Definition download_events (fs : Posix.filesystem) (output_dir : string)
    (photo_date : date) (p : photo) : list event :=
  [Print ("Downloading " +:+ filename p +:+ " taken on " +:+
          date_str photo_date +:+ " ...");
   CallDownload p] ++
  match download_failure fs output_dir p with
  | Some msg => [Print ("Failed to download " +:+ filename p +:+ ": " +:+ msg)]
  | None => []
  end.

(** The writes of a whole batch, and what the download loop shows on a
    disk with directories [D] and files [F]. *)
Definition batch_writes (D : Posix.tree) (output_dir : string)
    (batch : list photo) : list (Posix.location * list Byte.byte) :=
  flat_map (download_writes D output_dir) batch.

Fixpoint download_loop_events (photos : list photo) (c : date) (output_dir : string)
    (D : Posix.tree) (F : gmap Posix.location (list Byte.byte))
    : list event :=
  match photos with
  | [] => []
  | p :: rest =>
      diagnostic p ++
      match creation_date p with
      | Some d =>
          if date_leb d c then
            download_events (Posix.Filesystem D F) output_dir d p ++
            download_loop_events rest c output_dir D
              (apply_writes (download_writes D output_dir p) F)
          else download_loop_events rest c output_dir D F
      | None => download_loop_events rest c output_dir D F
      end
  end.

(** ** The credentials of a configuration *)

(** What the three [get] calls of [login] read: the username and the
    password (where a missing key reads as [None]), or the
    [AttributeError] of a [get] on something that is no mapping. *)
Definition read_credentials (config : yaml) : attr (yaml * yaml) :=
  match yaml_get config "icloud" (YMap []) with
  | Raises msg => Raises msg
  | Gives icloud_config =>
      match yaml_get icloud_config "username" YNull,
            yaml_get icloud_config "password" YNull with
      | Gives username, Gives password => Gives (username, password)
      | Raises msg, _ | _, Raises msg => Raises msg
      end
  end.

(** The configuration lacks a usable username or password: one of them is
    missing, [None], empty or otherwise falsy, or the document has no
    mapping to read them from. *)
Definition credentials_missing (config : yaml) : Prop :=
  match read_credentials config with
  | Gives (username, password) => truthy username = false \/ truthy password = false
  | Raises _ => True
  end.

(** The configuration has the shape the [get] calls expect: a mapping
    whose [icloud] entry, when present, is a mapping. *)
Definition well_shaped (config : yaml) : Prop :=
  exists credentials, read_credentials config = Gives credentials.

Definition is_authenticate (e : event) : bool :=
  match e with
  | Authenticate _ _ => true
  | _ => false
  end.

(** A trace that does not reach the photo library. *)
Definition quiet (t : list event) : bool :=
  List.forallb (fun e => negb (touches_library e)) t.

Definition missing_credentials_line : string :=
  "Username and/or password not provided in the config file.".

Definition invalid_date_line : string :=
  "Invalid date format. Please provide a date in YYYY-MM-DD format.".

(** ** Sample inputs *)

Definition noon (y m d : Z) : datetime := Datetime y m d 12 0 0 0.

Definition jpeg_bytes : list Byte.byte := [Byte.xff; Byte.xd8; Byte.xff; Byte.xd9].

Definition photo_dec31 : photo :=
  Photo "IMG_0001.JPG" (Gives (Some (noon 2021 12 31)))
    (Gives (Some (Response (Gives jpeg_bytes)))) (Gives tt).

Definition photo_jan01 : photo :=
  Photo "IMG_0002.JPG" (Gives (Some (noon 2022 1 1)))
    (Raises "Connection reset by peer") (Raises "Service Unavailable (503)").

Definition photo_jan02 : photo :=
  Photo "IMG_0003.JPG" (Gives (Some (noon 2022 1 2)))
    (Gives (Some (Response (Gives jpeg_bytes)))) (Gives tt).

Definition photo_undated : photo :=
  Photo "IMG_0004.JPG" (Raises "'assetDate'")
    (Gives (Some (Response (Gives jpeg_bytes)))) (Gives tt).

Definition three_photos : list photo := [photo_dec31; photo_jan01; photo_jan02].

Definition sample_photos : list photo :=
  [photo_dec31; photo_undated; photo_jan01; photo_jan02].

Definition api_of (photos : list photo) : api :=
  Api false false (fun _ => true) (fun _ => true) photos.

(** A process in [/home/user], on a disk with nothing below it. *)
Definition home : Posix.location := ["home"; "user"].

Definition in_home (made : gset Posix.location) : Posix.tree :=
  Posix.Tree home made 990.

Definition empty_disk : Posix.filesystem := Posix.Filesystem (in_home ∅) ∅.

Definition sample_config : yaml :=
  YMap [("icloud", YMap [("username", YStr "user@example.com");
                         ("password", YStr "app-password")])].

(** A parser for the command lines of the samples. *)
Definition sample_help : string :=
  "usage: clean-icloud.py [-h] [--config CONFIG] {download,delete} ...".

Definition sample_parse_args (argv : list string) : parsed :=
  match argv with
  | [] => Namespace (Args "config.yaml" None "" "")
  | ["-h"] => HelpExit sample_help
  | ["delete"; "--date"; d] => Namespace (Args "config.yaml" (Some CmdDelete) d "")
  | ["download"; "--date"; d] =>
      Namespace (Args "config.yaml" (Some CmdDownload) d "downloads")
  | _ => UsageExit
  end.

(** The text [2022-01-1] followed by the Arabic-Indic digit five (U+0665,
    the bytes D9 A5), which [strptime] reads as 2022-01-15, and the code
    [123456] after a no-break space (U+00A0, the bytes C2 A0), which
    [str.strip] removes. *)
Definition arabic_indic_five : string :=
  String (ascii_of_N 217) (String (ascii_of_N 165) EmptyString).

Definition date_with_arabic_digit : string := "2022-01-1" +:+ arabic_indic_five.

Definition no_break_space : string :=
  String (ascii_of_N 194) (String (ascii_of_N 160) EmptyString).

Definition code_after_no_break_space : string := no_break_space +:+ "123456".

Definition sample_strptime (s : string) : attr date :=
  if String.eqb s date_with_arabic_digit then Gives (Date 2022 1 15)
  else Raises ("time data '" +:+ s +:+ "' does not match format '%Y-%m-%d'").

Definition sample_strip (s : string) : string :=
  if String.eqb s code_after_no_break_space then "123456" else s.

Definition world_of (load : string -> attr yaml) (service : yaml -> yaml -> attr api)
    : world :=
  World load service sample_parse_args sample_help sample_strptime sample_strip.

Definition sample_world : world :=
  world_of (fun _ => Gives sample_config) (fun _ _ => Gives (api_of sample_photos)).

Definition empty_username_config : yaml :=
  YMap [("icloud", YMap [("username", YStr ""); ("password", YStr "app-password")])].

Definition bad_date_args : args :=
  Args "config.yaml" (Some CmdDelete) "01/02/2022" "downloads".

Definition delete_args : args :=
  Args "config.yaml" (Some CmdDelete) "2022-01-01" "downloads".

Definition downloads_dir : Posix.tree := in_home {[ home ++ ["downloads"] ]}.

Definition disk_with_downloads : Posix.filesystem :=
  Posix.Filesystem downloads_dir
    {[ home ++ ["downloads"; "notes.txt"] := jpeg_bytes ]}.

(** ** Further vocabulary: what a run does beyond the selection *)

(** The credentials a trace hands to the pyicloud constructor, in order. *)
Definition authentications (t : list event) : list (yaml * yaml) :=
  flat_map (fun e => match e with Authenticate u p => [(u, p)] | _ => [] end) t.

(** The codes a trace submits for validation. *)
Definition validations (t : list event) : list event :=
  List.filter (fun e => match e with Validate2fa _ | Validate2sa _ => true | _ => false end) t.

(** An item without a readable creation date, and one created after the
    cutoff. *)
Definition undated (p : photo) : bool :=
  match creation_date p with
  | Some _ => false
  | None => true
  end.

Definition newer (cutoff : date) (p : photo) : bool :=
  match creation_date p with
  | Some d => negb (date_leb d cutoff)
  | None => false
  end.

Definition is_diagnostic_line (line : string) : bool :=
  String.prefix "Could not determine creation date for a photo:" line.

Definition diagnostics_logged (t : list event) : nat :=
  length (List.filter is_diagnostic_line (lines_of t)).

(** What has to go well for [main] to reach the end of a sub-command:
    the sub-command is named, the configuration loads, [login] returns a
    handle, the date parses, and then the output directory can be ensured
    (download) or an answer can be read (delete). *)
Definition completes (w : world) (a : args) (st : state) : Prop :=
  exists cmd config api st1 t1 d,
    args_command a = Some cmd /\
    yaml_load w (args_config a) = Gives config /\
    login w config st = (Ok api, st1, t1) /\
    strptime_date w (args_date a) = Gives d /\
    match cmd with
    | CmdDownload => exists fs1, ensure_dir (args_output_dir a) (disk st1) = inr fs1
    | CmdDelete => stdin st1 <> []
    end.

(** More sample inputs. *)
Definition failing_world : world :=
  world_of (fun _ => Raises "[Errno 2] No such file or directory: 'config.yaml'")
        (fun _ _ => Gives (api_of sample_photos)).

Definition api_2fa_and_2sa : api :=
  Api true true (fun code => String.eqb code "123456") (fun _ => true) sample_photos.

Definition world_2fa : world :=
  world_of (fun _ => Gives sample_config) (fun _ _ => Gives api_2fa_and_2sa).

Definition download_args : args :=
  Args "config.yaml" (Some CmdDownload) "2022-01-02" "downloads".

(** The rest of the pattern of [strptime] once the year [Y] is matched. *)
Definition after_year (Y : string) (s1 : string)
    : option (string * string * string * string) :=
  Strptime.match_alt Strptime.re_dash s1 (fun _ s2 =>
  Strptime.match_alt Strptime.re_m s2 (fun m s3 =>
  Strptime.match_alt Strptime.re_dash s3 (fun _ s4 =>
  Strptime.match_alt Strptime.re_d s4 (fun d rest => Some (Y, m, d, rest))))).

(** A character class that holds of ASCII characters only. *)
Definition ascii_class (c : Strptime.cls) : Prop :=
  forall x, c x = true -> (PyStr.code x <? 128) = true.

(** The years 0..9999 and the pairs of a month 1..12 and a day 1..31. *)
Definition four_digit_years : list Z := map Z.of_nat (seq 0 (100 * 100)).

Definition month_days : list (Z * Z) :=
  list_prod (map Z.of_nat (seq 1 12)) (map Z.of_nat (seq 1 31)).

(** A year prints as four decimal digits that read back as the year. *)
Definition year_prints (y : Z) : bool :=
  match PyStr.zero_pad 4 y with
  | String a (String b (String c (String d EmptyString))) =>
      PyStr.is_digit a && PyStr.is_digit b && PyStr.is_digit c && PyStr.is_digit d &&
      (Strptime.int (PyStr.zero_pad 4 y) =? y)
  | _ => false
  end.

(** The month and the day of a date, padded as [str(date)] prints them and
    bare as [str(int)] does, are matched whole and read back. *)
Definition month_day_parses (Y : string) (md : Z * Z) : Prop :=
  let padded_m := PyStr.zero_pad 2 (fst md) in
  let padded_d := PyStr.zero_pad 2 (snd md) in
  let bare_m := PyStr.zero_pad 1 (fst md) in
  let bare_d := PyStr.zero_pad 1 (snd md) in
  after_year Y ("-" +:+ padded_m +:+ "-" +:+ padded_d) = Some (Y, padded_m, padded_d, "") /\
  after_year Y ("-" +:+ bare_m +:+ "-" +:+ bare_d) = Some (Y, bare_m, bare_d, "") /\
  Strptime.int padded_m = fst md /\ Strptime.int padded_d = snd md /\
  Strptime.int bare_m = fst md /\ Strptime.int bare_d = snd md.

(** [f"{y:04d}-{m}-{d}"]: the date with a bare month and day. *)
Definition date_str_bare (d : date) : string :=
  PyStr.zero_pad 4 (year d) +:+ "-" +:+ PyStr.zero_pad 1 (month d) +:+ "-" +:+
  PyStr.zero_pad 1 (day d).

(** Two runs of the download of one item into the output directory
    [a/..], on a disk without [a]. *)
Definition first_run_into_parent : result unit * state * list event :=
  download_photos (api_of [photo_dec31]) (Date 2022 1 1) "a/.." (State [] empty_disk).

Definition second_run_into_parent : result unit * state * list event :=
  download_photos (api_of [photo_dec31]) (Date 2022 1 1) "a/.."
    (final first_run_into_parent).

(** A file name without a slash that is neither empty nor [.]. *)
Fixpoint has_slash (s : string) : bool :=
  match s with
  | EmptyString => false
  | String c s' => Posix.is_slash c || has_slash s'
  end.

Definition plain_name (f : string) : bool :=
  negb (has_slash f) && negb (String.eqb f "") && negb (String.eqb f ".").

(** A file name that names an entry of a directory: a plain name other
    than [..], without a NUL character. *)
Definition entry_name (f : string) : bool :=
  plain_name f && negb (String.eqb f "..") && negb (Posix.has_nul f).

(** Two items that share a file name, the second of which cannot be read. *)
Definition photo_first_copy : photo :=
  Photo "IMG_0001.JPG" (Gives (Some (noon 2021 12 30)))
    (Gives (Some (Response (Gives [Byte.x01])))) (Gives tt).

Definition photo_unreadable : photo :=
  Photo "IMG_0001.JPG" (Gives (Some (noon 2021 12 31)))
    (Gives (Some (Response (Raises "Read timed out")))) (Gives tt).

(** An item whose file name goes through [.] and [..] to the place of
    [IMG_0001.JPG]. *)
Definition photo_through_dots : photo :=
  Photo "./../downloads/IMG_0001.JPG" (Gives (Some (noon 2021 12 31)))
    (Gives (Some (Response (Gives jpeg_bytes)))) (Gives tt).

(** An item whose file name is [..]. *)
Definition photo_named_dotdot : photo :=
  Photo ".." (Gives (Some (noon 2021 12 31)))
    (Gives (Some (Response (Gives jpeg_bytes)))) (Gives tt).

(** A disk on which the output path is a regular file. *)
Definition disk_with_file_downloads : Posix.filesystem :=
  Posix.Filesystem (in_home ∅) {[ home ++ ["downloads"] := jpeg_bytes ]}.

(** * Properties *)

(** ** The model on sample inputs *)

Example strptime_iso : Strptime.strptime_ymd "2022-01-01" = Gives (Date 2022 1 1).
Proof. reflexivity. Qed.

Example strptime_short : Strptime.strptime_ymd "2022-1-5" = Gives (Date 2022 1 5).
Proof. reflexivity. Qed.

Example strptime_feb30 :
  Strptime.strptime_ymd "2022-02-30" = Raises "day is out of range for month".
Proof. reflexivity. Qed.

Example strptime_trailing :
  Strptime.strptime_ymd "2022-01-011" = Raises "unconverted data remains: 1".
Proof. reflexivity. Qed.

Example strptime_slashes :
  Strptime.strptime_ymd "01/02/2022"
  = Raises "time data '01/02/2022' does not match format '%Y-%m-%d'".
Proof. reflexivity. Qed.

Example date_str_pad : date_str (Date 2022 1 5) = "2022-01-05".
Proof. reflexivity. Qed.

Example lower_mixed_case : PyStr.lower "YeS" = "yes".
Proof. reflexivity. Qed.

Example strip_code : PyStr.strip "  123 456 " = "123 456".
Proof. reflexivity. Qed.

Example join_plain : Posix.join "downloads" "IMG_0001.JPG" = "downloads/IMG_0001.JPG".
Proof. reflexivity. Qed.

Example join_trailing_slash : Posix.join "downloads/" "IMG_0001.JPG" = "downloads/IMG_0001.JPG".
Proof. reflexivity. Qed.

Example join_absolute : Posix.join "downloads" "/tmp/x" = "/tmp/x".
Proof. reflexivity. Qed.

Example split_trailing_slash : Posix.split "out/2022/" = ("out/2022", "").
Proof. reflexivity. Qed.

Example split_root : Posix.split "/out" = ("/", "out").
Proof. reflexivity. Qed.

Example open_resolves_dots :
  Posix.open_target downloads_dir "downloads/./../downloads//IMG_0001.JPG"
  = Some (home ++ ["downloads"; "IMG_0001.JPG"]).
Proof. vm_compute. reflexivity. Qed.

Example open_parent_is_a_directory :
  Posix.open_wb "downloads/.." disk_with_downloads
  = inl (Posix.IsADirectoryError "downloads/..").
Proof. vm_compute. reflexivity. Qed.

Example open_through_missing_directory :
  Posix.open_target downloads_dir "downloads/e/../IMG_0001.JPG" = None.
Proof. vm_compute. reflexivity. Qed.

Example makedirs_nested :
  Posix.makedirs "out/2022" empty_disk
  = (None, Posix.Filesystem (in_home {[ home ++ ["out"; "2022"]; home ++ ["out"] ]}) ∅).
Proof. vm_compute. reflexivity. Qed.

Example makedirs_of_a_parent :
  Posix.makedirs "a/.." empty_disk
  = (Some (Posix.FileExistsError "a/.."),
     Posix.Filesystem (in_home {[ home ++ ["a"] ]}) ∅).
Proof. vm_compute. reflexivity. Qed.

Example name_dotdot_is_a_directory :
  lines_of (trace (download_photos (api_of [photo_named_dotdot]) (Date 2022 1 1)
                     "downloads" (State [] disk_with_downloads)))
  = ["Downloading .. taken on 2021-12-31 ...";
     "Failed to download ..: [Errno 21] Is a directory: 'downloads/..'";
     "Downloaded 0 photos to 'downloads'."].
Proof. vm_compute. reflexivity. Qed.

Example arabic_indic_date_goes_on :
  lines_of (trace (main sample_world
                     (Args "config.yaml" (Some CmdDelete) date_with_arabic_digit "")
                     (State ["no"] empty_disk)))
  = ["Could not determine creation date for a photo: 'assetDate'";
     "Found 3 photos to delete.";
     "Deletion canceled."].
Proof. vm_compute. reflexivity. Qed.

Example strptime_arabic_indic_digit :
  strptime_date sample_world date_with_arabic_digit = Gives (Date 2022 1 15).
Proof. reflexivity. Qed.

Example sample_delete_run :
  lines_of (trace (delete_photos (api_of sample_photos) (Date 2022 1 1)
                     (State ["Yes"] empty_disk)))
  = ["Could not determine creation date for a photo: 'assetDate'";
     "Found 2 photos to delete.";
     "Deleted IMG_0001.JPG";
     "Failed to delete IMG_0002.JPG: Service Unavailable (503)";
     "Deleted 1 out of 2 photos."].
Proof. reflexivity. Qed.

(** ** Running the monad *)

Lemma bind_run {A B} (m : py A) (k : A -> py B) (st : state) :
  (m ≫= k) st =
  match m st with
  | (Ok a, st', t) => let '(r, st'', t') := k a st' in (r, st'', t ++ t')
  | (Raise e, st', t) => (Raise e, st', t)
  end.
Proof. reflexivity. Qed.

Lemma bind_ok {A B} (m : py A) (k : A -> py B) st a st' t :
  m st = (Ok a, st', t) ->
  (m ≫= k) st = (outcome (k a st'), final (k a st'), t ++ trace (k a st')).
Proof.
  intros H. rewrite bind_run, H. destruct (k a st') as [[r st''] t']. reflexivity.
Qed.

Lemma bind_raise {A B} (m : py A) (k : A -> py B) st e st' t :
  m st = (Raise e, st', t) -> (m ≫= k) st = (Raise e, st', t).
Proof. intros H. rewrite bind_run, H. reflexivity. Qed.

Lemma run_eta {A} (r : result A * state * list event) :
  r = (outcome r, final r, trace r).
Proof. destruct r as [[? ?] ?]. reflexivity. Qed.

Lemma bind_emit {B} (e : event) (k : unit -> py B) (st : state) :
  (emit e ≫= k) st = (outcome (k tt st), final (k tt st), e :: trace (k tt st)).
Proof. apply (bind_ok (emit e) k st tt st [e]). reflexivity. Qed.

Lemma bind_print {B} (line : string) (k : unit -> py B) (st : state) :
  (print line ≫= k) st
  = (outcome (k tt st), final (k tt st), Print line :: trace (k tt st)).
Proof. apply bind_emit. Qed.

Lemma bind_ret {A B} (a : A) (k : A -> py B) (st : state) :
  (mret a ≫= k) st = k a st.
Proof.
  rewrite (bind_ok (mret a) k st a st []) by reflexivity.
  symmetry. apply run_eta.
Qed.

Lemma bind_input {B} (prompt : string) (k : string -> py B) (st : state) :
  (input prompt ≫= k) st =
  match stdin st with
  | line :: rest =>
      let r := k line (State rest (disk st)) in
      (outcome r, final r, Input prompt :: trace r)
  | [] => (Raise (Exception "EOF when reading a line"), st, [Input prompt])
  end.
Proof.
  destruct (stdin st) as [| line rest] eqn:E.
  - apply bind_raise. unfold input. rewrite E. reflexivity.
  - cbv zeta.
    apply (bind_ok (input prompt) k st line (State rest (disk st)) [Input prompt]).
    unfold input. rewrite E. reflexivity.
Qed.

Lemma bind_eval_Gives {A B} (a : A) (k : A -> py B) (st : state) :
  (eval (Gives a) ≫= k) st = k a st.
Proof. apply bind_ret. Qed.

Lemma bind_eval_Raises {A B} (msg : string) (k : A -> py B) (st : state) :
  (eval (Raises msg) ≫= k) st = (Raise (Exception msg), st, []).
Proof. reflexivity. Qed.

Lemma print_run (line : string) (st : state) :
  print line st = (Ok tt, st, [Print line]).
Proof. reflexivity. Qed.

(** ** The selection loop *)

Lemma read_date_run (p : photo) (st : state) :
  read_date p st = (Ok (creation_date p), st, diagnostic p).
Proof.
  unfold read_date, try_except, created_date, creation_date, diagnostic, date_error.
  rewrite bind_run. unfold eval.
  destruct (created p) as [msg | [dt | ]]; reflexivity.
Qed.

Lemma select_matching_app (l1 l2 : list photo) (c : date) :
  select_matching (l1 ++ l2) c = select_matching l1 c ++ select_matching l2 c.
Proof. unfold select_matching. apply List.filter_app. Qed.

Lemma collect_loop_run (photos : list photo) (c : date) :
  forall (acc : list photo) (st : state),
    collect_loop photos c acc st
    = (Ok (acc ++ select_matching photos c), st, diagnostics photos).
Proof.
  induction photos as [| p rest IH]; intros acc st.
  - simpl. rewrite app_nil_r. reflexivity.
  - cbn [collect_loop].
    rewrite (bind_ok _ _ _ _ _ _ (read_date_run p st)).
    unfold select_matching, diagnostics. cbn [List.filter flat_map].
    unfold matches at 1.
    destruct (creation_date p) as [d |].
    + destruct (date_leb d c).
      * rewrite IH. cbn [outcome final trace fst snd].
        rewrite <- app_assoc. reflexivity.
      * rewrite IH. reflexivity.
    + rewrite IH. reflexivity.
Qed.

(** ** The deletion loop *)

Lemma delete_one_run (p : photo) (count : nat) (st : state) :
  delete_one p count st
  = (Ok (if delete_ok p then S count else count), st, delete_events p).
Proof.
  unfold delete_one, try_except, delete_ok, delete_events.
  rewrite bind_run. cbn [emit]. rewrite bind_run. unfold eval.
  destruct (delete p) as [msg | []]; reflexivity.
Qed.

Lemma delete_loop_run (batch : list photo) :
  forall (count : nat) (st : state),
    delete_loop batch count st
    = (Ok (count + succeeded delete_ok batch)%nat, st, flat_map delete_events batch).
Proof.
  induction batch as [| p rest IH]; intros count st.
  - cbn. rewrite Nat.add_0_r. reflexivity.
  - cbn [delete_loop].
    rewrite (bind_ok _ _ _ _ _ _ (delete_one_run p count st)), IH.
    cbn [outcome final trace fst snd flat_map].
    unfold succeeded. cbn [List.filter].
    destruct (delete_ok p); cbn [length]; do 3 f_equal; lia.
Qed.

(** The whole of [delete_photos], by the answer on stdin. *)
Lemma delete_photos_run (api : api) (c : date) (st : state) :
  delete_photos api c st =
  let batch := select_matching (photos_all api) c in
  match stdin st with
  | [] => (Raise (Exception "EOF when reading a line"), st, delete_prefix api c)
  | confirm :: rest =>
      if String.eqb (PyStr.lower confirm) "yes" then
        (Ok tt, State rest (disk st),
         delete_prefix api c ++ flat_map delete_events batch
         ++ [Print (deleted_line (succeeded delete_ok batch) (length batch))])
      else
        (Ok tt, State rest (disk st),
         delete_prefix api c ++ [Print "Deletion canceled."])
  end.
Proof.
  unfold delete_photos, delete_prefix.
  rewrite bind_emit.
  rewrite (bind_ok _ _ _ _ _ _ (collect_loop_run (photos_all api) c [] st)).
  cbn [app outcome final trace fst snd].
  set (batch := select_matching (photos_all api) c).
  rewrite bind_print, bind_input.
  cbn [outcome final trace fst snd].
  destruct (stdin st) as [| confirm rest].
  - reflexivity.
  - cbv zeta. destruct (String.eqb (PyStr.lower confirm) "yes"); cbn [negb].
    + rewrite (bind_ok _ _ _ _ _ _ (delete_loop_run batch 0 _)).
      cbn [outcome final trace fst snd print emit Nat.add app].
      rewrite <- app_assoc. reflexivity.
    + cbn [outcome final trace fst snd print emit app].
      rewrite <- app_assoc. reflexivity.
Qed.

(** ** The download loop *)

Lemma open_wb_ok (s : string) (D : Posix.tree)
    (F : gmap Posix.location (list Byte.byte)) (l : Posix.location) :
  Posix.open_target D s = Some l ->
  Posix.open_wb s (Posix.Filesystem D F)
  = inr (l, Posix.Filesystem D (<[ l := [] ]> F)).
Proof. intros E. unfold Posix.open_wb. cbn [Posix.dirs Posix.files]. rewrite E. reflexivity. Qed.

Lemma open_wb_err (s : string) (D : Posix.tree)
    (F : gmap Posix.location (list Byte.byte)) :
  Posix.open_target D s = None ->
  exists e, Posix.open_wb s (Posix.Filesystem D F) = inl e.
Proof.
  intros E. unfold Posix.open_wb. cbn [Posix.dirs Posix.files]. rewrite E. eauto.
Qed.

Ltac py_unfold :=
  cbv beta iota zeta delta
    [try_except mbind py_bind bind mret py_ret ret raise print emit eval
     fs_call fs_open fs_update fs_test raw_read_of disk stdin].

Lemma download_one_run (p : photo) (d : date) (dir : string) (count : nat)
    (inp : list string) (D : Posix.tree)
    (F : gmap Posix.location (list Byte.byte)) :
  download_one p d dir count (State inp (Posix.Filesystem D F))
  = (Ok (if download_ok D dir p then S count else count),
     State inp (Posix.Filesystem D (apply_writes (download_writes D dir p) F)),
     download_events (Posix.Filesystem D F) dir d p).
Proof.
  unfold download_one, download_events, download_failure, download_ok, download_writes.
  destruct (download p) as [msg | resp]; [reflexivity |].
  destruct (Posix.open_target D (Posix.join dir (filename p))) as [l |] eqn:E.
  - pose proof (open_wb_ok _ D F l E) as Hopen.
    py_unfold. rewrite Hopen.
    destruct resp as [r |]; [destruct (raw_read r) |]; reflexivity.
  - destruct (open_wb_err _ D F E) as [e' He'].
    py_unfold. rewrite He'.
    destruct resp as [r |]; [destruct (raw_read r) |]; reflexivity.
Qed.

Lemma apply_writes_app (w1 w2 : list (Posix.location * list Byte.byte)) :
  forall F, apply_writes (w1 ++ w2) F = apply_writes w2 (apply_writes w1 F).
Proof.
  induction w1 as [| [l data] w1 IH]; intros F; [reflexivity |].
  cbn [app apply_writes]. apply IH.
Qed.

Lemma select_matching_cons (p : photo) (rest : list photo) (c : date) :
  select_matching (p :: rest) c
  = if matches c p then p :: select_matching rest c else select_matching rest c.
Proof. reflexivity. Qed.

Lemma succeeded_cons (ok : photo -> bool) (p : photo) (batch : list photo) :
  succeeded ok (p :: batch)
  = ((if ok p then 1 else 0) + succeeded ok batch)%nat.
Proof. unfold succeeded. cbn [List.filter]. destruct (ok p); reflexivity. Qed.

Lemma failed_cons (ok : photo -> bool) (p : photo) (batch : list photo) :
  failed ok (p :: batch)
  = ((if ok p then 0 else 1) + failed ok batch)%nat.
Proof. unfold failed. cbn [List.filter]. destruct (ok p); reflexivity. Qed.

Lemma succeeded_failed (ok : photo -> bool) (batch : list photo) :
  (succeeded ok batch + failed ok batch = length batch)%nat.
Proof.
  induction batch as [| p rest IH]; [reflexivity |].
  rewrite succeeded_cons, failed_cons. cbn [length].
  destruct (ok p); lia.
Qed.

Lemma download_loop_run (photos : list photo) (c : date) (dir : string)
    (inp : list string) (D : Posix.tree) :
  forall (count : nat) (F : gmap Posix.location (list Byte.byte)),
    download_loop photos c dir count (State inp (Posix.Filesystem D F))
    = (Ok (count + succeeded (download_ok D dir) (select_matching photos c))%nat,
       State inp (Posix.Filesystem D
                    (apply_writes (batch_writes D dir (select_matching photos c)) F)),
       download_loop_events photos c dir D F).
Proof.
  induction photos as [| p rest IH]; intros count F.
  - cbn. rewrite Nat.add_0_r. reflexivity.
  - cbn [download_loop download_loop_events].
    rewrite (bind_ok _ _ _ _ _ _ (read_date_run p _)).
    rewrite select_matching_cons. unfold matches.
    destruct (creation_date p) as [d |]; [destruct (date_leb d c) |].
    + rewrite (bind_ok _ _ _ _ _ _ (download_one_run p d dir count inp D F)), IH.
      cbn [outcome final trace fst snd].
      rewrite succeeded_cons. unfold batch_writes. cbn [flat_map].
      rewrite apply_writes_app.
      destruct (download_ok D dir p); do 3 f_equal; lia.
    + rewrite IH. reflexivity.
    + rewrite IH. reflexivity.
Qed.

(** ** The whole of [download_photos] *)

Lemma bind_fs_test {B} (f : Posix.filesystem -> bool) (k : bool -> py B) (st : state) :
  (fs_test f ≫= k) st = k (f (disk st)) st.
Proof.
  rewrite (bind_ok (fs_test f) k st (f (disk st)) st []) by reflexivity.
  symmetry. apply run_eta.
Qed.

Lemma bind_fs_call_ok {B} f (k : unit -> py B) (st : state) (fs' : Posix.filesystem) :
  f (disk st) = (None, fs') ->
  (fs_call f ≫= k) st = k tt (State (stdin st) fs').
Proof.
  intros H.
  rewrite (bind_ok (fs_call f) k st tt (State (stdin st) fs') []).
  - symmetry. apply run_eta.
  - unfold fs_call. rewrite H. reflexivity.
Qed.

Lemma bind_fs_call_err {B} f (k : unit -> py B) (st : state) (e : Posix.oserror)
    (fs' : Posix.filesystem) :
  f (disk st) = (Some e, fs') ->
  (fs_call f ≫= k) st
  = (Raise (Exception (Posix.oserror_str e)), State (stdin st) fs', []).
Proof.
  intros H. apply bind_raise. unfold fs_call. rewrite H. reflexivity.
Qed.

(** When [os.makedirs] raises, the run ends there, on the disk as
    [os.makedirs] left it. *)
Lemma download_photos_crash (api : api) (c : date) (dir : string) (st : state)
    (e : Posix.oserror) :
  ensure_dir dir (disk st) = inl e ->
  download_photos api c dir st
  = (Raise (Exception (Posix.oserror_str e)),
     State (stdin st) (snd (ensure dir (disk st))), []).
Proof.
  unfold ensure_dir, ensure, download_photos. intros H.
  rewrite bind_fs_test.
  destruct (Posix.exists_ (disk st) dir); [discriminate |].
  cbn [negb].
  destruct (Posix.makedirs dir (disk st)) as [[e' |] fs'] eqn:E; [| discriminate].
  injection H as <-. apply bind_fs_call_err. exact E.
Qed.

Lemma download_photos_ok (api : api) (c : date) (dir : string) (st : state)
    (fs1 : Posix.filesystem) :
  ensure_dir dir (disk st) = inr fs1 ->
  download_photos api c dir st
  = (Ok tt,
     State (stdin st)
       (Posix.Filesystem (Posix.dirs fs1)
          (apply_writes
             (batch_writes (Posix.dirs fs1) dir (select_matching (photos_all api) c))
             (Posix.files fs1))),
     Enumerate ::
     download_loop_events (photos_all api) c dir (Posix.dirs fs1) (Posix.files fs1)
     ++ [Print (downloaded_line
                  (succeeded (download_ok (Posix.dirs fs1) dir)
                     (select_matching (photos_all api) c)) dir)]).
Proof.
  unfold ensure_dir, ensure, download_photos. intros H.
  rewrite bind_fs_test.
  assert (Hrest : forall st1 : state, st1 = State (stdin st) fs1 ->
    (emit Enumerate ≫= λ _ : (),
       download_loop (photos_all api) c dir 0 ≫= λ count : nat,
         print ("Downloaded " +:+ PyStr.of_nat count +:+ " photos to '" +:+
                dir +:+ "'.")) st1
    = (Ok (),
       State (stdin st)
         (Posix.Filesystem (Posix.dirs fs1)
            (apply_writes
               (batch_writes (Posix.dirs fs1) dir (select_matching (photos_all api) c))
               (Posix.files fs1))),
       Enumerate ::
       download_loop_events (photos_all api) c dir (Posix.dirs fs1) (Posix.files fs1)
       ++ [Print (downloaded_line
                    (succeeded (download_ok (Posix.dirs fs1) dir)
                       (select_matching (photos_all api) c)) dir)])).
  { intros st1 ->. destruct fs1 as [D1 F1].
    rewrite bind_emit.
    rewrite (bind_ok _ _ _ _ _ _ (download_loop_run (photos_all api) c dir _ D1 0 F1)).
    reflexivity. }
  destruct (Posix.exists_ (disk st) dir); cbn [negb].
  - injection H as <-. rewrite bind_ret. apply Hrest.
    destruct st as [inp fs0]. reflexivity.
  - destruct (Posix.makedirs dir (disk st)) as [[e' |] fs'] eqn:E; [discriminate |].
    injection H as <-.
    rewrite (bind_fs_call_ok _ _ _ _ E). apply Hrest. reflexivity.
Qed.

(** ** What traces contain *)

Lemma downloads_of_app (t1 t2 : list event) :
  downloads_of (t1 ++ t2) = downloads_of t1 ++ downloads_of t2.
Proof. apply flat_map_app. Qed.

Lemma deletes_of_app (t1 t2 : list event) :
  deletes_of (t1 ++ t2) = deletes_of t1 ++ deletes_of t2.
Proof. apply flat_map_app. Qed.

Lemma prompts_of_app (t1 t2 : list event) :
  prompts_of (t1 ++ t2) = prompts_of t1 ++ prompts_of t2.
Proof. apply flat_map_app. Qed.

Lemma lines_of_app (t1 t2 : list event) :
  lines_of (t1 ++ t2) = lines_of t1 ++ lines_of t2.
Proof. apply flat_map_app. Qed.

Lemma failures_logged_app (t1 t2 : list event) :
  failures_logged (t1 ++ t2) = (failures_logged t1 + failures_logged t2)%nat.
Proof.
  unfold failures_logged. rewrite lines_of_app, List.filter_app, length_app.
  reflexivity.
Qed.

(** A diagnostic is one printed line that is no failure line; it calls
    nothing and asks nothing. *)
Lemma diagnostic_quiet (p : photo) :
  downloads_of (diagnostic p) = [] /\ deletes_of (diagnostic p) = [] /\
  prompts_of (diagnostic p) = [] /\ failures_logged (diagnostic p) = 0%nat.
Proof. unfold diagnostic. destruct (date_error p); repeat split; reflexivity. Qed.

Lemma diagnostics_quiet (photos : list photo) :
  downloads_of (diagnostics photos) = [] /\ deletes_of (diagnostics photos) = [] /\
  prompts_of (diagnostics photos) = [] /\ failures_logged (diagnostics photos) = 0%nat.
Proof.
  induction photos as [| p rest (IH1 & IH2 & IH3 & IH4)]; [repeat split; reflexivity |].
  destruct (diagnostic_quiet p) as (H1 & H2 & H3 & H4).
  unfold diagnostics in *. cbn [flat_map].
  rewrite downloads_of_app, deletes_of_app, prompts_of_app, failures_logged_app.
  rewrite H1, H2, H3, H4, IH1, IH2, IH3, IH4. repeat split; reflexivity.
Qed.

Lemma delete_events_content (p : photo) :
  deletes_of (delete_events p) = [p] /\ downloads_of (delete_events p) = [] /\
  prompts_of (delete_events p) = [] /\
  failures_logged (delete_events p) = (if delete_ok p then 0 else 1)%nat.
Proof.
  unfold delete_events, delete_ok. destruct (delete p); repeat split; reflexivity.
Qed.

Lemma delete_batch_content (batch : list photo) :
  deletes_of (flat_map delete_events batch) = batch /\
  downloads_of (flat_map delete_events batch) = [] /\
  prompts_of (flat_map delete_events batch) = [] /\
  failures_logged (flat_map delete_events batch) = failed delete_ok batch.
Proof.
  induction batch as [| p rest (IH1 & IH2 & IH3 & IH4)]; [repeat split; reflexivity |].
  destruct (delete_events_content p) as (H1 & H2 & H3 & H4).
  cbn [flat_map].
  rewrite downloads_of_app, deletes_of_app, prompts_of_app, failures_logged_app.
  rewrite H1, H2, H3, H4, IH1, IH2, IH3, IH4, failed_cons.
  repeat split; reflexivity.
Qed.

Lemma download_failure_ok (D : Posix.tree)
    (F : gmap Posix.location (list Byte.byte)) (dir : string) (p : photo) :
  download_failure (Posix.Filesystem D F) dir p = None
  <-> download_ok D dir p = true.
Proof.
  unfold download_failure, download_ok.
  destruct (download p) as [msg | resp]; [split; discriminate |].
  destruct (Posix.open_target D (Posix.join dir (filename p))) as [l |] eqn:E.
  - rewrite (open_wb_ok _ D F l E).
    destruct resp as [r |]; [destruct (raw_read r) |]; split;
      (discriminate || reflexivity).
  - destruct (open_wb_err _ D F E) as [e' ->].
    destruct resp as [r |]; [destruct (raw_read r) |]; split; discriminate.
Qed.

Lemma download_events_content (D : Posix.tree)
    (F : gmap Posix.location (list Byte.byte)) (dir : string) (d : date) (p : photo) :
  let t := download_events (Posix.Filesystem D F) dir d p in
  downloads_of t = [p] /\ deletes_of t = [] /\ prompts_of t = [] /\
  failures_logged t = (if download_ok D dir p then 0 else 1)%nat.
Proof.
  cbv zeta. unfold download_events.
  pose proof (download_failure_ok D F dir p) as Hok.
  destruct (download_failure (Posix.Filesystem D F) dir p) as [msg |].
  - destruct (download_ok D dir p).
    + destruct Hok as [_ Hok]. discriminate (Hok eq_refl).
    + repeat split; reflexivity.
  - destruct Hok as [Hok _]. rewrite (Hok eq_refl). repeat split; reflexivity.
Qed.

Lemma download_loop_content (photos : list photo) (c : date) (dir : string)
    (D : Posix.tree) :
  forall F : gmap Posix.location (list Byte.byte),
    let t := download_loop_events photos c dir D F in
    downloads_of t = select_matching photos c /\ deletes_of t = [] /\
    prompts_of t = [] /\
    failures_logged t = failed (download_ok D dir) (select_matching photos c).
Proof.
  induction photos as [| p rest IH]; intros F; cbv zeta.
  - repeat split; reflexivity.
  - cbn [download_loop_events]. rewrite select_matching_cons. unfold matches.
    destruct (diagnostic_quiet p) as (Q1 & Q2 & Q3 & Q4).
    rewrite downloads_of_app, deletes_of_app, prompts_of_app, failures_logged_app.
    rewrite Q1, Q2, Q3, Q4. cbn [app Nat.add].
    destruct (creation_date p) as [d |]; [destruct (date_leb d c) |]; try apply IH.
    destruct (download_events_content D F dir d p) as (H1 & H2 & H3 & H4).
    destruct (IH (apply_writes (download_writes D dir p) F)) as (I1 & I2 & I3 & I4).
    rewrite downloads_of_app, deletes_of_app, prompts_of_app, failures_logged_app.
    rewrite H1, H2, H3, H4, I1, I2, I3, I4, failed_cons.
    repeat split; reflexivity.
Qed.

(** ** The cutoff predicate *)

Lemma date_leb_le (a b : date) : date_leb a b = true <-> date_le a b.
Proof.
  unfold date_leb, date_le.
  rewrite !orb_true_iff, !andb_true_iff, !orb_true_iff, !andb_true_iff.
  rewrite !Z.ltb_lt, !Z.eqb_eq, Z.leb_le. tauto.
Qed.

Lemma matches_iff (c : date) (p : photo) :
  matches c p = true <-> exists d, creation_date p = Some d /\ date_le d c.
Proof.
  unfold matches. destruct (creation_date p) as [d |].
  - rewrite date_leb_le. split.
    + intros H. exists d. split; [reflexivity | exact H].
    + intros (d' & [= <-] & H). exact H.
  - split; [discriminate | intros (d & [=] & _)].
Qed.

Lemma select_matching_In (photos : list photo) (c : date) (p : photo) :
  In p (select_matching photos c) <-> In p photos /\ matches c p = true.
Proof. unfold select_matching. apply List.filter_In. Qed.

Lemma select_matching_sublist (photos : list photo) (c : date) :
  sublist (select_matching photos c) photos.
Proof.
  induction photos as [| p rest IH]; [constructor |].
  rewrite select_matching_cons. destruct (matches c p); constructor; exact IH.
Qed.

Lemma download_loop_state (photos : list photo) (c : date) (dir : string)
    (count : nat) (st : state) :
  download_loop photos c dir count st
  = (Ok (count + succeeded (download_ok (Posix.dirs (disk st)) dir)
                   (select_matching photos c))%nat,
     State (stdin st)
       (Posix.Filesystem (Posix.dirs (disk st))
          (apply_writes
             (batch_writes (Posix.dirs (disk st)) dir (select_matching photos c))
             (Posix.files (disk st)))),
     download_loop_events photos c dir (Posix.dirs (disk st)) (Posix.files (disk st))).
Proof. destruct st as [inp [D F]]. apply download_loop_run. Qed.

(** C5: an item whose creation date [d] can be read is selected iff
    [d <= c], the cutoff included, and the selection keeps the order of the
    enumeration; this is the list the deletion loop collects and the
    sequence of items the download loop downloads.  For items created
    2021-12-31, 2022-01-01 and 2022-01-02 and the cutoff 2022-01-01 the
    selection is the first two items, in order. *)
Theorem selection_inclusive_in_order (photos : list photo) (c : date)
    (st : state) (dir : string) :
  outcome (collect_loop photos c [] st) = Ok (select_matching photos c) /\
  downloads_of (trace (download_loop photos c dir 0 st)) = select_matching photos c /\
  sublist (select_matching photos c) photos /\
  (forall p d, In p photos -> creation_date p = Some d ->
     (In p (select_matching photos c) <-> date_le d c)) /\
  (forall p1 p2 p3,
     creation_date p1 = Some (Date 2021 12 31) ->
     creation_date p2 = Some (Date 2022 1 1) ->
     creation_date p3 = Some (Date 2022 1 2) ->
     outcome (collect_loop [p1; p2; p3] (Date 2022 1 1) [] st) = Ok [p1; p2] /\
     downloads_of (trace (download_loop [p1; p2; p3] (Date 2022 1 1) dir 0 st))
     = [p1; p2]).
Proof.
  split; [| split; [| split; [| split]]].
  - rewrite collect_loop_run. reflexivity.
  - rewrite download_loop_state. cbn [trace snd].
    apply (download_loop_content photos c dir).
  - apply select_matching_sublist.
  - intros p d Hin Hd. rewrite select_matching_In, matches_iff. split.
    + intros (_ & d' & Hd' & Hle). congruence.
    + intros Hle. split; [exact Hin |]. exists d. split; assumption.
  - intros p1 p2 p3 H1 H2 H3.
    assert (Hsel : select_matching [p1; p2; p3] (Date 2022 1 1) = [p1; p2]).
    { unfold select_matching. cbn [List.filter]. unfold matches.
      rewrite H1, H2, H3. reflexivity. }
    split.
    + rewrite collect_loop_run, Hsel. reflexivity.
    + rewrite download_loop_state. cbn [trace snd]. rewrite <- Hsel.
      apply (download_loop_content [p1; p2; p3] (Date 2022 1 1) dir).
Qed.

Lemma selection_inclusive_in_order_witness :
  (In photo_jan01 sample_photos /\
   creation_date photo_jan01 = Some (Date 2022 1 1) /\
   (In photo_jan01 (select_matching sample_photos (Date 2022 1 1))
    <-> date_le (Date 2022 1 1) (Date 2022 1 1))) /\
  outcome (collect_loop three_photos (Date 2022 1 1) [] (State [] empty_disk))
  = Ok [photo_dec31; photo_jan01].
Proof.
  destruct (selection_inclusive_in_order sample_photos (Date 2022 1 1)
              (State [] empty_disk) "downloads") as (_ & _ & _ & Hiff & Hex).
  split.
  - split; [right; right; left; reflexivity |].
    split; [reflexivity |].
    apply Hiff; [right; right; left; reflexivity | reflexivity].
  - apply (Hex photo_dec31 photo_jan01 photo_jan02); reflexivity.
Defined.

(** ** Items without a readable creation date *)

Lemma creation_date_None (p : photo) :
  creation_date p = None <-> exists msg, date_error p = Some msg.
Proof.
  unfold creation_date, date_error.
  destruct (created p) as [msg | [dt |]]; split;
    try discriminate; eauto; intros [? [=]].
Qed.

Lemma undated_not_selected (photos : list photo) (c : date) (p : photo) :
  creation_date p = None -> ~ In p (select_matching photos c).
Proof.
  intros Hp Hin. apply select_matching_In in Hin as [_ Hm].
  unfold matches in Hm. rewrite Hp in Hm. discriminate.
Qed.

Lemma diagnostic_in_collect (photos : list photo) (p : photo) (msg : string) :
  In p photos -> date_error p = Some msg ->
  In (Print ("Could not determine creation date for a photo: " +:+ msg))
     (diagnostics photos).
Proof.
  intros Hin Hmsg. unfold diagnostics. apply in_flat_map.
  exists p. split; [exact Hin |]. unfold diagnostic. rewrite Hmsg. left. reflexivity.
Qed.

Lemma diagnostic_in_download (photos : list photo) (c : date) (dir : string)
    (D : Posix.tree) (p : photo) (msg : string) :
  In p photos -> date_error p = Some msg ->
  forall F, In (Print ("Could not determine creation date for a photo: " +:+ msg))
              (download_loop_events photos c dir D F).
Proof.
  intros Hin Hmsg. induction photos as [| q rest IH]; [destruct Hin |].
  intros F. cbn [download_loop_events]. apply in_or_app.
  destruct Hin as [-> | Hin].
  - left. unfold diagnostic. rewrite Hmsg. left. reflexivity.
  - right. destruct (creation_date q) as [d |]; [destruct (date_leb d c) |];
      try (apply IH; exact Hin).
    apply in_or_app. right. apply IH. exact Hin.
Qed.

Lemma delete_photos_deletes (api : api) (c : date) (st : state) :
  deletes_of (trace (delete_photos api c st)) =
  match stdin st with
  | confirm :: _ =>
      if String.eqb (PyStr.lower confirm) "yes"
      then select_matching (photos_all api) c else []
  | [] => []
  end.
Proof.
  rewrite delete_photos_run. cbv zeta.
  assert (Hpre : deletes_of (delete_prefix api c) = []).
  { unfold delete_prefix. cbn [deletes_of flat_map app].
    change (flat_map _ ?t) with (deletes_of t).
    rewrite deletes_of_app.
    destruct (diagnostics_quiet (photos_all api)) as (_ & -> & _). reflexivity. }
  destruct (stdin st) as [| confirm rest]; [exact Hpre |].
  destruct (String.eqb (PyStr.lower confirm) "yes"); cbn [trace snd].
  - rewrite !deletes_of_app, Hpre.
    destruct (delete_batch_content (select_matching (photos_all api) c)) as (-> & _).
    cbn. apply app_nil_r.
  - rewrite deletes_of_app, Hpre. reflexivity.
Qed.

Lemma download_photos_downloads (api : api) (c : date) (dir : string) (st : state) :
  downloads_of (trace (download_photos api c dir st)) =
  match ensure_dir dir (disk st) with
  | inr _ => select_matching (photos_all api) c
  | inl _ => []
  end.
Proof.
  destruct (ensure_dir dir (disk st)) as [e | fs1] eqn:E.
  - rewrite (download_photos_crash _ _ _ _ _ E). reflexivity.
  - rewrite (download_photos_ok _ _ _ _ _ E). cbn [trace snd].
    cbn [downloads_of flat_map app]. change (flat_map _ ?t) with (downloads_of t).
    rewrite downloads_of_app.
    destruct (download_loop_content (photos_all api) c dir (Posix.dirs fs1)
                (Posix.files fs1)) as (-> & _).
    cbn. apply app_nil_r.
Qed.

(** C6: an item whose creation date is missing or cannot be read is never
    selected, whatever the cutoff: it is neither deleted nor downloaded, a
    diagnostic is printed for it, and the items before and after it are
    selected as if it were not there. *)
Theorem undated_item_never_selected (api : api) (l1 l2 : list photo) (p : photo)
    (c : date) (st : state) (dir : string) :
  photos_all api = l1 ++ p :: l2 ->
  creation_date p = None ->
  exists msg,
    date_error p = Some msg /\
    let diag := Print ("Could not determine creation date for a photo: " +:+ msg) in
    let others := select_matching l1 c ++ select_matching l2 c in
    outcome (collect_loop (photos_all api) c [] st) = Ok others /\
    In diag (trace (delete_photos api c st)) /\
    ~ In p (deletes_of (trace (delete_photos api c st))) /\
    downloads_of (trace (download_loop (photos_all api) c dir 0 st)) = others /\
    In diag (trace (download_loop (photos_all api) c dir 0 st)) /\
    ~ In p (downloads_of (trace (download_photos api c dir st))).
Proof.
  intros Hall Hp.
  destruct (proj1 (creation_date_None p) Hp) as [msg Hmsg].
  exists msg. split; [exact Hmsg |]. cbv zeta.
  assert (Hin : In p (photos_all api)).
  { rewrite Hall. apply in_or_app. right. left. reflexivity. }
  assert (Hsel : select_matching (photos_all api) c
                 = select_matching l1 c ++ select_matching l2 c).
  { rewrite Hall, select_matching_app, select_matching_cons.
    unfold matches at 1. rewrite Hp. reflexivity. }
  assert (Hnot : ~ In p (select_matching (photos_all api) c))
    by (apply undated_not_selected; exact Hp).
  repeat split.
  - rewrite collect_loop_run, Hsel. reflexivity.
  - rewrite delete_photos_run. cbv zeta.
    assert (Hpre : In (Print ("Could not determine creation date for a photo: " +:+ msg))
                      (delete_prefix api c)).
    { unfold delete_prefix. right. apply in_or_app. left.
      apply diagnostic_in_collect with (p := p); assumption. }
    destruct (stdin st) as [| confirm rest]; [exact Hpre |].
    destruct (String.eqb (PyStr.lower confirm) "yes"); cbn [trace snd];
      apply in_or_app; left; exact Hpre.
  - rewrite delete_photos_deletes.
    destruct (stdin st) as [| confirm rest]; [intros [] |].
    destruct (String.eqb (PyStr.lower confirm) "yes"); [exact Hnot | intros []].
  - rewrite download_loop_state. cbn [trace snd]. rewrite <- Hsel.
    apply (download_loop_content (photos_all api) c dir).
  - rewrite download_loop_state. cbn [trace snd].
    apply diagnostic_in_download with (p := p); assumption.
  - rewrite download_photos_downloads.
    destruct (ensure_dir dir (disk st)); [intros [] | exact Hnot].
Qed.

Lemma undated_item_never_selected_witness :
  exists msg,
    date_error photo_undated = Some msg /\
    outcome (collect_loop sample_photos (Date 2022 1 1) [] (State ["yes"] empty_disk))
    = Ok [photo_dec31; photo_jan01] /\
    ~ In photo_undated
        (deletes_of (trace (delete_photos (api_of sample_photos) (Date 2022 1 1)
                              (State ["yes"] empty_disk)))).
Proof.
  destruct (undated_item_never_selected (api_of sample_photos)
              [photo_dec31] [photo_jan01; photo_jan02] photo_undated
              (Date 2022 1 1) (State ["yes"] empty_disk) "downloads"
              eq_refl eq_refl) as (msg & Hmsg & Hsel & _ & Hdel & _).
  exists msg. split; [exact Hmsg |]. split; [exact Hsel | exact Hdel].
Defined.

(** ** The steps before the pipeline: configuration, login, date *)

Lemma quiet_app (t1 t2 : list event) : quiet (t1 ++ t2) = quiet t1 && quiet t2.
Proof. apply forallb_app. Qed.

Lemma quiet_no_calls (t : list event) :
  quiet t = true -> downloads_of t = [] /\ deletes_of t = [].
Proof.
  induction t as [| e t IH]; [split; reflexivity |].
  unfold quiet. cbn [List.forallb]. intros [He Ht]%andb_true_iff.
  destruct (IH Ht) as [IH1 IH2].
  destruct e; try discriminate He; cbn [downloads_of deletes_of flat_map app];
    split; assumption.
Qed.

(** ** Text beyond ASCII

    The pattern of [strptime] in the model matches ASCII characters only,
    so a text it accepts is ASCII text, for which it is the parser the
    script calls. *)

Lemma is_ascii_app (a b : string) :
  PyStr.is_ascii (a +:+ b) = PyStr.is_ascii a && PyStr.is_ascii b.
Proof.
  induction a as [| ch a IH]; [reflexivity |].
  change (String ch a +:+ b) with (String ch (a +:+ b)).
  cbn [PyStr.is_ascii]. rewrite IH, andb_assoc. reflexivity.
Qed.

Lemma digit_ascii : ascii_class Strptime.digit.
Proof.
  intros x. unfold Strptime.digit, PyStr.is_digit.
  rewrite andb_true_iff, !Z.leb_le, Z.ltb_lt. lia.
Qed.

Lemma chr_ascii (c : ascii) : PyStr.code c < 128 -> ascii_class (Strptime.chr c).
Proof.
  intros Hc x. unfold Strptime.chr. intros ->%bool_decide_eq_true.
  apply Z.ltb_lt. exact Hc.
Qed.

Lemma between_ascii (lo hi : ascii) :
  PyStr.code hi < 128 -> ascii_class (Strptime.between lo hi).
Proof.
  intros Hc x. unfold Strptime.between.
  rewrite andb_true_iff, !Z.leb_le, Z.ltb_lt. lia.
Qed.

Lemma match_seq_ascii (p : list Strptime.cls) :
  Forall ascii_class p ->
  forall s m rest, Strptime.match_seq p s = Some (m, rest) ->
    s = m +:+ rest /\ PyStr.is_ascii m = true.
Proof.
  induction 1 as [| c p Hc Hp IH]; intros s m rest.
  - intros [= <- <-]. split; reflexivity.
  - cbn [Strptime.match_seq]. destruct s as [| x s']; [discriminate |].
    destruct (c x) eqn:Hx; [| discriminate].
    destruct (Strptime.match_seq p s') as [[m' rest'] |] eqn:E; [| discriminate].
    intros [= <- <-]. destruct (IH _ _ _ E) as [-> Hm].
    split; [reflexivity |]. cbn [PyStr.is_ascii]. rewrite (Hc x Hx), Hm. reflexivity.
Qed.

Lemma match_alt_ascii {A} (alts : list (list Strptime.cls)) (s : string)
    (k : string -> string -> option A) (a : A) :
  Forall (Forall ascii_class) alts ->
  Strptime.match_alt alts s k = Some a ->
  exists m rest, s = m +:+ rest /\ PyStr.is_ascii m = true /\ k m rest = Some a.
Proof.
  induction 1 as [| p alts Hp Halts IH]; [discriminate |].
  cbn [Strptime.match_alt].
  destruct (Strptime.match_seq p s) as [[m rest] |] eqn:E; [| exact IH].
  destruct (k m rest) as [a' |] eqn:Ek; [| exact IH].
  intros [= ->]. destruct (match_seq_ascii p Hp _ _ _ E) as [-> Hm]. eauto.
Qed.

Lemma re_classes_ascii :
  Forall (Forall ascii_class) Strptime.re_Y /\
  Forall (Forall ascii_class) Strptime.re_m /\
  Forall (Forall ascii_class) Strptime.re_d /\
  Forall (Forall ascii_class) Strptime.re_dash.
Proof.
  repeat split;
    repeat (first [apply List.Forall_nil | apply List.Forall_cons]);
    first [apply digit_ascii
          | apply chr_ascii; vm_compute; reflexivity
          | apply between_ascii; vm_compute; reflexivity].
Qed.

Lemma re_match_ascii (s Y m d rest : string) :
  Strptime.re_match s = Some (Y, m, d, rest) ->
  PyStr.is_ascii s = PyStr.is_ascii rest.
Proof.
  destruct re_classes_ascii as (HY & Hm & Hd & Hdash).
  unfold Strptime.re_match. intros H.
  apply (match_alt_ascii _ _ _ _ HY) in H as (m1 & s1 & -> & A1 & H).
  apply (match_alt_ascii _ _ _ _ Hdash) in H as (m2 & s2 & -> & A2 & H).
  apply (match_alt_ascii _ _ _ _ Hm) in H as (m3 & s3 & -> & A3 & H).
  apply (match_alt_ascii _ _ _ _ Hdash) in H as (m4 & s4 & -> & A4 & H).
  apply (match_alt_ascii _ _ _ _ Hd) in H as (m5 & s5 & -> & A5 & H).
  injection H as _ _ _ <-.
  rewrite !is_ascii_app, A1, A2, A3, A4, A5. reflexivity.
Qed.

Lemma strptime_ymd_ascii (s : string) (d : date) :
  Strptime.strptime_ymd s = Gives d -> PyStr.is_ascii s = true.
Proof.
  unfold Strptime.strptime_ymd.
  destruct (Strptime.re_match s) as [[[[Y m] dd] rest] |] eqn:E; [| discriminate].
  destruct rest; [| discriminate]. intros _.
  rewrite (re_match_ascii _ _ _ _ _ E). reflexivity.
Qed.

Lemma strptime_date_of_ymd (w : world) (s : string) (d : date) :
  Strptime.strptime_ymd s = Gives d -> strptime_date w s = Gives d.
Proof.
  intros H. unfold strptime_date. rewrite (strptime_ymd_ascii s d H). exact H.
Qed.

Lemma load_config_run (w : world) (path : string) (st : state) :
  load_config w path st =
  match yaml_load w path with
  | Gives config => (Ok config, st, [LoadConfig path])
  | Raises msg =>
      (Raise (SystemExit 1), st,
       [LoadConfig path; Print ("Error loading config file: " +:+ msg)])
  end.
Proof. unfold load_config. py_unfold. destruct (yaml_load w path); reflexivity. Qed.

(** The second-factor step ends the run with [sys.exit(1)] or the
    [EOFError] of [input], or returns; it never reaches the library. *)
Lemma challenge_run (w : world) (a : api) (st : state) :
  quiet (trace (challenge w a st)) = true /\
  List.existsb is_authenticate (trace (challenge w a st)) = false /\
  disk (final (challenge w a st)) = disk st /\
  (outcome (challenge w a st) = Ok tt \/
   outcome (challenge w a st) = Raise (SystemExit 1) \/
   outcome (challenge w a st) = Raise (Exception "EOF when reading a line")).
Proof.
  destruct st as [inp fs].
  unfold challenge, input, sys_exit. py_unfold.
  destruct (requires_2fa a); [| destruct (requires_2sa a)].
  - destruct inp as [| line rest]; [cbn; auto 8 |].
    destruct (validate_2fa_code a (str_strip w line)); cbn; auto 8.
  - destruct inp as [| line rest]; [cbn; auto 8 |].
    destruct (validate_2sa_code a (str_strip w line)); cbn; auto 8.
  - cbn; auto 8.
Qed.

Lemma login_run (w : world) (config : yaml) (st : state) :
  login w config st =
  match read_credentials config with
  | Raises msg => (Raise (Exception msg), st, [])
  | Gives (username, password) =>
      if negb (truthy username) || negb (truthy password) then
        (Raise (SystemExit 1), st, [Print missing_credentials_line])
      else
        match PyiCloudService w username password with
        | Raises msg => (Raise (Exception msg), st, [Authenticate username password])
        | Gives a =>
            let r := challenge w a st in
            (match outcome r with Ok _ => Ok a | Raise e => Raise e end,
             final r, Authenticate username password :: trace r)
        end
  end.
Proof.
  unfold login, read_credentials.
  destruct (yaml_get config "icloud" (YMap [])) as [msg | icloud_config];
    [reflexivity |].
  rewrite bind_eval_Gives.
  destruct (yaml_get icloud_config "username" YNull) as [msg | username].
  { rewrite bind_eval_Raises.
    destruct (yaml_get icloud_config "password" YNull); reflexivity. }
  rewrite bind_eval_Gives.
  destruct (yaml_get icloud_config "password" YNull) as [msg | password];
    [reflexivity |].
  rewrite bind_eval_Gives.
  destruct (negb (truthy username) || negb (truthy password)); [reflexivity |].
  rewrite bind_ret, bind_emit.
  destruct (PyiCloudService w username password) as [msg | a]; [reflexivity |].
  rewrite bind_eval_Gives. cbv zeta. rewrite bind_run.
  destruct (challenge w a st) as [[[[] | e] st'] t]; [| reflexivity].
  unfold mret, py_ret, ret. cbn [outcome final trace fst snd].
  rewrite app_nil_r. reflexivity.
Qed.

Lemma login_facts (w : world) (config : yaml) (st : state) :
  let r := login w config st in
  quiet (trace r) = true /\
  disk (final r) = disk st /\
  (forall e, outcome r = Raise e -> e = SystemExit 1 \/ exists msg, e = Exception msg) /\
  (forall a, outcome r = Ok a -> List.existsb is_authenticate (trace r) = true).
Proof.
  cbv zeta. rewrite login_run.
  destruct (read_credentials config) as [msg | [username password]].
  { split; [reflexivity |]. split; [reflexivity |]. cbn [outcome fst]. split.
    - intros e [= <-]. right. eauto.
    - discriminate. }
  destruct (negb (truthy username) || negb (truthy password)).
  { split; [reflexivity |]. split; [reflexivity |]. cbn [outcome fst]. split.
    - intros e [= <-]. left. reflexivity.
    - discriminate. }
  destruct (PyiCloudService w username password) as [msg | a].
  { split; [reflexivity |]. split; [reflexivity |]. cbn [outcome fst]. split.
    - intros e [= <-]. right. eauto.
    - discriminate. }
  destruct (challenge_run w a st) as (Hq & _ & Hd & Ho).
  cbv zeta. cbn [outcome final trace fst snd].
  split; [exact Hq |]. split; [exact Hd |]. split.
  - intros e He.
    destruct Ho as [Ho | [Ho | Ho]]; rewrite Ho in He.
    + discriminate.
    + injection He as <-. left. reflexivity.
    + injection He as <-. right. eauto.
  - reflexivity.
Qed.

Lemma exit_status_raise (e : exn) :
  e = SystemExit 1 \/ (exists msg, e = Exception msg) ->
  exit_status (@Raise unit e) = 1.
Proof. intros [-> | [msg ->]]; reflexivity. Qed.

Lemma main_run (w : world) (a : args) (st : state) :
  main w a st =
  match args_command a with
  | None => (Raise (SystemExit 1), st, [Print (format_help w)])
  | Some cmd =>
      match yaml_load w (args_config a) with
      | Raises msg =>
          (Raise (SystemExit 1), st,
           [LoadConfig (args_config a); Print ("Error loading config file: " +:+ msg)])
      | Gives config =>
          let r1 := login w config st in
          match outcome r1 with
          | Raise e => (Raise e, final r1, LoadConfig (args_config a) :: trace r1)
          | Ok api =>
              match strptime_date w (args_date a) with
              | Raises _ =>
                  (Raise (SystemExit 1), final r1,
                   LoadConfig (args_config a) :: trace r1 ++ [Print invalid_date_line])
              | Gives d =>
                  let r2 :=
                    match cmd with
                    | CmdDownload => download_photos api d (args_output_dir a)
                    | CmdDelete => delete_photos api d
                    end (final r1) in
                  (outcome r2, final r2,
                   LoadConfig (args_config a) :: trace r1 ++ trace r2)
              end
          end
      end
  end.
Proof.
  unfold main. destruct (args_command a) as [cmd |]; [| reflexivity].
  rewrite bind_run, load_config_run.
  destruct (yaml_load w (args_config a)) as [msg | config]; [reflexivity |].
  cbv zeta. rewrite bind_run.
  destruct (login w config st) as [[[api | e] st1] t1]; [| reflexivity].
  cbn [outcome final trace fst snd].
  unfold parse_date. rewrite bind_run.
  destruct (strptime_date w (args_date a)) as [msg | d]; [reflexivity |].
  unfold mret at 1, py_ret, ret.
  destruct cmd;
    match goal with
    | |- context [?f api d ?x st1] => destruct (f api d x st1) as [[r2 st2] t2]
    | |- context [?f api d st1] => destruct (f api d st1) as [[r2 st2] t2]
    end; reflexivity.
Qed.

(** C10: when the username or the password of the configuration is absent,
    [None], empty or otherwise falsy, [login] ends the run with a non-zero
    exit status and the constructor of the pyicloud service is never
    called; on a configuration of the expected shape it prints the
    missing-credentials error and calls [sys.exit(1)]. *)
Theorem login_without_credentials (w : world) (config : yaml) (st : state) :
  credentials_missing config ->
  let r := login w config st in
  List.existsb is_authenticate (trace r) = false /\
  exit_status (outcome r) = 1 /\
  final r = st /\
  (well_shaped config ->
   outcome r = Raise (SystemExit 1) /\ trace r = [Print missing_credentials_line]).
Proof.
  unfold credentials_missing, well_shaped. intros Hmiss. cbv zeta.
  rewrite login_run.
  destruct (read_credentials config) as [msg | [username password]].
  - split; [reflexivity |]. split; [reflexivity |]. split; [reflexivity |].
    intros [credentials [=]].
  - assert (E : negb (truthy username) || negb (truthy password) = true).
    { destruct Hmiss as [-> | ->]; [reflexivity | apply orb_true_r]. }
    rewrite E. split; [reflexivity |]. split; [reflexivity |].
    split; [reflexivity |]. intros _. split; reflexivity.
Qed.

Lemma login_without_credentials_witness :
  credentials_missing empty_username_config /\
  well_shaped empty_username_config /\
  outcome (login sample_world empty_username_config (State [] empty_disk))
  = Raise (SystemExit 1) /\
  List.existsb is_authenticate
    (trace (login sample_world empty_username_config (State [] empty_disk))) = false.
Proof.
  assert (Hmiss : credentials_missing empty_username_config)
    by (left; reflexivity).
  assert (Hshape : well_shaped empty_username_config)
    by (eexists; reflexivity).
  destruct (login_without_credentials sample_world empty_username_config
              (State [] empty_disk) Hmiss) as (Hauth & _ & _ & Hexit).
  split; [exact Hmiss |]. split; [exact Hshape |].
  split; [exact (proj1 (Hexit Hshape)) | exact Hauth].
Defined.

(** C3, as the code has it: an invocation whose [--date] does not parse
    as YYYY-MM-DD ([strptime] raises [ValueError]) ends with exit status 1
    without reaching the photo library or changing the disk; the date is
    parsed after the configuration is loaded and [login] has returned, so
    when both succeed the authentication has been called before the
    invalid-date error is printed. *)
Theorem invalid_date_exits_after_login (w : world) (a : args) (st : state) :
  (exists msg, strptime_date w (args_date a) = Raises msg) ->
  let r := main w a st in
  exit_status (outcome r) = 1 /\
  quiet (trace r) = true /\
  disk (final r) = disk st /\
  (forall cmd config api st1 t1,
     args_command a = Some cmd ->
     yaml_load w (args_config a) = Gives config ->
     login w config st = (Ok api, st1, t1) ->
     r = (Raise (SystemExit 1), st1,
          LoadConfig (args_config a) :: t1 ++ [Print invalid_date_line]) /\
     List.existsb is_authenticate t1 = true).
Proof.
  intros [msg Hdate]. cbv zeta. rewrite main_run.
  destruct (args_command a) as [cmd |].
  2: { split; [reflexivity |]. split; [reflexivity |]. split; [reflexivity |].
       intros; discriminate. }
  destruct (yaml_load w (args_config a)) as [emsg | config].
  { split; [reflexivity |]. split; [reflexivity |]. split; [reflexivity |].
    intros; discriminate. }
  cbv zeta. rewrite Hdate.
  destruct (login_facts w config st) as (Hq & Hd & Hraise & Hauth).
  destruct (outcome (login w config st)) as [api | e] eqn:Ho.
  - split; [reflexivity |]. split.
    { cbn [trace snd]. unfold quiet in *. cbn [List.forallb negb touches_library andb].
      change (List.forallb _ ?t) with (quiet t).
      rewrite quiet_app. unfold quiet at 1. rewrite Hq. reflexivity. }
    split; [exact Hd |].
    intros cmd' config' api' st1 t1 _ [= <-] Hlogin.
    rewrite Hlogin in *. cbn [outcome final trace fst snd] in *.
    injection Ho as <-. split; [reflexivity | exact (Hauth api' eq_refl)].
  - split; [exact (exit_status_raise e (Hraise e eq_refl)) |].
    split; [exact Hq |]. split; [exact Hd |].
    intros cmd' config' api' st1 t1 _ [= <-] Hlogin.
    rewrite Hlogin in Ho. discriminate Ho.
Qed.

Lemma invalid_date_exits_after_login_witness :
  (exists msg, strptime_date sample_world (args_date bad_date_args) = Raises msg) /\
  exit_status (outcome (main sample_world bad_date_args (State [] empty_disk))) = 1 /\
  quiet (trace (main sample_world bad_date_args (State [] empty_disk))) = true.
Proof.
  assert (H : exists msg,
            strptime_date sample_world (args_date bad_date_args) = Raises msg)
    by (eexists; reflexivity).
  destruct (invalid_date_exits_after_login sample_world bad_date_args
              (State [] empty_disk) H) as (Hexit & Hquiet & _).
  split; [exact H |]. split; [exact Hexit | exact Hquiet].
Defined.

(** C3, as the specification has it, fails: with a configuration that
    holds credentials, the invocation [delete --date 01/02/2022] calls the
    authentication before it prints the invalid-date error. *)
Lemma invalid_date_after_authentication :
  strptime_date sample_world (args_date bad_date_args)
  = Raises "time data '01/02/2022' does not match format '%Y-%m-%d'" /\
  main sample_world bad_date_args (State [] empty_disk)
  = (Raise (SystemExit 1), State [] empty_disk,
     [LoadConfig "config.yaml";
      Authenticate (YStr "user@example.com") (YStr "app-password");
      Print "Invalid date format. Please provide a date in YYYY-MM-DD format."]).
Proof. split; reflexivity. Qed.

(** ** The confirmation gate of [delete_photos] *)

Lemma lower_char_y (c : ascii) :
  PyStr.lower_char c = "y"%char -> c = "y"%char \/ c = "Y"%char.
Proof.
  destruct c as [[] [] [] [] [] [] [] []]; vm_compute; intros H;
    try discriminate H; auto.
Qed.

Lemma lower_char_e (c : ascii) :
  PyStr.lower_char c = "e"%char -> c = "e"%char \/ c = "E"%char.
Proof.
  destruct c as [[] [] [] [] [] [] [] []]; vm_compute; intros H;
    try discriminate H; auto.
Qed.

Lemma lower_char_s (c : ascii) :
  PyStr.lower_char c = "s"%char -> c = "s"%char \/ c = "S"%char.
Proof.
  destruct c as [[] [] [] [] [] [] [] []]; vm_compute; intros H;
    try discriminate H; auto.
Qed.

(** The answers that compare equal to ["yes"] once lowered. *)
Lemma lower_yes_iff (confirm : string) :
  PyStr.lower confirm = "yes" <->
  In confirm ["yes"; "yeS"; "yEs"; "yES"; "Yes"; "YeS"; "YEs"; "YES"].
Proof.
  split.
  - destruct confirm as [| c1 [| c2 [| c3 [| c4 rest]]]]; cbn [PyStr.lower];
      try discriminate.
    intros [= H1 H2 H3].
    destruct (lower_char_y _ H1) as [-> | ->];
      destruct (lower_char_e _ H2) as [-> | ->];
      destruct (lower_char_s _ H3) as [-> | ->]; cbn; auto 10.
  - intros H. cbn [In] in H.
    repeat (destruct H as [<- | H]; [reflexivity |]). destruct H.
Qed.

(** C1: a run of [delete_photos] goes through the whole enumeration and
    prints the total of the matching items before it asks for the one
    confirmation of the run; nothing is deleted and nothing is asked before
    that prompt, nothing else is asked after it, and the only deletions
    are those of the collected batch, after an affirmative answer. *)
Theorem single_confirmation_gate (api : api) (c : date) (st : state) :
  let r := delete_photos api c st in
  let batch := select_matching (photos_all api) c in
  let before :=
    Enumerate :: diagnostics (photos_all api) ++ [Print (found_line (length batch))] in
  exists after,
    trace r = before ++ Input confirm_prompt :: after /\
    deletes_of before = [] /\
    prompts_of before = [] /\
    prompts_of after = [] /\
    prompts_of (trace r) = [confirm_prompt] /\
    deletes_of after =
      match stdin st with
      | confirm :: _ => if String.eqb (PyStr.lower confirm) "yes" then batch else []
      | [] => []
      end.
Proof.
  cbv zeta. rewrite delete_photos_run. cbv zeta.
  set (batch := select_matching (photos_all api) c).
  destruct (diagnostics_quiet (photos_all api)) as (_ & Qd & Qp & _).
  destruct (delete_batch_content batch) as (Bd & _ & Bp & _).
  assert (Hbefore_d : deletes_of (Enumerate :: diagnostics (photos_all api)
                                  ++ [Print (found_line (length batch))]) = []).
  { cbn [deletes_of flat_map app]. change (flat_map _ ?t) with (deletes_of t).
    rewrite deletes_of_app, Qd. reflexivity. }
  assert (Hbefore_p : prompts_of (Enumerate :: diagnostics (photos_all api)
                                  ++ [Print (found_line (length batch))]) = []).
  { cbn [prompts_of flat_map app]. change (flat_map _ ?t) with (prompts_of t).
    rewrite prompts_of_app, Qp. reflexivity. }
  assert (Hprefix : delete_prefix api c
                    = (Enumerate :: diagnostics (photos_all api)
                       ++ [Print (found_line (length batch))])
                      ++ [Input confirm_prompt]).
  { unfold delete_prefix. fold batch. cbn [app]. rewrite <- app_assoc. reflexivity. }
  rewrite Hprefix. clear Hprefix.
  set (before := Enumerate :: diagnostics (photos_all api)
                 ++ [Print (found_line (length batch))]) in *.
  destruct (stdin st) as [| confirm rest];
    [| destruct (String.eqb (PyStr.lower confirm) "yes")];
    cbn [trace snd].
  - exists []. repeat split; try assumption.
    rewrite prompts_of_app, Hbefore_p. reflexivity.
  - exists (flat_map delete_events batch
            ++ [Print (deleted_line (succeeded delete_ok batch) (length batch))]).
    rewrite <- app_assoc. cbn [app].
    repeat split; try assumption.
    + rewrite prompts_of_app, Bp. reflexivity.
    + rewrite prompts_of_app, Hbefore_p. cbn [app prompts_of flat_map].
      change (flat_map _ ?t) with (prompts_of t).
      rewrite prompts_of_app, Bp. reflexivity.
    + rewrite deletes_of_app, Bd. cbn. apply app_nil_r.
  - exists [Print "Deletion canceled."].
    rewrite <- app_assoc. cbn [app].
    repeat split; try assumption.
    rewrite prompts_of_app, Hbefore_p. reflexivity.
Qed.

(** C2: the answer to the confirmation decides the run.  It is
    affirmative exactly when it is [yes] in some mix of upper and lower
    case; then every item of the batch is sent for deletion and the run
    ends with the summary line.  On any other answer (the empty one, [no],
    [y], ...) nothing is deleted, the disk is untouched, the run prints
    the cancellation line and returns normally, so that the process ends
    with exit status 0. *)
Theorem confirmation_decides (api : api) (c : date) (confirm : string)
    (rest : list string) (fs : Posix.filesystem) :
  let st := State (confirm :: rest) fs in
  let r := delete_photos api c st in
  let batch := select_matching (photos_all api) c in
  (PyStr.lower confirm = "yes" <->
   In confirm ["yes"; "yeS"; "yEs"; "yES"; "Yes"; "YeS"; "YEs"; "YES"]) /\
  (PyStr.lower confirm = "yes" ->
   outcome r = Ok tt /\
   deletes_of (trace r) = batch /\
   last (trace r)
   = Some (Print (deleted_line (succeeded delete_ok batch) (length batch)))) /\
  (PyStr.lower confirm <> "yes" ->
   outcome r = Ok tt /\
   exit_status (outcome r) = 0 /\
   deletes_of (trace r) = [] /\
   last (trace r) = Some (Print "Deletion canceled.") /\
   disk (final r) = fs) /\
  (forall w a st0 config t1,
     args_command a = Some CmdDelete ->
     yaml_load w (args_config a) = Gives config ->
     login w config st0 = (Ok api, st, t1) ->
     Strptime.strptime_ymd (args_date a) = Gives c ->
     PyStr.lower confirm <> "yes" ->
     exit_status (outcome (main w a st0)) = 0 /\
     deletes_of (trace (main w a st0)) = [] /\
     last (trace (main w a st0)) = Some (Print "Deletion canceled.")).
Proof.
  cbv zeta.
  pose proof (delete_photos_deletes api c (State (confirm :: rest) fs)) as Hdel.
  pose proof (delete_photos_run api c (State (confirm :: rest) fs)) as Hrun.
  cbv zeta in Hrun. cbn [stdin disk] in Hdel, Hrun.
  split; [apply lower_yes_iff |]. split; [| split].
  - intros Hyes. apply String.eqb_eq in Hyes. rewrite Hyes in Hdel, Hrun.
    rewrite Hdel, Hrun. cbn [outcome trace fst snd].
    split; [reflexivity |]. split; [reflexivity |].
    rewrite app_assoc. apply last_snoc.
  - intros Hno. apply String.eqb_neq in Hno. rewrite Hno in Hdel, Hrun.
    rewrite Hdel, Hrun. cbn [outcome final trace fst snd disk].
    repeat split; try reflexivity. apply last_snoc.
  - intros w a st0 config t1 Hcmd Hload Hlogin Hdate Hno.
    apply String.eqb_neq in Hno. rewrite Hno in Hdel, Hrun.
    rewrite main_run, Hcmd, Hload. cbv zeta.
    pose proof (login_facts w config st0) as (Hq & _).
    rewrite Hlogin in *. cbn [outcome final trace fst snd] in *.
    rewrite (strptime_date_of_ymd w _ _ Hdate), Hrun. cbn [outcome trace fst snd].
    split; [reflexivity |]. split.
    + cbn [deletes_of flat_map app]. change (flat_map _ ?t) with (deletes_of t).
      rewrite deletes_of_app.
      destruct (quiet_no_calls t1 Hq) as [_ ->].
      rewrite Hrun in Hdel. exact Hdel.
    + rewrite app_assoc, app_comm_cons. apply last_snoc.
Qed.

Lemma confirmation_decides_witness :
  PyStr.lower "y" <> "yes" /\
  deletes_of (trace (delete_photos (api_of sample_photos) (Date 2022 1 1)
                       (State ["y"] empty_disk))) = [] /\
  exit_status (outcome (main sample_world delete_args (State ["y"] empty_disk))) = 0 /\
  PyStr.lower "YES" = "yes" /\
  deletes_of (trace (delete_photos (api_of sample_photos) (Date 2022 1 1)
                       (State ["YES"] empty_disk))) = [photo_dec31; photo_jan01].
Proof.
  assert (Hno : PyStr.lower "y" <> "yes") by discriminate.
  assert (Hyes : PyStr.lower "YES" = "yes") by reflexivity.
  destruct (confirmation_decides (api_of sample_photos) (Date 2022 1 1) "y" []
              empty_disk) as (_ & _ & Hdecline & Hmain).
  destruct (confirmation_decides (api_of sample_photos) (Date 2022 1 1) "YES" []
              empty_disk) as (_ & Haccept & _).
  split; [exact Hno |].
  split; [exact (proj1 (proj2 (proj2 (Hdecline Hno)))) |].
  split.
  - exact (proj1 (Hmain sample_world delete_args (State ["y"] empty_disk)
                    sample_config
                    [Authenticate (YStr "user@example.com") (YStr "app-password")]
                    eq_refl eq_refl eq_refl eq_refl Hno)).
  - split; [exact Hyes | exact (proj1 (proj2 (Haccept Hyes)))].
Defined.

(** C4, as the code has it: over an empty enumeration [delete_photos]
    prints that it found 0 photos and then still asks for the confirmation
    and reads the answer; nothing is deleted whatever the answer, which
    only chooses between the summary line and the cancellation line.
    [download_photos], once the output directory is ensured, prints that
    it downloaded 0 photos and leaves the disk as it is. *)
Theorem empty_enumeration_still_prompts (api : api) (c : date) (st : state)
    (dir : string) :
  photos_all api = [] ->
  select_matching (photos_all api) c = [] /\
  trace (delete_photos api c st)
  = [Enumerate; Print "Found 0 photos to delete."; Input confirm_prompt] ++
    match stdin st with
    | [] => []
    | confirm :: _ =>
        if String.eqb (PyStr.lower confirm) "yes"
        then [Print "Deleted 0 out of 0 photos."]
        else [Print "Deletion canceled."]
    end /\
  stdin (final (delete_photos api c st)) = tail (stdin st) /\
  deletes_of (trace (delete_photos api c st)) = [] /\
  (forall fs1, ensure_dir dir (disk st) = inr fs1 ->
     download_photos api c dir st
     = (Ok tt, State (stdin st) fs1,
        [Enumerate; Print ("Downloaded 0 photos to '" +:+ dir +:+ "'.")])).
Proof.
  intros Hempty.
  split; [rewrite Hempty; reflexivity |].
  split; [| split; [| split]].
  - rewrite delete_photos_run. unfold delete_prefix. rewrite Hempty. cbv zeta.
    destruct (stdin st) as [| confirm rest]; [reflexivity |].
    destruct (String.eqb (PyStr.lower confirm) "yes"); reflexivity.
  - rewrite delete_photos_run. cbv zeta.
    destruct st as [[| confirm rest] fs]; [reflexivity |]. cbn [stdin].
    destruct (String.eqb (PyStr.lower confirm) "yes"); reflexivity.
  - rewrite delete_photos_deletes, Hempty.
    destruct (stdin st) as [| confirm rest]; [reflexivity |].
    destruct (String.eqb (PyStr.lower confirm) "yes"); reflexivity.
  - intros fs1 Hdir. rewrite (download_photos_ok _ _ _ _ _ Hdir), Hempty.
    destruct fs1 as [D1 F1]. reflexivity.
Qed.

Lemma empty_enumeration_still_prompts_witness :
  photos_all (api_of []) = [] /\
  prompts_of (trace (delete_photos (api_of []) (Date 2022 1 1) (State ["yes"] empty_disk)))
  = [confirm_prompt] /\
  download_photos (api_of []) (Date 2022 1 1) "downloads" (State [] empty_disk)
  = (Ok tt, State [] (Posix.Filesystem downloads_dir ∅),
     [Enumerate; Print "Downloaded 0 photos to 'downloads'."]).
Proof.
  destruct (empty_enumeration_still_prompts (api_of []) (Date 2022 1 1)
              (State ["yes"] empty_disk) "downloads" eq_refl)
    as (_ & Htrace & _).
  destruct (empty_enumeration_still_prompts (api_of []) (Date 2022 1 1)
              (State [] empty_disk) "downloads" eq_refl)
    as (_ & _ & _ & _ & Hdown).
  split; [reflexivity |]. split.
  - rewrite Htrace. reflexivity.
  - apply (Hdown (Posix.Filesystem downloads_dir ∅)).
    vm_compute. reflexivity.
Defined.

(** C4, as the specification has it, fails: with no remote item at all the
    confirmation prompt is not skipped; the answer is asked for and read. *)
Lemma empty_delete_asks_anyway :
  photos_all (api_of []) = [] /\
  delete_photos (api_of []) (Date 2022 1 1) (State ["no"] empty_disk)
  = (Ok tt, State [] empty_disk,
     [Enumerate; Print "Found 0 photos to delete."; Input confirm_prompt;
      Print "Deletion canceled."]).
Proof. split; reflexivity. Qed.

(** ** Counting successes and failures *)

Lemma delete_prefix_content (api : api) (c : date) :
  failures_logged (delete_prefix api c) = 0%nat.
Proof.
  unfold delete_prefix.
  change (failures_logged (diagnostics (photos_all api) ++
            [Print (found_line (length (select_matching (photos_all api) c)));
             Input confirm_prompt]) = 0%nat).
  rewrite failures_logged_app.
  destruct (diagnostics_quiet (photos_all api)) as (_ & _ & _ & ->).
  reflexivity.
Qed.

Lemma deleted_line_no_failure (count total : nat) :
  failures_logged [Print (deleted_line count total)] = 0%nat.
Proof. reflexivity. Qed.

Lemma downloaded_line_no_failure (count : nat) (dir : string) :
  failures_logged [Print (downloaded_line count dir)] = 0%nat.
Proof. reflexivity. Qed.

Lemma succeeded_as_difference (ok : photo -> bool) (batch : list photo) :
  succeeded ok batch = (length batch - failed ok batch)%nat.
Proof. pose proof (succeeded_failed ok batch). lia. Qed.

Lemma delete_run_summary (api : api) (c : date) (st : state)
    (confirm : string) (rest : list string) :
  stdin st = confirm :: rest ->
  PyStr.lower confirm = "yes" ->
  let r := delete_photos api c st in
  let batch := select_matching (photos_all api) c in
  outcome r = Ok tt /\
  deletes_of (trace r) = batch /\
  failures_logged (trace r) = failed delete_ok batch /\
  last (trace r)
  = Some (Print (deleted_line (succeeded delete_ok batch) (length batch))).
Proof.
  intros Hin Hyes. apply String.eqb_eq in Hyes. cbv zeta.
  pose proof (delete_photos_deletes api c st) as Hdel.
  rewrite delete_photos_run in *. cbv zeta in *. rewrite Hin, Hyes in *.
  cbn [outcome trace fst snd] in *.
  split; [reflexivity |]. split; [exact Hdel |]. split.
  - rewrite !failures_logged_app, delete_prefix_content.
    destruct (delete_batch_content (select_matching (photos_all api) c))
      as (_ & _ & _ & ->).
    rewrite deleted_line_no_failure. lia.
  - rewrite app_assoc. apply last_snoc.
Qed.

Lemma download_run_summary (api : api) (c : date) (dir : string) (st : state)
    (fs1 : Posix.filesystem) :
  ensure_dir dir (disk st) = inr fs1 ->
  let r := download_photos api c dir st in
  let batch := select_matching (photos_all api) c in
  outcome r = Ok tt /\
  downloads_of (trace r) = batch /\
  failures_logged (trace r) = failed (download_ok (Posix.dirs fs1) dir) batch /\
  last (trace r)
  = Some (Print (downloaded_line
                   (succeeded (download_ok (Posix.dirs fs1) dir) batch) dir)).
Proof.
  intros Hdir. cbv zeta.
  pose proof (download_photos_downloads api c dir st) as Hdown.
  rewrite Hdir in Hdown.
  rewrite (download_photos_ok _ _ _ _ _ Hdir) in *.
  cbn [outcome trace fst snd] in *.
  split; [reflexivity |]. split; [exact Hdown |]. split.
  - change (failures_logged
              (download_loop_events (photos_all api) c dir (Posix.dirs fs1)
                 (Posix.files fs1)
               ++ [Print (downloaded_line
                            (succeeded (download_ok (Posix.dirs fs1) dir)
                               (select_matching (photos_all api) c)) dir)])
            = failed (download_ok (Posix.dirs fs1) dir)
                (select_matching (photos_all api) c)).
    rewrite failures_logged_app.
    destruct (download_loop_content (photos_all api) c dir (Posix.dirs fs1)
                (Posix.files fs1)) as (_ & _ & _ & ->).
    rewrite downloaded_line_no_failure. lia.
  - rewrite app_comm_cons. apply last_snoc.
Qed.

(** C7: in a batch of N matching items of which the action fails on k,
    every item is attempted, each failure is caught and logged on a line
    of its own, and the run ends normally reporting N - k successes; this
    holds for the deletion (once confirmed) and for the download (once the
    output directory is ensured). *)
Theorem partial_failures_counted (api : api) (c : date) :
  let batch := select_matching (photos_all api) c in
  (forall st confirm rest,
     stdin st = confirm :: rest ->
     PyStr.lower confirm = "yes" ->
     let r := delete_photos api c st in
     let k := failed delete_ok batch in
     outcome r = Ok tt /\
     deletes_of (trace r) = batch /\
     failures_logged (trace r) = k /\
     last (trace r) = Some (Print (deleted_line (length batch - k) (length batch)))) /\
  (forall st dir fs1,
     ensure_dir dir (disk st) = inr fs1 ->
     let r := download_photos api c dir st in
     let k := failed (download_ok (Posix.dirs fs1) dir) batch in
     outcome r = Ok tt /\
     downloads_of (trace r) = batch /\
     failures_logged (trace r) = k /\
     last (trace r) = Some (Print (downloaded_line (length batch - k) dir))).
Proof.
  cbv zeta. split.
  - intros st confirm rest Hin Hyes.
    destruct (delete_run_summary api c st confirm rest Hin Hyes)
      as (Hok & Hbatch & Hfail & Hlast).
    rewrite <- succeeded_as_difference. auto.
  - intros st dir fs1 Hdir.
    destruct (download_run_summary api c dir st fs1 Hdir)
      as (Hok & Hbatch & Hfail & Hlast).
    rewrite <- succeeded_as_difference. auto.
Qed.

Lemma partial_failures_counted_witness :
  failed delete_ok (select_matching sample_photos (Date 2022 1 2)) = 1%nat /\
  last (trace (delete_photos (api_of sample_photos) (Date 2022 1 2)
                 (State ["yes"] empty_disk)))
  = Some (Print "Deleted 2 out of 3 photos.") /\
  last (trace (download_photos (api_of sample_photos) (Date 2022 1 2) "downloads"
                 (State [] empty_disk)))
  = Some (Print "Downloaded 2 photos to 'downloads'.").
Proof.
  destruct (partial_failures_counted (api_of sample_photos) (Date 2022 1 2))
    as (Hdelete & Hdownload).
  split; [reflexivity |]. split.
  - exact (proj2 (proj2 (proj2
      (Hdelete (State ["yes"] empty_disk) "yes" [] eq_refl eq_refl)))).
  - assert (Hdir : ensure_dir "downloads" (disk (State [] empty_disk))
                   = inr (Posix.Filesystem downloads_dir ∅))
      by (vm_compute; reflexivity).
    exact (proj2 (proj2 (proj2 (Hdownload (State [] empty_disk) "downloads" _ Hdir)))).
Defined.

(** ** The disk after a download run *)

Lemma lookup_apply_writes (ws : list (Posix.location * list Byte.byte)) :
  forall (F : gmap Posix.location (list Byte.byte)) (l : Posix.location),
    apply_writes ws F !! l =
    match last_write ws l with
    | Some data => Some data
    | None => F !! l
    end.
Proof.
  induction ws as [| [l' data] ws IH]; intros F l; [reflexivity |].
  cbn [apply_writes last_write]. rewrite IH.
  destruct (last_write ws l); [reflexivity |].
  rewrite lookup_insert. destruct (decide (l' = l)); reflexivity.
Qed.

Lemma apply_writes_twice (ws : list (Posix.location * list Byte.byte))
    (F : gmap Posix.location (list Byte.byte)) :
  apply_writes ws (apply_writes ws F) = apply_writes ws F.
Proof.
  apply map_eq. intros l. rewrite !lookup_apply_writes.
  destruct (last_write ws l); reflexivity.
Qed.

Lemma last_write_None (ws : list (Posix.location * list Byte.byte)) (l : Posix.location) :
  (forall l' data, In (l', data) ws -> l' <> l) -> last_write ws l = None.
Proof.
  induction ws as [| [l' data] ws IH]; intros H; [reflexivity |].
  cbn [last_write]. rewrite IH.
  - destruct (decide (l' = l)) as [E |]; [| reflexivity].
    exfalso. apply (H l' data); [left; reflexivity | exact E].
  - intros l'' data' Hin. apply (H l'' data'). right. exact Hin.
Qed.

Lemma batch_writes_locations (D : Posix.tree) (dir : string)
    (batch : list photo) (l : Posix.location) (data : list Byte.byte) :
  In (l, data) (batch_writes D dir batch) ->
  exists p, In p batch /\ Posix.open_target D (Posix.join dir (filename p)) = Some l.
Proof.
  unfold batch_writes. rewrite in_flat_map. intros (p & Hp & Hin).
  exists p. split; [exact Hp |].
  unfold download_writes in Hin.
  destruct (download p) as [msg | resp]; [destruct Hin |].
  destruct (Posix.open_target D (Posix.join dir (filename p))) as [l' |];
    [| destruct Hin].
  destruct Hin as [[= <- _] | Hin]; [reflexivity |].
  destruct resp as [r |]; [| destruct Hin].
  destruct (raw_read r); [destruct Hin |].
  destruct Hin as [[= <- _] | []]. reflexivity.
Qed.

(** Files that are written do not hide what [os.stat] found. *)
Lemma stat_after_writes (D : Posix.tree)
    (F : gmap Posix.location (list Byte.byte))
    (ws : list (Posix.location * list Byte.byte)) (s : string) (l : Posix.location) :
  Posix.stat (Posix.Filesystem D F) s = Some l ->
  Posix.stat (Posix.Filesystem D (apply_writes ws F)) s = Some l.
Proof.
  unfold Posix.stat. cbn [Posix.dirs].
  destruct (String.eqb s "" || Posix.has_nul s); [discriminate |].
  destruct (Posix.enter D (Posix.start D s) (removelast (Posix.names_of s)))
    as [parent |]; [| discriminate].
  destruct (last (Posix.names_of s)) as [name |]; [| intros H; exact H].
  destruct (Posix.dir_at D (Posix.step parent name)); [intros H; exact H |].
  destruct (negb (Posix.ends_with_slash s)); cbn [andb]; [| discriminate].
  unfold Posix.file_at. cbn [Posix.files].
  destruct (bool_decide (is_Some (F !! Posix.step parent name))) eqn:E; [| discriminate].
  intros H. apply bool_decide_eq_true in E.
  rewrite (bool_decide_eq_true_2 _); [exact H |].
  rewrite lookup_apply_writes. destruct (last_write ws _); eauto.
Qed.

Lemma exists_after_writes (D : Posix.tree)
    (F : gmap Posix.location (list Byte.byte))
    (ws : list (Posix.location * list Byte.byte)) (s : string) :
  Posix.exists_ (Posix.Filesystem D F) s = true ->
  Posix.exists_ (Posix.Filesystem D (apply_writes ws F)) s = true.
Proof.
  unfold Posix.exists_.
  destruct (Posix.stat (Posix.Filesystem D F) s) as [l |] eqn:E; [| discriminate].
  rewrite (stat_after_writes D F ws s l E). reflexivity.
Qed.

Lemma isdir_after_writes (D : Posix.tree)
    (F : gmap Posix.location (list Byte.byte))
    (ws : list (Posix.location * list Byte.byte)) (s : string) :
  Posix.isdir (Posix.Filesystem D F) s = true ->
  Posix.isdir (Posix.Filesystem D (apply_writes ws F)) s = true.
Proof.
  unfold Posix.isdir.
  destruct (Posix.stat (Posix.Filesystem D F) s) as [l |] eqn:E; [| discriminate].
  rewrite (stat_after_writes D F ws s l E). intros H; exact H.
Qed.

Lemma isdir_exists (fs : Posix.filesystem) (s : string) :
  Posix.isdir fs s = true -> Posix.exists_ fs s = true.
Proof.
  unfold Posix.isdir, Posix.exists_. destruct (Posix.stat fs s); [reflexivity | discriminate].
Qed.

Lemma ensure_dir_exists (dir : string) (fs : Posix.filesystem) :
  Posix.exists_ fs dir = true -> ensure_dir dir fs = inr fs.
Proof. intros H. unfold ensure_dir, ensure. rewrite H. reflexivity. Qed.

(** A run on a disk where the output path exists. *)
Lemma download_photos_on_existing (api : api) (c : date) (dir : string) (st : state) :
  Posix.exists_ (disk st) dir = true ->
  let D := Posix.dirs (disk st) in
  let batch := select_matching (photos_all api) c in
  download_photos api c dir st
  = (Ok tt,
     State (stdin st)
       (Posix.Filesystem D (apply_writes (batch_writes D dir batch) (Posix.files (disk st)))),
     Enumerate ::
     download_loop_events (photos_all api) c dir D (Posix.files (disk st))
     ++ [Print (downloaded_line (succeeded (download_ok D dir) batch) dir)]).
Proof.
  intros Hex. cbv zeta.
  exact (download_photos_ok api c dir st (disk st) (ensure_dir_exists _ _ Hex)).
Qed.

(** What a run that returns normally leaves: the directories it ensured
    and the files of the batch written over the files that were there. *)
Lemma download_photos_returns (api : api) (c : date) (dir : string) (st : state) :
  outcome (download_photos api c dir st) = Ok tt ->
  exists fs1, ensure_dir dir (disk st) = inr fs1.
Proof.
  destruct (ensure_dir dir (disk st)) as [e | fs1] eqn:E; [| eauto].
  rewrite (download_photos_crash _ _ _ _ _ E). discriminate.
Qed.

Lemma enter_grows (T T' : Posix.tree) (names : list string) :
  Posix.cwd T' = Posix.cwd T -> Posix.made T ⊆ Posix.made T' ->
  forall cur l, Posix.enter T cur names = Some l -> Posix.enter T' cur names = Some l.
Proof.
  intros Hcwd Hmade. induction names as [| name rest IH]; intros cur l; [intros H; exact H |].
  cbn [Posix.enter].
  destruct (Posix.dir_at T (Posix.step cur name)) eqn:E; [| discriminate].
  assert (E' : Posix.dir_at T' (Posix.step cur name) = true).
  { unfold Posix.dir_at in *. rewrite Hcwd.
    apply orb_true_iff in E as [E | E]; [rewrite E; reflexivity |].
    apply bool_decide_eq_true in E. apply orb_true_iff. right.
    apply bool_decide_eq_true. apply Hmade. exact E. }
  rewrite E'. apply IH.
Qed.

Lemma last_Some_removelast {A} (l : list A) (x : A) :
  last l = Some x -> l = removelast l ++ [x].
Proof.
  intros H. destruct (last_Some l x) as [[l' ->] _]; [exact H |].
  rewrite removelast_last. reflexivity.
Qed.

(** A directory that [os.mkdir] has made is a directory. *)
Lemma mkdir_isdir (s : string) (fs fs' : Posix.filesystem) :
  Posix.mkdir s fs = inr fs' ->
  Posix.isdir fs' s = true /\ Posix.files fs' = Posix.files fs /\
  Posix.cwd (Posix.dirs fs') = Posix.cwd (Posix.dirs fs) /\
  Posix.stack (Posix.dirs fs') = Posix.stack (Posix.dirs fs) /\
  Posix.made (Posix.dirs fs) ⊆ Posix.made (Posix.dirs fs').
Proof.
  unfold Posix.mkdir.
  destruct (Posix.has_nul s) eqn:Hnul; [discriminate |].
  destruct (String.eqb s "") eqn:Hs; [discriminate |].
  destruct (last (Posix.names_of s)) as [name |] eqn:Hlast; [| discriminate].
  destruct (Posix.enter _ _ _) as [parent |] eqn:Henter; [| discriminate].
  destruct (String.eqb name "." || String.eqb name "..") eqn:Hdots; [discriminate |].
  destruct (Posix.dir_at _ _ || Posix.file_at _ _); [discriminate |].
  intros [= <-]. cbn [Posix.dirs Posix.files Posix.cwd Posix.made Posix.stack].
  split; [| split; [reflexivity |]; split; [reflexivity |]; split; [reflexivity |];
            set_solver].
  unfold Posix.isdir, Posix.stat. cbn [Posix.dirs].
  rewrite Hs, Hnul, Hlast. cbn [orb].
  set (T' := Posix.Tree _ _ _).
  assert (Hstart : Posix.start T' s = Posix.start (Posix.dirs fs) s) by reflexivity.
  rewrite Hstart.
  rewrite (enter_grows (Posix.dirs fs) T' _ eq_refl ltac:(subst T'; cbn; set_solver)
             _ _ Henter).
  apply orb_false_iff in Hdots as [Hdot Hdotdot].
  assert (Hstep : Posix.step parent name = parent ++ [name]).
  { unfold Posix.step. rewrite Hdot, Hdotdot. reflexivity. }
  rewrite Hstep.
  assert (Hdir : Posix.dir_at T' (parent ++ [name]) = true).
  { unfold Posix.dir_at. apply orb_true_iff. right. apply bool_decide_eq_true.
    subst T'. cbn. set_solver. }
  rewrite Hdir. exact Hdir.
Qed.

(** [os.makedirs] makes directories and nothing else: the files, the
    current directory and the directories that were there stay. *)
Lemma makedirs_from_grows (depth : nat) :
  forall (name : string) (fs fs' : Posix.filesystem) (raised : option Posix.oserror),
    Posix.makedirs_from depth name fs = (raised, fs') ->
    Posix.files fs' = Posix.files fs /\
    Posix.cwd (Posix.dirs fs') = Posix.cwd (Posix.dirs fs) /\
    Posix.stack (Posix.dirs fs') = Posix.stack (Posix.dirs fs) /\
    Posix.made (Posix.dirs fs) ⊆ Posix.made (Posix.dirs fs').
Proof.
  assert (Hattempt : forall name fs fs' raised,
            Posix.attempt (Posix.mkdir name) fs = (raised, fs') ->
            Posix.files fs' = Posix.files fs /\
            Posix.cwd (Posix.dirs fs') = Posix.cwd (Posix.dirs fs) /\
            Posix.stack (Posix.dirs fs') = Posix.stack (Posix.dirs fs) /\
            Posix.made (Posix.dirs fs) ⊆ Posix.made (Posix.dirs fs')).
  { intros name fs fs' raised. unfold Posix.attempt.
    destruct (Posix.mkdir name fs) as [e | fs2] eqn:E.
    - intros [= <- <-]. auto.
    - intros [= <- <-]. destruct (mkdir_isdir _ _ _ E) as (_ & ? & ? & ? & ?). auto. }
  induction depth as [| depth IH]; intros name fs fs' raised.
  - intros [= <- <-]. auto.
  - cbn [Posix.makedirs_from].
    destruct (Posix.head_tail name) as [head tail].
    destruct (negb (String.eqb head "") && negb (String.eqb tail "") &&
              negb (Posix.exists_ fs head)); [| apply Hattempt].
    destruct (Posix.makedirs_from depth head fs) as [raised1 fs1] eqn:E1.
    destruct (IH _ _ _ _ E1) as (F1 & C1 & S1 & M1).
    assert (Hrest : (if String.eqb tail "." then (None, fs1)
                     else Posix.attempt (Posix.mkdir name) fs1) = (raised, fs') ->
                    Posix.files fs' = Posix.files fs /\
                    Posix.cwd (Posix.dirs fs') = Posix.cwd (Posix.dirs fs) /\
                    Posix.stack (Posix.dirs fs') = Posix.stack (Posix.dirs fs) /\
                    Posix.made (Posix.dirs fs) ⊆ Posix.made (Posix.dirs fs')).
    { destruct (String.eqb tail ".").
      - intros [= <- <-]. auto.
      - intros H. destruct (Hattempt _ _ _ _ H) as (F2 & C2 & S2 & M2).
        rewrite F2, C2, S2. split; [exact F1 |]. split; [exact C1 |].
        split; [exact S1 |]. intros l Hl. apply M2, M1. exact Hl. }
    destruct raised1 as [[] |]; try exact Hrest; intros [= <- <-]; auto.
Qed.

(** When [os.makedirs] returns, the path is a directory, unless its last
    name was [.] and the call stopped short of [os.mkdir]. *)
Lemma makedirs_from_isdir (depth : nat) (name : string) (fs fs' : Posix.filesystem) :
  Posix.makedirs_from depth name fs = (None, fs') ->
  snd (Posix.head_tail name) <> "." ->
  Posix.isdir fs' name = true.
Proof.
  assert (Hattempt : forall fs0,
            Posix.attempt (Posix.mkdir name) fs0 = (None, fs') ->
            Posix.isdir fs' name = true).
  { intros fs0. unfold Posix.attempt.
    destruct (Posix.mkdir name fs0) as [e | fs2] eqn:E; [discriminate |].
    intros [= <-]. exact (proj1 (mkdir_isdir _ _ _ E)). }
  destruct depth as [| depth]; [discriminate |].
  cbn [Posix.makedirs_from].
  destruct (Posix.head_tail name) as [head tail]. cbn [snd].
  intros H Htail.
  destruct (negb (String.eqb head "") && negb (String.eqb tail "") &&
            negb (Posix.exists_ fs head)); [| exact (Hattempt _ H)].
  destruct (Posix.makedirs_from depth head fs) as [raised1 fs1].
  destruct (String.eqb tail ".") eqn:Edot;
    [apply String.eqb_eq in Edot; contradiction |].
  destruct raised1 as [[] |]; try discriminate H; exact (Hattempt _ H).
Qed.

(** C9, as the code has it: downloading is idempotent on the disk once a
    first run has returned normally and left the output path in
    existence.  A second run with the same cutoff and output directory,
    on the disk the first run left, then returns normally as well and
    leaves the disk exactly as it found it: files of the same name are
    overwritten, none is added and the same downloads succeed.  That is
    so whenever the output path existed before the first run: ensuring it
    then cannot fail and changes nothing, the directories stay, every
    file that was there is still there, and a file keeps its contents
    unless a selected item is written to it.  It is also so when the
    first run had to make the directory and returned, unless the last
    name of the path is [.]. *)
Theorem download_idempotent (api : api) (c : date) (dir : string) (st : state) :
  let r1 := download_photos api c dir st in
  let r2 := download_photos api c dir (final r1) in
  let batch := select_matching (photos_all api) c in
  (outcome r1 = Ok tt ->
   Posix.exists_ (disk (final r1)) dir = true ->
   outcome r2 = Ok tt /\
   disk (final r2) = disk (final r1) /\
   downloads_of (trace r2) = downloads_of (trace r1) /\
   last (trace r2) = last (trace r1)) /\
  (Posix.exists_ (disk st) dir = true ->
   outcome r1 = Ok tt /\
   Posix.exists_ (disk (final r1)) dir = true /\
   Posix.dirs (disk (final r1)) = Posix.dirs (disk st) /\
   (forall l, is_Some (Posix.files (disk st) !! l) ->
              is_Some (Posix.files (disk (final r1)) !! l)) /\
   (forall l, (forall p, In p batch ->
                 Posix.open_target (Posix.dirs (disk st)) (Posix.join dir (filename p))
                 <> Some l) ->
              Posix.files (disk (final r1)) !! l = Posix.files (disk st) !! l)) /\
  (Posix.exists_ (disk st) dir = false ->
   outcome r1 = Ok tt ->
   snd (Posix.head_tail dir) <> "." ->
   Posix.isdir (disk (final r1)) dir = true /\
   Posix.exists_ (disk (final r1)) dir = true).
Proof.
  cbv zeta. split; [| split].
  - intros Hok Hex.
    destruct (download_photos_returns _ _ _ _ Hok) as [fs1 E].
    rewrite (download_photos_ok _ _ _ _ _ E) in *.
    cbn [outcome final trace fst snd disk] in *.
    set (D := Posix.dirs fs1) in *.
    set (ws := batch_writes D dir (select_matching (photos_all api) c)) in *.
    rewrite (download_photos_on_existing api c dir
               (State (stdin st)
                  (Posix.Filesystem D (apply_writes ws (Posix.files fs1)))) Hex).
    cbn [outcome final trace fst snd disk stdin Posix.dirs Posix.files].
    fold D. fold ws. rewrite apply_writes_twice.
    split; [reflexivity |]. split; [reflexivity |]. split.
    + cbn [downloads_of flat_map app]. change (flat_map _ ?t) with (downloads_of t).
      rewrite !downloads_of_app.
      destruct (download_loop_content (photos_all api) c dir D (Posix.files fs1))
        as (-> & _).
      destruct (download_loop_content (photos_all api) c dir D
                  (apply_writes ws (Posix.files fs1))) as (-> & _).
      reflexivity.
    + rewrite !app_comm_cons, !last_snoc. reflexivity.
  - intros Hex. rewrite (download_photos_on_existing api c dir st Hex).
    cbn [outcome final trace fst snd disk Posix.dirs Posix.files].
    split; [reflexivity |]. split.
    { destruct st as [inp [D F]]. apply exists_after_writes. exact Hex. }
    split; [reflexivity |]. split.
    + intros l Hl. rewrite lookup_apply_writes.
      destruct (last_write _ l); eauto.
    + intros l Hl. rewrite lookup_apply_writes, last_write_None; [reflexivity |].
      intros l' data Hin.
      destruct (batch_writes_locations _ _ _ _ _ Hin) as (p & Hp & Hopen).
      intros ->. exact (Hl p Hp Hopen).
  - intros Hex Hok Htail.
    destruct (download_photos_returns _ _ _ _ Hok) as [fs1 E].
    rewrite (download_photos_ok _ _ _ _ _ E).
    cbn [final fst snd disk].
    assert (Hdir : Posix.isdir fs1 dir = true).
    { unfold ensure_dir, ensure in E. rewrite Hex in E.
      destruct (Posix.makedirs dir (disk st)) as [[e |] fs'] eqn:Emk; [discriminate |].
      injection E as <-. exact (makedirs_from_isdir _ _ _ _ Emk Htail). }
    assert (Hdir' : Posix.isdir
                      (Posix.Filesystem (Posix.dirs fs1)
                         (apply_writes
                            (batch_writes (Posix.dirs fs1) dir
                               (select_matching (photos_all api) c))
                            (Posix.files fs1))) dir = true).
    { destruct fs1 as [D1 F1]. apply isdir_after_writes. exact Hdir. }
    split; [exact Hdir' | exact (isdir_exists _ _ Hdir')].
Qed.

Lemma download_idempotent_witness :
  Posix.exists_ disk_with_downloads "downloads" = true /\
  outcome (download_photos (api_of sample_photos) (Date 2022 1 2) "downloads"
             (State [] disk_with_downloads)) = Ok tt /\
  is_Some (Posix.files
             (disk (final (download_photos (api_of sample_photos) (Date 2022 1 2)
                             "downloads" (State [] disk_with_downloads))))
           !! (home ++ ["downloads"; "notes.txt"])) /\
  Posix.exists_ empty_disk "out/2022" = false /\
  disk (final (download_photos (api_of sample_photos) (Date 2022 1 2) "out/2022"
                 (final (download_photos (api_of sample_photos) (Date 2022 1 2)
                           "out/2022" (State [] empty_disk)))))
  = disk (final (download_photos (api_of sample_photos) (Date 2022 1 2) "out/2022"
                   (State [] empty_disk))).
Proof.
  assert (Hex : Posix.exists_ (disk (State [] disk_with_downloads)) "downloads" = true)
    by (vm_compute; reflexivity).
  assert (Hno : Posix.exists_ (disk (State [] empty_disk)) "out/2022" = false)
    by (vm_compute; reflexivity).
  destruct (download_idempotent (api_of sample_photos) (Date 2022 1 2) "downloads"
              (State [] disk_with_downloads)) as (_ & Hkeep & _).
  destruct (download_idempotent (api_of sample_photos) (Date 2022 1 2) "out/2022"
              (State [] empty_disk)) as (Hagain & _ & Hmade).
  destruct (Hkeep Hex) as (Hok & _ & _ & Hfiles & _).
  assert (Hok' : outcome (download_photos (api_of sample_photos) (Date 2022 1 2)
                            "out/2022" (State [] empty_disk)) = Ok tt)
    by (vm_compute; reflexivity).
  assert (Htail : snd (Posix.head_tail "out/2022") <> ".") by discriminate.
  destruct (Hmade Hno Hok' Htail) as [_ Hex'].
  split; [exact Hex |]. split; [exact Hok |].
  split; [apply Hfiles; exists jpeg_bytes; vm_compute; reflexivity |].
  split; [exact Hno |].
  exact (proj1 (proj2 (Hagain Hok' Hex'))).
Defined.

(** C9, as the specification has it, fails: with the output directory
    [a/..] on a disk without [a], the first run ends in the
    [FileExistsError] of [os.makedirs], which has made [a] by then; the
    second run finds that the path exists, returns normally and stores
    the file in the current directory. *)
Lemma download_twice_differs :
  outcome first_run_into_parent
  = Raise (Exception "[Errno 17] File exists: 'a/..'") /\
  disk (final first_run_into_parent)
  = Posix.Filesystem (in_home {[ home ++ ["a"] ]}) ∅ /\
  outcome second_run_into_parent = Ok tt /\
  disk (final second_run_into_parent)
  = Posix.Filesystem (in_home {[ home ++ ["a"] ]})
      {[ home ++ ["IMG_0001.JPG"] := jpeg_bytes ]} /\
  lines_of (trace second_run_into_parent)
  = ["Downloading IMG_0001.JPG taken on 2021-12-31 ...";
     "Downloaded 1 photos to 'a/..'."] /\
  disk (final second_run_into_parent) <> disk (final first_run_into_parent).
Proof.
  assert (H1 : first_run_into_parent
               = (Raise (Exception "[Errno 17] File exists: 'a/..'"),
                  State [] (Posix.Filesystem (in_home {[ home ++ ["a"] ]}) ∅), []))
    by (vm_compute; reflexivity).
  assert (H2 : second_run_into_parent
               = (Ok tt,
                  State [] (Posix.Filesystem (in_home {[ home ++ ["a"] ]})
                              {[ home ++ ["IMG_0001.JPG"] := jpeg_bytes ]}),
                  [Enumerate;
                   Print "Downloading IMG_0001.JPG taken on 2021-12-31 ...";
                   CallDownload photo_dec31;
                   Print "Downloaded 1 photos to 'a/..'."])).
  { unfold second_run_into_parent. rewrite H1. vm_compute. reflexivity. }
  rewrite H1, H2. cbn [outcome final trace fst snd disk].
  do 5 (split; [reflexivity |]).
  intros H.
  apply (f_equal (fun fs => Posix.files fs !! (home ++ ["IMG_0001.JPG"]))) in H.
  vm_compute in H. discriminate H.
Qed.

(** C8, as the code has it: [download_photos] returns nothing.  Once the
    output directory is ensured it attempts the matching items, and its
    last line reports one number, the count of the downloads that
    succeeded, which with the failures logged adds up to the number of
    items attempted; that number itself is not reported. *)
Theorem download_reports_successes_only (api : api) (c : date) (dir : string)
    (st : state) (fs1 : Posix.filesystem) :
  ensure_dir dir (disk st) = inr fs1 ->
  let r := download_photos api c dir st in
  let batch := select_matching (photos_all api) c in
  let n := succeeded (download_ok (Posix.dirs fs1) dir) batch in
  outcome r = Ok tt /\
  downloads_of (trace r) = batch /\
  last (trace r) = Some (Print (downloaded_line n dir)) /\
  (n + failures_logged (trace r) = length batch)%nat.
Proof.
  intros Hdir. cbv zeta.
  destruct (download_run_summary api c dir st fs1 Hdir)
    as (Hok & Hbatch & Hfail & Hlast).
  split; [exact Hok |]. split; [exact Hbatch |]. split; [exact Hlast |].
  rewrite Hfail. apply succeeded_failed.
Qed.

Lemma download_reports_successes_only_witness :
  ensure_dir "downloads" empty_disk
  = inr (Posix.Filesystem downloads_dir ∅) /\
  outcome (download_photos (api_of sample_photos) (Date 2022 1 2) "downloads"
             (State [] empty_disk)) = Ok tt /\
  last (trace (download_photos (api_of sample_photos) (Date 2022 1 2) "downloads"
                 (State [] empty_disk)))
  = Some (Print "Downloaded 2 photos to 'downloads'.").
Proof.
  assert (Hdir : ensure_dir "downloads" (disk (State [] empty_disk))
                 = inr (Posix.Filesystem downloads_dir ∅))
    by (vm_compute; reflexivity).
  destruct (download_reports_successes_only (api_of sample_photos) (Date 2022 1 2)
              "downloads" (State [] empty_disk) _ Hdir) as (Hok & _ & Hlast & _).
  split; [exact Hdir |]. split; [exact Hok | exact Hlast].
Defined.

(** C8, as the specification has it, fails: a run that attempts no
    download and a run that attempts one, which fails, both return nothing
    and end on the same report; the number of attempts is in neither. *)
Lemma download_report_omits_attempts :
  outcome (download_photos (api_of []) (Date 2022 1 1) "downloads"
             (State [] empty_disk)) = Ok tt /\
  outcome (download_photos (api_of [photo_jan01]) (Date 2022 1 1) "downloads"
             (State [] empty_disk)) = Ok tt /\
  downloads_of (trace (download_photos (api_of []) (Date 2022 1 1) "downloads"
                         (State [] empty_disk))) = [] /\
  downloads_of (trace (download_photos (api_of [photo_jan01]) (Date 2022 1 1)
                         "downloads" (State [] empty_disk))) = [photo_jan01] /\
  lines_of (trace (download_photos (api_of []) (Date 2022 1 1) "downloads"
                     (State [] empty_disk)))
  = ["Downloaded 0 photos to 'downloads'."] /\
  lines_of (trace (download_photos (api_of [photo_jan01]) (Date 2022 1 1)
                     "downloads" (State [] empty_disk)))
  = ["Downloading IMG_0002.JPG taken on 2022-01-01 ...";
     "Failed to download IMG_0002.JPG: Connection reset by peer";
     "Downloaded 0 photos to 'downloads'."].
Proof. repeat split; vm_compute; reflexivity. Qed.

(** * Further properties of the script *)

(** ** What each sub-command leaves alone *)

Lemma delete_prefix_no_download (api : api) (c : date) :
  downloads_of (delete_prefix api c) = [].
Proof.
  unfold delete_prefix. cbn [downloads_of flat_map app].
  change (flat_map _ ?t) with (downloads_of t).
  rewrite downloads_of_app.
  destruct (diagnostics_quiet (photos_all api)) as (-> & _). reflexivity.
Qed.

(** X1: the two sub-commands keep apart.  A run of [delete_photos] never
    calls [download()] and never changes the local disk; a run of
    [download_photos] never calls [delete()], asks nothing and reads
    nothing from stdin. *)
Theorem pipelines_keep_apart (api : api) (c : date) (dir : string) (st : state) :
  downloads_of (trace (delete_photos api c st)) = [] /\
  disk (final (delete_photos api c st)) = disk st /\
  deletes_of (trace (download_photos api c dir st)) = [] /\
  prompts_of (trace (download_photos api c dir st)) = [] /\
  stdin (final (download_photos api c dir st)) = stdin st.
Proof.
  split; [| split].
  - rewrite delete_photos_run. cbv zeta.
    pose proof (delete_prefix_no_download api c) as Hpre.
    destruct (stdin st) as [| confirm rest]; [exact Hpre |].
    destruct (String.eqb (PyStr.lower confirm) "yes"); cbn [trace snd];
      rewrite !downloads_of_app, Hpre; [| reflexivity].
    destruct (delete_batch_content (select_matching (photos_all api) c))
      as (_ & -> & _).
    reflexivity.
  - rewrite delete_photos_run. cbv zeta.
    destruct (stdin st) as [| confirm rest]; [reflexivity |].
    destruct (String.eqb (PyStr.lower confirm) "yes"); reflexivity.
  - destruct (ensure_dir dir (disk st)) as [e | fs1] eqn:E.
    + rewrite (download_photos_crash _ _ _ _ _ E). repeat split; reflexivity.
    + rewrite (download_photos_ok _ _ _ _ _ E). cbn [trace final fst snd stdin].
      destruct (download_loop_content (photos_all api) c dir (Posix.dirs fs1)
                  (Posix.files fs1)) as (_ & Hd & Hp & _).
      split; [| split; [| reflexivity]].
      * cbn [deletes_of flat_map app]. change (flat_map _ ?t) with (deletes_of t).
        rewrite deletes_of_app, Hd. reflexivity.
      * cbn [prompts_of flat_map app]. change (flat_map _ ?t) with (prompts_of t).
        rewrite prompts_of_app, Hp. reflexivity.
Qed.

(** X2: [delete_photos] selects by date alone.  With the same cutoff, the
    items a confirmed deletion sends to [delete()] are exactly the items a
    download run attempted, in the same order, those whose download
    failed included. *)
Theorem delete_ignores_download_outcome (api : api) (c : date) (dir : string)
    (st st' : state) (fs1 : Posix.filesystem) (confirm : string) (rest : list string) :
  ensure_dir dir (disk st) = inr fs1 ->
  stdin st' = confirm :: rest ->
  PyStr.lower confirm = "yes" ->
  deletes_of (trace (delete_photos api c st'))
  = downloads_of (trace (download_photos api c dir st)) /\
  (forall p, In p (downloads_of (trace (download_photos api c dir st))) ->
             download_ok (Posix.dirs fs1) dir p = false ->
             In p (deletes_of (trace (delete_photos api c st')))) /\
  length (deletes_of (trace (delete_photos api c st')))
  = (succeeded (download_ok (Posix.dirs fs1) dir) (select_matching (photos_all api) c)
     + failures_logged (trace (download_photos api c dir st)))%nat.
Proof.
  intros Hdir Hin Hyes.
  destruct (download_run_summary api c dir st fs1 Hdir) as (_ & Hdown & Hfail & _).
  destruct (delete_run_summary api c st' confirm rest Hin Hyes) as (_ & Hdel & _).
  rewrite Hdel, Hdown, Hfail. split; [reflexivity |]. split.
  - intros p Hp _. exact Hp.
  - symmetry. apply succeeded_failed.
Qed.

Lemma delete_ignores_download_outcome_witness :
  download_ok downloads_dir "downloads" photo_jan01 = false /\
  In photo_jan01
    (deletes_of (trace (delete_photos (api_of sample_photos) (Date 2022 1 1)
                          (State ["yes"] empty_disk)))).
Proof.
  assert (Hdir : ensure_dir "downloads" (disk (State [] empty_disk))
                 = inr (Posix.Filesystem downloads_dir ∅))
    by (vm_compute; reflexivity).
  assert (Hfail : download_ok downloads_dir "downloads" photo_jan01
                  = false) by reflexivity.
  destruct (delete_ignores_download_outcome (api_of sample_photos) (Date 2022 1 1)
              "downloads" (State [] empty_disk) (State ["yes"] empty_disk) _
              "yes" [] Hdir eq_refl eq_refl) as (Heq & Hin & _).
  split; [exact Hfail |].
  apply Hin; [| exact Hfail].
  rewrite <- Heq. vm_compute. right. left. reflexivity.
Defined.

(** ** The selection as a function of the cutoff *)

Lemma date_le_trans (a b c : date) : date_le a b -> date_le b c -> date_le a c.
Proof. unfold date_le. lia. Qed.

Lemma matches_monotone (c1 c2 : date) (p : photo) :
  date_le c1 c2 -> matches c1 p = true -> matches c2 p = true.
Proof.
  intros Hle. rewrite !matches_iff. intros (d & Hd & Hdc).
  exists d. split; [exact Hd | exact (date_le_trans _ _ _ Hdc Hle)].
Qed.

(** X3: the selection grows with the cutoff.  For cutoffs [c1 <= c2], what
    is selected for [c1] is, in order, part of what is selected for [c2],
    and selecting for [c1] among the items selected for [c2] gives the
    selection for [c1]. *)
Theorem selection_monotone_in_cutoff (photos : list photo) (c1 c2 : date) :
  date_le c1 c2 ->
  sublist (select_matching photos c1) (select_matching photos c2) /\
  select_matching (select_matching photos c2) c1 = select_matching photos c1 /\
  (length (select_matching photos c1) <= length (select_matching photos c2))%nat.
Proof.
  intros Hle.
  assert (Hnest : select_matching (select_matching photos c2) c1
                  = select_matching photos c1).
  { induction photos as [| p rest IH]; [reflexivity |].
    rewrite !select_matching_cons.
    destruct (matches c2 p) eqn:M2.
    - rewrite select_matching_cons, IH. reflexivity.
    - destruct (matches c1 p) eqn:M1; [| exact IH].
      rewrite (matches_monotone c1 c2 p Hle M1) in M2. discriminate M2. }
  assert (Hsub : sublist (select_matching photos c1) (select_matching photos c2)).
  { rewrite <- Hnest. apply select_matching_sublist. }
  split; [exact Hsub |]. split; [exact Hnest |].
  apply sublist_length. exact Hsub.
Qed.

Lemma selection_monotone_in_cutoff_witness :
  date_le (Date 2021 12 31) (Date 2022 1 1) /\
  sublist (select_matching sample_photos (Date 2021 12 31))
          (select_matching sample_photos (Date 2022 1 1)).
Proof.
  assert (Hle : date_le (Date 2021 12 31) (Date 2022 1 1)) by (left; reflexivity).
  split; [exact Hle |].
  exact (proj1 (selection_monotone_in_cutoff sample_photos _ _ Hle)).
Defined.

(** ** The confirmation when no answer can be read *)

(** X4: when stdin is exhausted at the confirmation, [input] raises
    [EOFError] out of [delete_photos]: the run ends on the prompt with an
    uncaught exception (exit status 1), nothing has been deleted and no
    cancellation line is printed. *)
Theorem no_answer_aborts_before_deleting (api : api) (c : date) (st : state) :
  stdin st = [] ->
  let r := delete_photos api c st in
  outcome r = Raise (Exception "EOF when reading a line") /\
  exit_status (outcome r) = 1 /\
  final r = st /\
  deletes_of (trace r) = [] /\
  last (trace r) = Some (Input confirm_prompt) /\
  ~ In (Print "Deletion canceled.") (trace r).
Proof.
  intros Hin. cbv zeta.
  pose proof (delete_photos_deletes api c st) as Hdel.
  rewrite delete_photos_run in *. cbv zeta in *. rewrite Hin in *.
  cbn [outcome final trace fst snd] in *.
  repeat split; try assumption.
  - unfold delete_prefix. rewrite app_comm_cons.
    change [Print ?x; Input ?y] with ([Print x] ++ [Input y]).
    rewrite app_assoc. apply last_snoc.
  - unfold delete_prefix. intros [[=] | H].
    apply in_app_or in H as [H | [[= H] | [[=] | []]]].
    unfold diagnostics in H. apply in_flat_map in H as (p & _ & H).
    unfold diagnostic in H. destruct (date_error p); [| destruct H].
    destruct H as [[=] | []].
Qed.

Lemma no_answer_aborts_before_deleting_witness :
  outcome (delete_photos (api_of sample_photos) (Date 2022 1 1) (State [] empty_disk))
  = Raise (Exception "EOF when reading a line") /\
  deletes_of (trace (delete_photos (api_of sample_photos) (Date 2022 1 1)
                       (State [] empty_disk))) = [].
Proof.
  destruct (no_answer_aborts_before_deleting (api_of sample_photos) (Date 2022 1 1)
              (State [] empty_disk) eq_refl) as (Ho & _ & _ & Hd & _).
  split; [exact Ho | exact Hd].
Defined.

(** ** Every enumerated item is accounted for *)

Lemma diagnostics_logged_app (t1 t2 : list event) :
  diagnostics_logged (t1 ++ t2) = (diagnostics_logged t1 + diagnostics_logged t2)%nat.
Proof.
  unfold diagnostics_logged. rewrite lines_of_app, List.filter_app, length_app.
  reflexivity.
Qed.

Lemma diagnostic_logged (p : photo) :
  diagnostics_logged (diagnostic p) = (if undated p then 1 else 0)%nat.
Proof.
  unfold undated, diagnostic.
  pose proof (creation_date_None p) as Hnone.
  destruct (creation_date p) as [d |].
  - destruct (date_error p) as [msg |]; [| reflexivity].
    destruct Hnone as [_ Hnone]. discriminate Hnone. eauto.
  - destruct Hnone as [Hnone _]. destruct (Hnone eq_refl) as [msg ->]. reflexivity.
Qed.

Lemma diagnostics_all_logged (photos : list photo) :
  diagnostics_logged (diagnostics photos) = length (List.filter undated photos).
Proof.
  induction photos as [| p rest IH]; [reflexivity |].
  unfold diagnostics in *. cbn [flat_map List.filter].
  rewrite diagnostics_logged_app, diagnostic_logged, IH.
  destruct (undated p); reflexivity.
Qed.

Lemma delete_events_no_diagnostic (batch : list photo) :
  diagnostics_logged (flat_map delete_events batch) = 0%nat.
Proof.
  induction batch as [| p rest IH]; [reflexivity |].
  cbn [flat_map]. rewrite diagnostics_logged_app, IH.
  unfold delete_events. destruct (delete p); reflexivity.
Qed.

Lemma download_events_no_diagnostic (fs : Posix.filesystem) (dir : string)
    (d : date) (p : photo) :
  diagnostics_logged (download_events fs dir d p) = 0%nat.
Proof.
  unfold download_events. destruct (download_failure fs dir p); reflexivity.
Qed.

Lemma download_loop_diagnostics (photos : list photo) (c : date) (dir : string)
    (D : Posix.tree) :
  forall F, diagnostics_logged (download_loop_events photos c dir D F)
            = length (List.filter undated photos).
Proof.
  induction photos as [| p rest IH]; intros F; [reflexivity |].
  cbn [download_loop_events List.filter].
  rewrite diagnostics_logged_app, diagnostic_logged.
  unfold undated at 1 2.
  destruct (creation_date p) as [d |]; [destruct (date_leb d c) |].
  - rewrite diagnostics_logged_app, download_events_no_diagnostic, IH. reflexivity.
  - rewrite IH. reflexivity.
  - rewrite IH. reflexivity.
Qed.

(** X5: every enumerated item is accounted for exactly once: it is
    selected, or newer than the cutoff, or without a readable creation
    date; and a run of either sub-command prints one diagnostic line per
    item of the last kind, no more and no fewer. *)
Theorem enumeration_partitioned (api : api) (c : date) (dir : string) (st : state) :
  let photos := photos_all api in
  length photos
  = (length (select_matching photos c) + length (List.filter (newer c) photos)
     + length (List.filter undated photos))%nat /\
  diagnostics_logged (trace (delete_photos api c st))
  = length (List.filter undated photos) /\
  (forall fs1, ensure_dir dir (disk st) = inr fs1 ->
     diagnostics_logged (trace (download_photos api c dir st))
     = length (List.filter undated photos)).
Proof.
  cbv zeta. split; [| split].
  - induction (photos_all api) as [| p rest IH]; [reflexivity |].
    rewrite select_matching_cons. cbn [List.filter length].
    assert (Hm : matches c p = match creation_date p with
                               | Some d => date_leb d c | None => false end)
      by reflexivity.
    assert (Hn : newer c p = match creation_date p with
                             | Some d => negb (date_leb d c) | None => false end)
      by reflexivity.
    assert (Hu : undated p = match creation_date p with
                             | Some _ => false | None => true end)
      by reflexivity.
    rewrite Hm, Hn, Hu.
    destruct (creation_date p) as [d |]; [destruct (date_leb d c) |];
      cbn [negb length]; lia.
  - rewrite delete_photos_run. cbv zeta.
    assert (Hpre : diagnostics_logged (delete_prefix api c)
                   = length (List.filter undated (photos_all api))).
    { unfold delete_prefix.
      change (diagnostics_logged
                (diagnostics (photos_all api) ++
                 [Print (found_line (length (select_matching (photos_all api) c)));
                  Input confirm_prompt]) = length (List.filter undated (photos_all api))).
      rewrite diagnostics_logged_app, diagnostics_all_logged.
      change (diagnostics_logged [Print (found_line _); Input _]) with 0%nat. lia. }
    destruct (stdin st) as [| confirm rest]; [exact Hpre |].
    destruct (String.eqb (PyStr.lower confirm) "yes"); cbn [trace snd];
      rewrite !diagnostics_logged_app, Hpre.
    + rewrite delete_events_no_diagnostic.
      change (diagnostics_logged [Print (deleted_line _ _)]) with 0%nat. lia.
    + change (diagnostics_logged [Print "Deletion canceled."]) with 0%nat. lia.
  - intros fs1 Hdir. rewrite (download_photos_ok _ _ _ _ _ Hdir). cbn [trace snd].
    change (diagnostics_logged
              (download_loop_events (photos_all api) c dir (Posix.dirs fs1)
                 (Posix.files fs1) ++ [Print (downloaded_line
                   (succeeded (download_ok (Posix.dirs fs1) dir)
                      (select_matching (photos_all api) c)) dir)])
            = length (List.filter undated (photos_all api))).
    rewrite diagnostics_logged_app, download_loop_diagnostics.
    change (diagnostics_logged [Print (downloaded_line _ _)]) with 0%nat. lia.
Qed.

Lemma enumeration_partitioned_witness :
  length (List.filter undated sample_photos) = 1%nat /\
  diagnostics_logged
    (trace (download_photos (api_of sample_photos) (Date 2022 1 1) "downloads"
              (State [] empty_disk))) = 1%nat.
Proof.
  assert (Hdir : ensure_dir "downloads" (disk (State [] empty_disk))
                 = inr (Posix.Filesystem downloads_dir ∅))
    by (vm_compute; reflexivity).
  destruct (enumeration_partitioned (api_of sample_photos) (Date 2022 1 1)
              "downloads" (State [] empty_disk)) as (_ & _ & Hdown).
  split; [reflexivity | exact (Hdown _ Hdir)].
Defined.

(** ** Login *)

Lemma no_authenticate_no_authentications (t : list event) :
  List.existsb is_authenticate t = false -> authentications t = [].
Proof.
  induction t as [| e t IH]; [reflexivity |].
  cbn [List.existsb]. intros [He Ht]%orb_false_iff.
  destruct e; try discriminate He; cbn [authentications flat_map app]; exact (IH Ht).
Qed.

Lemma login_authentications (w : world) (config : yaml) (st : state) :
  authentications (trace (login w config st)) =
  match read_credentials config with
  | Gives (username, password) =>
      if truthy username && truthy password then [(username, password)] else []
  | Raises _ => []
  end.
Proof.
  rewrite login_run.
  destruct (read_credentials config) as [msg | [username password]]; [reflexivity |].
  destruct (truthy username), (truthy password); cbn [negb orb andb];
    try reflexivity.
  destruct (PyiCloudService w username password) as [msg | a]; [reflexivity |].
  cbv zeta. cbn [trace snd authentications flat_map app].
  change (flat_map _ ?t) with (authentications t).
  destruct (challenge_run w a st) as (_ & Hno & _).
  rewrite (no_authenticate_no_authentications _ Hno). reflexivity.
Qed.

Lemma login_authentications_length (w : world) (config : yaml) (st : state) :
  (length (authentications (trace (login w config st))) <= 1)%nat.
Proof.
  rewrite login_authentications.
  destruct (read_credentials config) as [msg | [username password]]; [cbn; lia |].
  destruct (truthy username && truthy password); cbn; lia.
Qed.

(** X6: [login] calls the pyicloud constructor at most once, and exactly
    when both the username and the password it read are truthy; it hands
    over the two values as they stand in the configuration, whatever
    their type. *)
Theorem login_authenticates_at_most_once (w : world) (config : yaml) (st : state) :
  authentications (trace (login w config st)) =
  match read_credentials config with
  | Gives (username, password) =>
      if truthy username && truthy password then [(username, password)] else []
  | Raises _ => []
  end /\
  (length (authentications (trace (login w config st))) <= 1)%nat.
Proof.
  split; [apply login_authentications | apply login_authentications_length].
Qed.

(** X7: the second factor.  Once the constructor has returned a handle,
    [login] asks for a 2FA code when the handle requires one, and for a
    2SA code only when it requires no 2FA: a handle that reports both is
    asked for the 2FA code alone.  The code submitted is the line typed
    as [str.strip] returns it (on ASCII text: without the blanks around
    it); the handle is returned when the code validates, otherwise the
    failure is printed and the run ends with [sys.exit(1)]; at the end of
    stdin the [EOFError] of [input] goes uncaught.  A handle that requires
    neither is returned without reading stdin. *)
Theorem second_factor_gate (w : world) (config : yaml) (st : state)
    (u p : yaml) (a : api) :
  read_credentials config = Gives (u, p) ->
  truthy u = true -> truthy p = true ->
  PyiCloudService w u p = Gives a ->
  login w config st =
  (if requires_2fa a then
    let asked :=
      [Authenticate u p;
       Print "Two-factor authentication required. A code has been sent to your devices.";
       Input "Enter the 2FA code: "] in
    match stdin st with
    | [] => (Raise (Exception "EOF when reading a line"), st, asked)
    | line :: rest =>
        if validate_2fa_code a (str_strip w line) then
          (Ok a, State rest (disk st), asked ++ [Validate2fa (str_strip w line)])
        else
          (Raise (SystemExit 1), State rest (disk st),
           asked ++ [Validate2fa (str_strip w line);
                     Print "Failed to verify the 2FA code."])
    end
  else if requires_2sa a then
    let asked :=
      [Authenticate u p;
       Print "Two-step authentication required. A code has been sent to your trusted devices.";
       Input "Enter the 2SA code: "] in
    match stdin st with
    | [] => (Raise (Exception "EOF when reading a line"), st, asked)
    | line :: rest =>
        if validate_2sa_code a (str_strip w line) then
          (Ok a, State rest (disk st), asked ++ [Validate2sa (str_strip w line)])
        else
          (Raise (SystemExit 1), State rest (disk st),
           asked ++ [Validate2sa (str_strip w line);
                     Print "Failed to verify the 2SA code."])
    end
  else (Ok a, st, [Authenticate u p])) /\
  (forall line, PyStr.is_ascii line = true ->
     str_strip w line = PyStr.rstrip (PyStr.lstrip line)).
Proof.
  intros Hcred Hu Hp Hsvc. split.
  - rewrite login_run, Hcred, Hu, Hp, Hsvc. cbn [negb orb]. cbv zeta.
    destruct st as [inp fs]. unfold challenge, input, sys_exit.
    destruct (requires_2fa a); [| destruct (requires_2sa a)].
    + py_unfold. destruct inp as [| line rest]; [reflexivity |].
      destruct (validate_2fa_code a (str_strip w line)); reflexivity.
    + py_unfold. destruct inp as [| line rest]; [reflexivity |].
      destruct (validate_2sa_code a (str_strip w line)); reflexivity.
    + reflexivity.
  - intros line Hascii. unfold str_strip. rewrite Hascii. reflexivity.
Qed.

Lemma second_factor_gate_witness :
  login world_2fa sample_config (State [" 123456 "; "yes"] empty_disk)
  = (Ok api_2fa_and_2sa, State ["yes"] empty_disk,
     [Authenticate (YStr "user@example.com") (YStr "app-password");
      Print "Two-factor authentication required. A code has been sent to your devices.";
      Input "Enter the 2FA code: ";
      Validate2fa "123456"]) /\
  login world_2fa sample_config (State [code_after_no_break_space] empty_disk)
  = (Ok api_2fa_and_2sa, State [] empty_disk,
     [Authenticate (YStr "user@example.com") (YStr "app-password");
      Print "Two-factor authentication required. A code has been sent to your devices.";
      Input "Enter the 2FA code: ";
      Validate2fa "123456"]).
Proof.
  split.
  - exact (proj1 (second_factor_gate world_2fa sample_config
                    (State [" 123456 "; "yes"] empty_disk)
                    (YStr "user@example.com") (YStr "app-password") api_2fa_and_2sa
                    eq_refl eq_refl eq_refl eq_refl)).
  - exact (proj1 (second_factor_gate world_2fa sample_config
                    (State [code_after_no_break_space] empty_disk)
                    (YStr "user@example.com") (YStr "app-password") api_2fa_and_2sa
                    eq_refl eq_refl eq_refl eq_refl)).
Defined.

(** ** The whole program *)

(** X8: a configuration file that cannot be opened or parsed ends the run
    at once: [main] prints the error with the text of the exception and
    exits with status 1; no login is attempted, the photo library is not
    reached, stdin and the disk are untouched. *)
Theorem config_failure_stops_before_login (w : world) (a : args) (st : state)
    (cmd : command) (msg : string) :
  args_command a = Some cmd ->
  yaml_load w (args_config a) = Raises msg ->
  main w a st
  = (Raise (SystemExit 1), st,
     [LoadConfig (args_config a); Print ("Error loading config file: " +:+ msg)]) /\
  authentications (trace (main w a st)) = [] /\
  quiet (trace (main w a st)) = true.
Proof.
  intros Hcmd Hload.
  assert (H : main w a st
              = (Raise (SystemExit 1), st,
                 [LoadConfig (args_config a);
                  Print ("Error loading config file: " +:+ msg)])).
  { rewrite main_run, Hcmd, Hload. reflexivity. }
  rewrite H. repeat split; reflexivity.
Qed.

Lemma config_failure_stops_before_login_witness :
  main failing_world delete_args (State ["yes"] empty_disk)
  = (Raise (SystemExit 1), State ["yes"] empty_disk,
     [LoadConfig "config.yaml";
      Print "Error loading config file: [Errno 2] No such file or directory: 'config.yaml'"]).
Proof.
  exact (proj1 (config_failure_stops_before_login failing_world delete_args
                  (State ["yes"] empty_disk) CmdDelete _ eq_refl eq_refl)).
Defined.

Lemma download_photos_status (api : api) (c : date) (dir : string) (st : state) :
  exit_status (outcome (download_photos api c dir st))
  = match ensure_dir dir (disk st) with
    | inr _ => 0
    | inl _ => 1
    end.
Proof.
  destruct (ensure_dir dir (disk st)) as [e | fs1] eqn:E.
  - rewrite (download_photos_crash _ _ _ _ _ E). reflexivity.
  - rewrite (download_photos_ok _ _ _ _ _ E). reflexivity.
Qed.

(** The exit status of [main] once the command line is parsed. *)
Lemma main_status (w : world) (a : args) (st : state) :
  (exit_status (outcome (main w a st)) = 0 <-> completes w a st) /\
  (exit_status (outcome (main w a st)) = 0 \/ exit_status (outcome (main w a st)) = 1).
Proof.
  unfold completes. rewrite main_run.
  destruct (args_command a) as [cmd |].
  2: { split; [| right; reflexivity].
       split; [discriminate | intros (? & ? & ? & ? & ? & ? & [=] & _)]. }
  destruct (yaml_load w (args_config a)) as [msg | config].
  { split; [| right; reflexivity].
    split; [discriminate | intros (? & ? & ? & ? & ? & ? & _ & [=] & _)]. }
  cbv zeta.
  pose proof (login_facts w config st) as (_ & _ & Hraise & _).
  destruct (login w config st) as [[[api | e] st1] t1] eqn:Hlogin;
    cbn [outcome final trace fst snd] in *.
  2: { rewrite (exit_status_raise e (Hraise e eq_refl)).
       split; [| right; reflexivity].
       split; [discriminate |].
       intros (? & ? & ? & ? & ? & ? & _ & [= <-] & Hl & _).
       rewrite Hlogin in Hl. discriminate Hl. }
  destruct (strptime_date w (args_date a)) as [msg | d].
  { split; [| right; reflexivity].
    split; [discriminate | intros (? & ? & ? & ? & ? & ? & _ & _ & _ & [=] & _)]. }
  destruct cmd.
  - cbn [outcome fst]. rewrite download_photos_status.
    destruct (ensure_dir (args_output_dir a) (disk st1)) as [e | fs1] eqn:Hdir.
    + split; [| right; reflexivity].
      split; [discriminate |].
      intros (cmd' & config' & api' & st1' & t1' & d' & [= <-] & [= <-] & Hl & _ & fs1 & Hd).
      rewrite Hlogin in Hl. injection Hl as <- <- <-.
      rewrite Hdir in Hd. discriminate Hd.
    + split; [| left; reflexivity].
      split; [| reflexivity]. intros _.
      exists CmdDownload, config, api, st1, t1, d. eauto 10.
  - rewrite delete_photos_run. cbv zeta.
    destruct (stdin st1) as [| confirm rest] eqn:Hin.
    + cbn [outcome fst exit_status].
      split; [| right; reflexivity].
      split; [discriminate |].
      intros (cmd' & config' & api' & st1' & t1' & d' & [= <-] & [= <-] & Hl & _ & Hne).
      rewrite Hlogin in Hl. injection Hl as <- <- <-.
      destruct (Hne Hin).
    + split.
      * split.
        -- intros _. exists CmdDelete, config, api, st1, t1, d.
           do 2 (split; [reflexivity |]). split; [exact Hlogin |].
           split; [reflexivity |]. rewrite Hin. discriminate.
        -- intros _. destruct (String.eqb (PyStr.lower confirm) "yes"); reflexivity.
      * left. destruct (String.eqb (PyStr.lower confirm) "yes"); reflexivity.
Qed.

(** X9: the exit status of the program is 0, 1 or 2.  It is 2 exactly
    when [parse_args] rejects the command line, and 0 exactly when
    [parse_args] printed the help it was asked for, or returned a
    namespace with which the run completes: a sub-command is named, the
    configuration loads, [login] returns a handle, the date parses and
    then, for [download], the output directory can be ensured, for
    [delete], an answer to the confirmation can be read.  A command line
    without a sub-command prints the help and exits with status 1.  Items
    that fail to download or to delete, and a declined confirmation,
    leave the status at 0. *)
Theorem script_exit_status (w : world) (argv : list string) (st : state) :
  let status := exit_status (outcome (script w argv st)) in
  (status = 0 \/ status = 1 \/ status = 2) /\
  (status = 2 <-> parse_args w argv = UsageExit) /\
  (status = 0 <->
   (exists text, parse_args w argv = HelpExit text) \/
   (exists a, parse_args w argv = Namespace a /\ completes w a st)) /\
  (forall a, parse_args w argv = Namespace a ->
     args_command a = None ->
     script w argv st = (Raise (SystemExit 1), st, [Print (format_help w)])).
Proof.
  cbv zeta. unfold script.
  destruct (parse_args w argv) as [a | text |] eqn:Hparse.
  - destruct (main_status w a st) as [Hiff Hor].
    split; [destruct Hor as [-> | ->]; auto |]. split; [| split].
    + split; [| discriminate]. intros H. rewrite H in Hor.
      destruct Hor; discriminate.
    + rewrite Hiff. split.
      * intros H. right. exists a. split; [reflexivity | exact H].
      * intros [[text [=]] | (a' & [= <-] & H)]. exact H.
    + intros a' [= <-] Hnone. rewrite main_run, Hnone. reflexivity.
  - split; [left; reflexivity |]. split; [| split].
    + split; discriminate.
    + split; [| reflexivity]. intros _. left. exists text. reflexivity.
    + intros a [=].
  - split; [right; right; reflexivity |]. split; [| split].
    + split; reflexivity.
    + split; [discriminate |].
      intros [[text [=]] | (a & [=] & _)].
    + intros a [=].
Qed.

Lemma script_exit_status_witness :
  exit_status (outcome (script sample_world ["delete"; "--date"; "2022-01-01"]
                          (State ["no"] empty_disk))) = 0 /\
  exit_status (outcome (script sample_world ["delete"] (State ["no"] empty_disk))) = 2 /\
  exit_status (outcome (script sample_world ["-h"] (State [] empty_disk))) = 0 /\
  script sample_world [] (State [] empty_disk)
  = (Raise (SystemExit 1), State [] empty_disk, [Print sample_help]) /\
  exit_status (outcome (script sample_world ["delete"; "--date"; date_with_arabic_digit]
                          (State ["no"] empty_disk))) = 0.
Proof.
  pose proof (script_exit_status sample_world ["delete"; "--date"; "2022-01-01"]
                (State ["no"] empty_disk)) as (_ & _ & H1 & _).
  pose proof (script_exit_status sample_world ["delete"] (State ["no"] empty_disk))
    as (_ & H2 & _).
  pose proof (script_exit_status sample_world ["-h"] (State [] empty_disk))
    as (_ & _ & H3 & _).
  pose proof (script_exit_status sample_world [] (State [] empty_disk))
    as (_ & _ & _ & H4).
  pose proof (script_exit_status sample_world
                ["delete"; "--date"; date_with_arabic_digit]
                (State ["no"] empty_disk)) as (_ & _ & H5 & _).
  cbv zeta in *.
  split.
  { apply H1. right. eexists. split; [reflexivity |].
    exists CmdDelete, sample_config, (api_of sample_photos), (State ["no"] empty_disk),
      [Authenticate (YStr "user@example.com") (YStr "app-password")], (Date 2022 1 1).
    do 4 (split; [reflexivity |]). discriminate. }
  split; [apply H2; reflexivity |].
  split; [apply H3; left; eexists; reflexivity |].
  split; [exact (H4 _ eq_refl eq_refl) |].
  apply H5. right. eexists. split; [reflexivity |].
  exists CmdDelete, sample_config, (api_of sample_photos), (State ["no"] empty_disk),
    [Authenticate (YStr "user@example.com") (YStr "app-password")], (Date 2022 1 15).
  do 4 (split; [reflexivity |]). discriminate.
Defined.

(** ** The date argument *)

Lemma four_digit_years_print : List.forallb year_prints four_digit_years = true.
Proof. vm_compute. reflexivity. Qed.

Lemma year_prints_in_range (y : Z) : 0 <= y <= 9999 -> year_prints y = true.
Proof.
  intros Hy. pose proof four_digit_years_print as H.
  rewrite forallb_forall in H. apply H.
  unfold four_digit_years. apply in_map_iff. exists (Z.to_nat y).
  split; [lia |]. apply in_seq. lia.
Qed.

Lemma month_days_parse (Y : string) : List.Forall (month_day_parses Y) month_days.
Proof.
  let l := eval vm_compute in month_days in change month_days with l.
  repeat (apply List.Forall_cons;
          [unfold month_day_parses; vm_compute; repeat split; reflexivity |]).
  apply List.Forall_nil.
Qed.

Lemma re_match_year (a b c d : ascii) (R : string) :
  PyStr.is_digit a = true -> PyStr.is_digit b = true ->
  PyStr.is_digit c = true -> PyStr.is_digit d = true ->
  Strptime.re_match (String a (String b (String c (String d R))))
  = after_year (String a (String b (String c (String d EmptyString)))) R.
Proof.
  intros Ha Hb Hc Hd.
  unfold Strptime.re_match, after_year, Strptime.re_Y.
  cbn [Strptime.match_alt Strptime.match_seq]. unfold Strptime.digit.
  rewrite Ha, Hb, Hc, Hd.
  destruct (Strptime.match_alt Strptime.re_dash R _); reflexivity.
Qed.

Lemma valid_date_bounds (y m d : Z) :
  valid_date y m d = true -> 1 <= y <= 9999 /\ 1 <= m <= 12 /\ 1 <= d <= 31.
Proof.
  unfold valid_date, days_in_month.
  rewrite !andb_true_iff, !Z.leb_le. intros (((((? & ?) & ?) & ?) & ?) & Hd).
  repeat split; try assumption.
  destruct (m =? 2); [destruct (is_leap y); lia |].
  destruct ((m =? 4) || (m =? 6) || (m =? 9) || (m =? 11)); lia.
Qed.

Lemma In_month_days (m d : Z) : 1 <= m <= 12 -> 1 <= d <= 31 -> In (m, d) month_days.
Proof.
  intros Hm Hd. unfold month_days. apply in_prod; apply in_map_iff.
  - exists (Z.to_nat m). split; [lia |]. apply in_seq. lia.
  - exists (Z.to_nat d). split; [lia |]. apply in_seq. lia.
Qed.

Lemma strptime_after_year (y m d : Z) (M D : string) :
  valid_date y m d = true ->
  after_year (PyStr.zero_pad 4 y) ("-" +:+ M +:+ "-" +:+ D)
  = Some (PyStr.zero_pad 4 y, M, D, EmptyString) ->
  Strptime.int M = m -> Strptime.int D = d ->
  Strptime.strptime_ymd (PyStr.zero_pad 4 y +:+ "-" +:+ M +:+ "-" +:+ D)
  = Gives (Date y m d).
Proof.
  intros Hvalid Hafter HM HD.
  destruct (valid_date_bounds _ _ _ Hvalid) as (Hy & _ & _).
  assert (Hprint : year_prints y = true) by (apply year_prints_in_range; lia).
  unfold year_prints in Hprint.
  destruct (PyStr.zero_pad 4 y) as [| a [| b [| c [| d' [| ? ?]]]]]; try discriminate.
  rewrite !andb_true_iff, Z.eqb_eq in Hprint.
  destruct Hprint as ((((Ha & Hb) & Hc) & Hd) & Hint).
  unfold Strptime.strptime_ymd.
  change (String a (String b (String c (String d' EmptyString))) +:+ ?R)
    with (String a (String b (String c (String d' R)))).
  rewrite (re_match_year a b c d' _ Ha Hb Hc Hd), Hafter, Hint, HM, HD, Hvalid.
  reflexivity.
Qed.

(** X10: [parse_date] and the ISO form of a date are inverse to each
    other.  For every date of the calendar (years 1 to 9999), parsing the
    text [str(date)] prints gives that date back, without printing or
    exiting, and so does the same text with the month and the day written
    without their leading zero.  Conversely [parse_date] returns what
    [strptime] gives, which for ASCII text is a date of the calendar, and
    when [strptime] raises it prints the invalid-date line and exits with
    status 1.  It never changes the state. *)
Theorem parse_date_iso_round_trip (w : world) (d : date) (st : state) :
  (valid_date (year d) (month d) (day d) = true ->
   parse_date w (date_str d) st = (Ok d, st, []) /\
   parse_date w (date_str_bare d) st = (Ok d, st, [])) /\
  (forall s : string,
     match strptime_date w s with
     | Gives d' =>
         parse_date w s st = (Ok d', st, []) /\
         (PyStr.is_ascii s = true ->
          valid_date (year d') (month d') (day d') = true)
     | Raises _ =>
         parse_date w s st = (Raise (SystemExit 1), st, [Print invalid_date_line])
     end).
Proof.
  split.
  - intros Hvalid. destruct d as [y m dd]. cbn [year month day] in Hvalid.
    destruct (valid_date_bounds _ _ _ Hvalid) as (_ & Hm & Hd).
    pose proof (month_days_parse (PyStr.zero_pad 4 y)) as Hall.
    rewrite List.Forall_forall in Hall.
    destruct (Hall (m, dd) (In_month_days m dd Hm Hd))
      as (Hpad & Hbare & HM & HD & HM' & HD').
    cbn [fst snd] in *.
    unfold parse_date, date_str, date_str_bare. cbn [year month day].
    rewrite (strptime_date_of_ymd w _ _ (strptime_after_year y m dd _ _ Hvalid Hpad HM HD)).
    rewrite (strptime_date_of_ymd w _ _
               (strptime_after_year y m dd _ _ Hvalid Hbare HM' HD')).
    split; reflexivity.
  - intros s. unfold parse_date.
    destruct (strptime_date w s) as [msg | d'] eqn:E; [reflexivity |].
    split; [reflexivity |]. intros Hascii.
    unfold strptime_date in E. rewrite Hascii in E.
    unfold Strptime.strptime_ymd in E.
    destruct (Strptime.re_match s) as [[[[Y M] D] rest] |]; [| discriminate E].
    destruct rest; [| discriminate E].
    destruct (valid_date (Strptime.int Y) (Strptime.int M) (Strptime.int D)) eqn:Hv.
    + injection E as <-. exact Hv.
    + destruct (Strptime.int Y <? 1); discriminate E.
Qed.

Lemma parse_date_iso_round_trip_witness :
  valid_date 2024 2 29 = true /\
  parse_date sample_world "2024-02-29" (State [] empty_disk)
  = (Ok (Date 2024 2 29), State [] empty_disk, []) /\
  parse_date sample_world "2024-2-29" (State [] empty_disk)
  = (Ok (Date 2024 2 29), State [] empty_disk, []).
Proof.
  assert (Hv : valid_date 2024 2 29 = true) by reflexivity.
  split; [exact Hv |].
  exact (proj1 (parse_date_iso_round_trip sample_world (Date 2024 2 29)
                  (State [] empty_disk)) Hv).
Defined.

(** ** What a download leaves on the disk *)

Lemma last_write_app (w1 w2 : list (Posix.location * list Byte.byte))
    (l : Posix.location) :
  last_write (w1 ++ w2) l =
  match last_write w2 l with
  | Some data => Some data
  | None => last_write w1 l
  end.
Proof.
  induction w1 as [| [l' data] w1 IH]; cbn [app last_write].
  - destruct (last_write w2 l); reflexivity.
  - rewrite IH. destruct (last_write w2 l); reflexivity.
Qed.

Lemma last_writer_decides (api : api) (c : date) (dir : string) (st : state)
    (fs1 : Posix.filesystem) (l1 l2 : list photo) (p : photo)
    (l : Posix.location) (data : list Byte.byte) :
  ensure_dir dir (disk st) = inr fs1 ->
  photos_all api = l1 ++ p :: l2 ->
  matches c p = true ->
  (forall q, In q (select_matching l2 c) ->
     Posix.open_target (Posix.dirs fs1) (Posix.join dir (filename q)) <> Some l) ->
  last_write (download_writes (Posix.dirs fs1) dir p) l = Some data ->
  Posix.files (disk (final (download_photos api c dir st))) !! l = Some data.
Proof.
  intros Hdir Hall Hm Hlater Hp.
  rewrite (download_photos_ok _ _ _ _ _ Hdir). cbn [final fst snd disk Posix.files].
  rewrite lookup_apply_writes, Hall, select_matching_app, select_matching_cons, Hm.
  unfold batch_writes. rewrite flat_map_app. cbn [flat_map].
  rewrite !last_write_app.
  rewrite (last_write_None (flat_map _ (select_matching l2 c))).
  - rewrite Hp. reflexivity.
  - intros l' data' Hin.
    destruct (batch_writes_locations _ _ _ _ _ Hin) as (q & Hq & Hopen).
    intros ->. exact (Hlater q Hq Hopen).
Qed.

(** X11: a download ends up where [open] resolves the path
    [os.path.join] builds, with the bytes read.  When the download of a
    selected item succeeds, [open] having made or emptied the file at the
    location [l], and no item selected after it is opened at that same
    location, the file at [l] holds exactly the bytes read, whatever was
    there before and whatever earlier items wrote there (the last write
    wins); a file name that starts with a slash is joined to itself, so
    that such an item is written at the place its own name says and not
    under the output directory. *)
Theorem download_stores_bytes (api : api) (c : date) (dir : string) (st : state)
    (fs1 : Posix.filesystem) (l1 l2 : list photo) (p : photo) (r : response)
    (data : list Byte.byte) (l : Posix.location) :
  ensure_dir dir (disk st) = inr fs1 ->
  photos_all api = l1 ++ p :: l2 ->
  matches c p = true ->
  download p = Gives (Some r) ->
  raw_read r = Gives data ->
  Posix.open_target (Posix.dirs fs1) (Posix.join dir (filename p)) = Some l ->
  (forall q, In q (select_matching l2 c) ->
     Posix.open_target (Posix.dirs fs1) (Posix.join dir (filename q)) <> Some l) ->
  Posix.files (disk (final (download_photos api c dir st))) !! l = Some data /\
  (Posix.is_absolute (filename p) = true ->
   Posix.join dir (filename p) = filename p).
Proof.
  intros Hdir Hall Hm Hdown Hread Hopen Hlater. split.
  - apply (last_writer_decides api c dir st fs1 l1 l2 p l data Hdir Hall Hm Hlater).
    unfold download_writes. rewrite Hdown, Hopen, Hread. cbn [last_write].
    rewrite decide_True by reflexivity. reflexivity.
  - unfold Posix.is_absolute, Posix.join.
    destruct (filename p) as [| ch f]; [discriminate |].
    intros ->. reflexivity.
Qed.

Lemma download_stores_bytes_witness :
  Posix.files
    (disk (final (download_photos (api_of [photo_first_copy; photo_dec31])
                    (Date 2022 1 1) "downloads" (State [] empty_disk))))
  !! (home ++ ["downloads"; "IMG_0001.JPG"]) = Some jpeg_bytes /\
  Posix.files
    (disk (final (download_photos (api_of [photo_first_copy; photo_through_dots])
                    (Date 2022 1 1) "downloads" (State [] empty_disk))))
  !! (home ++ ["downloads"; "IMG_0001.JPG"]) = Some jpeg_bytes.
Proof.
  assert (Hdir : ensure_dir "downloads" (disk (State [] empty_disk))
                 = inr (Posix.Filesystem downloads_dir ∅))
    by (vm_compute; reflexivity).
  split.
  - refine (proj1 (download_stores_bytes (api_of [photo_first_copy; photo_dec31])
                     (Date 2022 1 1) "downloads" (State [] empty_disk) _
                     [photo_first_copy] [] photo_dec31 (Response (Gives jpeg_bytes))
                     jpeg_bytes _ Hdir eq_refl eq_refl eq_refl eq_refl _ _)).
    + vm_compute. reflexivity.
    + intros q [].
  - refine (proj1 (download_stores_bytes (api_of [photo_first_copy; photo_through_dots])
                     (Date 2022 1 1) "downloads" (State [] empty_disk) _
                     [photo_first_copy] [] photo_through_dots
                     (Response (Gives jpeg_bytes))
                     jpeg_bytes _ Hdir eq_refl eq_refl eq_refl eq_refl _ _)).
    + vm_compute. reflexivity.
    + intros q [].
Defined.

(** X12: a download that fails after the file was opened leaves an empty
    file.  [open(file_path, "wb")] comes before the bytes are read, so
    when [open] has made or emptied the file at the location [l] and the
    response is missing or reading it raises, the file at [l] exists
    afterwards and is empty, whatever it held before (an earlier copy,
    from this run or a previous one, is lost), unless an item selected
    later is opened at [l] too; the item is logged as failed and not
    counted. *)
Theorem failed_read_leaves_empty_file (api : api) (c : date) (dir : string)
    (st : state) (fs1 : Posix.filesystem) (l1 l2 : list photo) (p : photo)
    (resp : option response) (l : Posix.location) :
  ensure_dir dir (disk st) = inr fs1 ->
  photos_all api = l1 ++ p :: l2 ->
  matches c p = true ->
  download p = Gives resp ->
  (forall r, resp = Some r -> exists msg, raw_read r = Raises msg) ->
  Posix.open_target (Posix.dirs fs1) (Posix.join dir (filename p)) = Some l ->
  (forall q, In q (select_matching l2 c) ->
     Posix.open_target (Posix.dirs fs1) (Posix.join dir (filename q)) <> Some l) ->
  Posix.files (disk (final (download_photos api c dir st))) !! l = Some [] /\
  download_ok (Posix.dirs fs1) dir p = false /\
  exists msg,
    In (Print ("Failed to download " +:+ filename p +:+ ": " +:+ msg))
       (trace (download_photos api c dir st)).
Proof.
  intros Hdir Hall Hm Hdown Hread Hopen Hlater.
  assert (Hwrites : download_writes (Posix.dirs fs1) dir p = [(l, [])]).
  { unfold download_writes. rewrite Hdown, Hopen.
    destruct resp as [r |]; [| reflexivity].
    destruct (Hread r eq_refl) as [msg ->]. reflexivity. }
  split; [| split].
  - apply (last_writer_decides api c dir st fs1 l1 l2 p l [] Hdir Hall Hm Hlater).
    rewrite Hwrites. cbn [last_write]. rewrite decide_True by reflexivity. reflexivity.
  - unfold download_ok. rewrite Hdown.
    destruct resp as [r |]; [| reflexivity].
    destruct (Hread r eq_refl) as [msg ->]. reflexivity.
  - assert (Hfail : exists msg, forall F,
              download_failure (Posix.Filesystem (Posix.dirs fs1) F) dir p = Some msg).
    { unfold download_failure. rewrite Hdown.
      destruct resp as [r |].
      - destruct (Hread r eq_refl) as [msg Hr]. exists msg. intros F.
        rewrite (open_wb_ok _ _ F l Hopen), Hr. reflexivity.
      - eexists. intros F. rewrite (open_wb_ok _ _ F l Hopen). reflexivity. }
    destruct Hfail as [msg Hfail]. exists msg.
    rewrite (download_photos_ok _ _ _ _ _ Hdir). cbn [trace snd].
    right. apply in_or_app. left.
    assert (Hd : exists d, creation_date p = Some d /\ date_leb d c = true).
    { unfold matches in Hm. destruct (creation_date p) as [d |]; [| discriminate].
      exists d. split; [reflexivity | exact Hm]. }
    destruct Hd as (d & Hcd & Hle).
    rewrite Hall. clear Hall Hdir.
    generalize (Posix.files fs1).
    induction l1 as [| q l1 IH]; intros F; cbn [app download_loop_events].
    + apply in_or_app. right. rewrite Hcd, Hle. apply in_or_app. left.
      unfold download_events. rewrite Hfail. right. right. left. reflexivity.
    + apply in_or_app. right.
      destruct (creation_date q) as [dq |]; [destruct (date_leb dq c) |];
        try apply IH.
      apply in_or_app. right. apply IH.
Qed.

Lemma failed_read_leaves_empty_file_witness :
  Posix.files
    (disk (final (download_photos (api_of [photo_first_copy; photo_unreadable])
                    (Date 2022 1 1) "downloads" (State [] empty_disk))))
  !! (home ++ ["downloads"; "IMG_0001.JPG"]) = Some [].
Proof.
  assert (Hdir : ensure_dir "downloads" (disk (State [] empty_disk))
                 = inr (Posix.Filesystem downloads_dir ∅))
    by (vm_compute; reflexivity).
  refine (proj1 (failed_read_leaves_empty_file
                   (api_of [photo_first_copy; photo_unreadable])
                   (Date 2022 1 1) "downloads" (State [] empty_disk) _
                   [photo_first_copy] [] photo_unreadable
                   (Some (Response (Raises "Read timed out"))) _
                   Hdir eq_refl eq_refl eq_refl _ _ _)).
  - intros r [= <-]. eexists. reflexivity.
  - vm_compute. reflexivity.
  - intros q [].
Defined.

(** ** Where plain file names go *)

Lemma split_slash_nonempty (s : string) : Posix.split_slash s <> [].
Proof.
  destruct s as [| ch s]; cbn [Posix.split_slash]; [discriminate |].
  destruct (Posix.is_slash ch); [discriminate |].
  destruct (Posix.split_slash s); discriminate.
Qed.

Lemma split_slash_plain (f : string) :
  has_slash f = false -> Posix.split_slash f = [f].
Proof.
  induction f as [| ch f IH]; [reflexivity |].
  cbn [has_slash Posix.split_slash]. intros [Hc Hf]%orb_false_iff.
  rewrite Hc, (IH Hf). reflexivity.
Qed.

Lemma split_slash_app (a f : string) :
  Posix.split_slash (a +:+ String "/" f) = Posix.split_slash a ++ Posix.split_slash f.
Proof.
  induction a as [| ch a IH]; [reflexivity |].
  change (String ch a +:+ String "/" f) with (String ch (a +:+ String "/" f)).
  cbn [Posix.split_slash]. rewrite IH.
  destruct (Posix.is_slash ch); [reflexivity |].
  pose proof (split_slash_nonempty a) as Hne.
  destruct (Posix.split_slash a) as [| x r]; [destruct (Hne eq_refl) | reflexivity].
Qed.

Lemma ends_with_slash_app (a : string) :
  Posix.ends_with_slash a = true -> exists a0, a = a0 +:+ "/".
Proof.
  induction a as [| ch a IH]; [discriminate |].
  cbn [Posix.ends_with_slash]. destruct a as [| ch' a'].
  - unfold Posix.is_slash. intros ->%bool_decide_eq_true. exists EmptyString. reflexivity.
  - intros H. destruct (IH H) as [a0 ->]. exists (String ch a0). reflexivity.
Qed.

Lemma append_assoc (a b c : string) : (a +:+ b) +:+ c = a +:+ (b +:+ c).
Proof.
  induction a as [| ch a IH]; [reflexivity |].
  change (String ch ((a +:+ b) +:+ c) = String ch (a +:+ (b +:+ c))).
  f_equal. exact IH.
Qed.

Lemma is_absolute_app (a b : string) :
  a <> EmptyString -> Posix.is_absolute (a +:+ b) = Posix.is_absolute a.
Proof. destruct a; [congruence | reflexivity]. Qed.

Lemma has_nul_app (a b : string) :
  Posix.has_nul (a +:+ b) = Posix.has_nul a || Posix.has_nul b.
Proof.
  induction a as [| ch a IH]; [reflexivity |].
  change (String ch a +:+ b) with (String ch (a +:+ b)).
  cbn [Posix.has_nul]. rewrite IH, orb_assoc. reflexivity.
Qed.

Lemma ends_with_slash_plain (f : string) :
  has_slash f = false -> Posix.ends_with_slash f = false.
Proof.
  induction f as [| ch f IH]; [reflexivity |].
  cbn [has_slash Posix.ends_with_slash]. intros [Hc Hf]%orb_false_iff.
  destruct f; [exact Hc | exact (IH Hf)].
Qed.

Lemma ends_with_slash_after (a b : string) :
  b <> EmptyString -> Posix.ends_with_slash (a +:+ b) = Posix.ends_with_slash b.
Proof.
  intros Hb. induction a as [| ch a IH]; [reflexivity |].
  change (String ch a +:+ b) with (String ch (a +:+ b)).
  cbn [Posix.ends_with_slash]. rewrite IH.
  destruct (a +:+ b) eqn:E; [| reflexivity].
  destruct a; [change (b = EmptyString) in E; congruence | discriminate E].
Qed.

Lemma names_of_app (a f : string) :
  Posix.names_of (a +:+ String "/" f) = Posix.names_of a ++ Posix.names_of f.
Proof. unfold Posix.names_of. rewrite split_slash_app. apply List.filter_app. Qed.

Lemma names_of_plain (f : string) :
  has_slash f = false -> f <> EmptyString -> Posix.names_of f = [f].
Proof.
  intros Hs Hf. unfold Posix.names_of. rewrite (split_slash_plain f Hs).
  cbn [List.filter]. destruct (String.eqb f "") eqn:E; [| reflexivity].
  apply String.eqb_eq in E. congruence.
Qed.

(** The text [join] gives for a name without a slash under a path:
    the names of the path, then the name. *)
Lemma join_name (dir f : string) :
  dir <> EmptyString -> has_slash f = false -> f <> EmptyString ->
  Posix.join dir f <> EmptyString /\
  Posix.names_of (Posix.join dir f) = Posix.names_of dir ++ [f] /\
  Posix.is_absolute (Posix.join dir f) = Posix.is_absolute dir /\
  Posix.has_nul (Posix.join dir f) = Posix.has_nul dir || Posix.has_nul f /\
  Posix.ends_with_slash (Posix.join dir f) = false.
Proof.
  intros Hdir Hslash Hne.
  assert (Habs : Posix.is_absolute f = false).
  { destruct f as [| ch f]; [reflexivity |]. cbn [has_slash] in Hslash.
    apply orb_false_iff in Hslash as [Hc _]. exact Hc. }
  assert (Hshape : exists a,
            Posix.join dir f = a +:+ String "/" f /\
            Posix.names_of a = Posix.names_of dir /\
            Posix.is_absolute (a +:+ String "/" f) = Posix.is_absolute dir /\
            Posix.has_nul a = Posix.has_nul dir).
  { unfold Posix.join. destruct f as [| ch f']; [congruence |].
    cbn [Posix.is_absolute] in Habs. rewrite Habs.
    destruct (String.eqb dir "") eqn:E; [apply String.eqb_eq in E; congruence |].
    cbn [orb]. destruct (Posix.ends_with_slash dir) eqn:Hend.
    - destruct (ends_with_slash_app dir Hend) as [a0 ->]. exists a0.
      rewrite append_assoc. split; [reflexivity |]. split; [| split].
      + change (a0 +:+ "/") with (a0 +:+ String "/" EmptyString).
        rewrite names_of_app. cbn. rewrite app_nil_r. reflexivity.
      + destruct a0; reflexivity.
      + rewrite has_nul_app. cbn. rewrite orb_false_r. reflexivity.
    - exists dir. split; [reflexivity |]. split; [reflexivity |].
      split; [| reflexivity]. apply is_absolute_app. exact Hdir. }
  destruct Hshape as (a & -> & Hnames & Habs' & Hnul).
  split; [destruct a; discriminate |].
  split; [rewrite names_of_app, Hnames, (names_of_plain f Hslash Hne); reflexivity |].
  split; [exact Habs' |]. split.
  - rewrite has_nul_app, Hnul. cbn [Posix.has_nul].
    rewrite bool_decide_eq_false_2 by discriminate. reflexivity.
  - rewrite ends_with_slash_after by discriminate.
    cbn [Posix.ends_with_slash]. destruct f; [congruence |].
    apply (ends_with_slash_plain _ Hslash).
Qed.

Lemma enter_app (T : Posix.tree) (a b : list string) :
  forall cur,
    Posix.enter T cur (a ++ b)
    = match Posix.enter T cur a with
      | Some l => Posix.enter T l b
      | None => None
      end.
Proof.
  induction a as [| name a IH]; intros cur; [reflexivity |].
  cbn [app Posix.enter]. destruct (Posix.dir_at T (Posix.step cur name)); [apply IH | reflexivity].
Qed.

Lemma is_prefix_refl (l : Posix.location) : Posix.is_prefix l l = true.
Proof.
  induction l as [| x l IH]; [reflexivity |].
  cbn [Posix.is_prefix]. rewrite String.eqb_refl, IH. reflexivity.
Qed.

Lemma dir_at_start (T : Posix.tree) (s : string) :
  Posix.dir_at T (Posix.start T s) = true.
Proof.
  unfold Posix.start, Posix.dir_at.
  destruct (Posix.is_absolute s); [reflexivity |].
  rewrite is_prefix_refl. reflexivity.
Qed.

(** What [os.stat] finds is where the walk through all the names of the
    path ends, when that is a directory; when it is a regular file, the
    walk through all the names fails at the last. *)
Lemma stat_enter (fs : Posix.filesystem) (s : string) (l : Posix.location) :
  Posix.stat fs s = Some l ->
  s <> EmptyString /\ Posix.has_nul s = false /\
  Posix.enter (Posix.dirs fs) (Posix.start (Posix.dirs fs) s) (Posix.names_of s)
  = (if Posix.dir_at (Posix.dirs fs) l then Some l else None).
Proof.
  unfold Posix.stat.
  destruct (String.eqb s "") eqn:Hs; [discriminate |].
  destruct (Posix.has_nul s) eqn:Hnul; [discriminate |]. cbn [orb].
  apply String.eqb_neq in Hs.
  destruct (Posix.enter _ _ (removelast _)) as [parent |] eqn:Henter; [| discriminate].
  destruct (last (Posix.names_of s)) as [name |] eqn:Hlast.
  - rewrite (last_Some_removelast _ _ Hlast), enter_app, Henter.
    cbn [Posix.enter].
    destruct (Posix.dir_at (Posix.dirs fs) (Posix.step parent name)) eqn:Hd.
    + intros [= <-]. rewrite Hd. auto.
    + destruct (negb (Posix.ends_with_slash s) && Posix.file_at fs (Posix.step parent name));
        [| discriminate].
      intros [= <-]. rewrite Hd. auto.
  - apply last_None in Hlast. rewrite Hlast in *. cbn in Henter.
    injection Henter as <-. intros [= <-].
    rewrite dir_at_start. auto.
Qed.

(** [open] on the path [join] gives for a name without a slash under the
    output path. *)
Lemma open_target_under (T : Posix.tree) (dir f : string) :
  dir <> EmptyString -> has_slash f = false -> f <> EmptyString ->
  Posix.open_target T (Posix.join dir f)
  = if Posix.has_nul dir || Posix.has_nul f || String.eqb f "." || String.eqb f ".."
    then None
    else
      match Posix.enter T (Posix.start T dir) (Posix.names_of dir) with
      | None => None
      | Some parent =>
          if Posix.dir_at T (parent ++ [f]) then None else Some (parent ++ [f])
      end.
Proof.
  intros Hdir Hslash Hne.
  destruct (join_name dir f Hdir Hslash Hne) as (Hj & Hnames & Habs & Hnul & Hend).
  unfold Posix.open_target.
  apply String.eqb_neq in Hj. rewrite Hj, Hnul, Hend, Hnames, last_snoc, removelast_last.
  unfold Posix.start. rewrite Habs.
  destruct (Posix.has_nul dir), (Posix.has_nul f), (String.eqb f "."), (String.eqb f "..");
    reflexivity.
Qed.

Lemma plain_name_facts (f : string) :
  plain_name f = true -> has_slash f = false /\ f <> EmptyString.
Proof.
  unfold plain_name. intros [[Hs He]%andb_true_iff _]%andb_true_iff.
  apply negb_true_iff in Hs. apply negb_true_iff, String.eqb_neq in He. auto.
Qed.

Lemma exists_not_empty (fs : Posix.filesystem) (dir : string) :
  Posix.exists_ fs dir = true -> dir <> EmptyString.
Proof. intros H ->. discriminate H. Qed.

(** X13: the name of an entry is stored directly inside the output
    directory.  When the output path is a directory, found at the
    location [d], and the file name of an item is the name of an entry (no
    slash and no NUL in it, not empty, neither [.] nor [..]), [open] on
    the path [os.path.join] builds makes or empties the entry of that
    name in [d], unless a directory sits there, in which case it fails;
    so the download of such an item succeeds exactly when no directory is
    in its place and the remote download and the read of its bytes
    succeed. *)
Theorem plain_names_land_in_output_dir (fs : Posix.filesystem) (dir : string)
    (p : photo) (d : Posix.location) :
  Posix.stat fs dir = Some d ->
  Posix.dir_at (Posix.dirs fs) d = true ->
  entry_name (filename p) = true ->
  let target := d ++ [filename p] in
  Posix.isdir fs dir = true /\
  Posix.open_target (Posix.dirs fs) (Posix.join dir (filename p))
  = (if Posix.dir_at (Posix.dirs fs) target then None else Some target) /\
  (download_ok (Posix.dirs fs) dir p = true <->
   Posix.dir_at (Posix.dirs fs) target = false /\
   exists r data, download p = Gives (Some r) /\ raw_read r = Gives data).
Proof.
  intros Hstat Hd Hentry. cbv zeta.
  unfold entry_name in Hentry.
  apply andb_true_iff in Hentry as [[Hplain Hdd]%andb_true_iff Hnul].
  apply negb_true_iff in Hdd, Hnul.
  assert (Hdot : String.eqb (filename p) "." = false).
  { unfold plain_name in Hplain. apply andb_true_iff in Hplain as [_ H].
    apply negb_true_iff in H. exact H. }
  destruct (plain_name_facts _ Hplain) as [Hslash Hne].
  destruct (stat_enter fs dir d Hstat) as (Hdir & Hnuldir & Henter).
  rewrite Hd in Henter.
  assert (Hopen : Posix.open_target (Posix.dirs fs) (Posix.join dir (filename p))
                  = (if Posix.dir_at (Posix.dirs fs) (d ++ [filename p])
                     then None else Some (d ++ [filename p]))).
  { rewrite (open_target_under _ dir (filename p) Hdir Hslash Hne).
    rewrite Hnuldir, Hnul, Hdot, Hdd, Henter. reflexivity. }
  split; [unfold Posix.isdir; rewrite Hstat; exact Hd |].
  split; [exact Hopen |].
  unfold download_ok. rewrite Hopen.
  destruct (Posix.dir_at (Posix.dirs fs) (d ++ [filename p])).
  - split; [| intros [[=] _]].
    destruct (download p) as [| [r |]]; try discriminate.
    destruct (raw_read r); discriminate.
  - destruct (download p) as [msg | [r |]].
    + split; [discriminate | intros (_ & r & data & [=] & _)].
    + destruct (raw_read r) as [msg | data] eqn:Hr.
      * split; [discriminate | intros (_ & r' & data & [= <-] & Hr')]. congruence.
      * split; [intros _; eauto | reflexivity].
    + split; [discriminate | intros (_ & r & data & [=] & _)].
Qed.

Lemma plain_names_land_in_output_dir_witness :
  Posix.stat disk_with_downloads "downloads" = Some (home ++ ["downloads"]) /\
  entry_name (filename photo_dec31) = true /\
  Posix.open_target (Posix.dirs disk_with_downloads)
    (Posix.join "downloads" (filename photo_dec31))
  = Some (home ++ ["downloads"; "IMG_0001.JPG"]) /\
  download_ok (Posix.dirs disk_with_downloads) "downloads" photo_dec31 = true.
Proof.
  assert (Hstat : Posix.stat disk_with_downloads "downloads"
                  = Some (home ++ ["downloads"])) by (vm_compute; reflexivity).
  assert (Hd : Posix.dir_at (Posix.dirs disk_with_downloads) (home ++ ["downloads"])
               = true) by (vm_compute; reflexivity).
  assert (Hentry : entry_name (filename photo_dec31) = true) by reflexivity.
  destruct (plain_names_land_in_output_dir disk_with_downloads "downloads"
              photo_dec31 _ Hstat Hd Hentry) as (_ & Hopen & Hok).
  assert (Htarget : Posix.dir_at (Posix.dirs disk_with_downloads)
                      ((home ++ ["downloads"]) ++ [filename photo_dec31]) = false)
    by (vm_compute; reflexivity).
  split; [exact Hstat |]. split; [exact Hentry |]. split.
  - rewrite Hopen, Htarget. reflexivity.
  - apply Hok. split; [exact Htarget |].
    exists (Response (Gives jpeg_bytes)), jpeg_bytes. split; reflexivity.
Defined.

(** ** When the output path is a regular file *)

Lemma open_fails_under_a_file (fs : Posix.filesystem) (dir f : string) :
  Posix.exists_ fs dir = true -> Posix.isdir fs dir = false ->
  plain_name f = true ->
  Posix.open_target (Posix.dirs fs) (Posix.join dir f) = None.
Proof.
  unfold Posix.exists_, Posix.isdir. intros Hex Hnodir Hplain.
  destruct (Posix.stat fs dir) as [l |] eqn:Hstat; [| discriminate].
  destruct (stat_enter fs dir l Hstat) as (Hdir & _ & Henter).
  rewrite Hnodir in Henter.
  destruct (plain_name_facts f Hplain) as [Hslash Hne].
  rewrite (open_target_under _ dir f Hdir Hslash Hne), Henter.
  destruct (_ || _); reflexivity.
Qed.

Lemma nothing_succeeds (ok : photo -> bool) (batch : list photo) :
  (forall p, In p batch -> ok p = false) ->
  succeeded ok batch = 0%nat /\ failed ok batch = length batch.
Proof.
  intros H. induction batch as [| p rest IH]; [split; reflexivity |].
  rewrite succeeded_cons, failed_cons, (H p (or_introl eq_refl)).
  destruct IH as [-> ->]; [| split; reflexivity].
  intros q Hq. apply H. right. exact Hq.
Qed.

Lemma no_open_no_writes (D : Posix.tree) (dir : string) (batch : list photo) :
  (forall p, In p batch -> Posix.open_target D (Posix.join dir (filename p)) = None) ->
  batch_writes D dir batch = [].
Proof.
  intros H. unfold batch_writes.
  induction batch as [| p rest IH]; [reflexivity |].
  cbn [flat_map]. rewrite IH by (intros q Hq; apply H; right; exact Hq).
  unfold download_writes. rewrite (H p (or_introl eq_refl)).
  destruct (download p); reflexivity.
Qed.

(** X14: when the output path exists but is a regular file,
    [os.path.exists] is true, so no directory is made and the run goes
    on: every matching item with a plain file name is attempted and
    fails at [open], each failure is logged, the run reports 0 downloads
    and returns normally, and stdin and the disk are exactly as
    before. *)
Theorem output_path_is_a_file (api : api) (c : date) (dir : string) (st : state) :
  Posix.exists_ (disk st) dir = true ->
  Posix.isdir (disk st) dir = false ->
  (forall p, In p (select_matching (photos_all api) c) ->
             plain_name (filename p) = true) ->
  let r := download_photos api c dir st in
  let batch := select_matching (photos_all api) c in
  outcome r = Ok tt /\
  downloads_of (trace r) = batch /\
  failures_logged (trace r) = length batch /\
  last (trace r) = Some (Print (downloaded_line 0 dir)) /\
  final r = st.
Proof.
  intros Hex Hnodir Hplain. cbv zeta.
  assert (Hensure : ensure_dir dir (disk st) = inr (disk st))
    by exact (ensure_dir_exists _ _ Hex).
  assert (Hopen : forall p, In p (select_matching (photos_all api) c) ->
            Posix.open_target (Posix.dirs (disk st)) (Posix.join dir (filename p)) = None).
  { intros p Hp. exact (open_fails_under_a_file _ dir _ Hex Hnodir (Hplain p Hp)). }
  assert (Hfail : forall p, In p (select_matching (photos_all api) c) ->
                    download_ok (Posix.dirs (disk st)) dir p = false).
  { intros p Hp. unfold download_ok. rewrite (Hopen p Hp).
    destruct (download p) as [| [r |]]; try reflexivity.
    destruct (raw_read r); reflexivity. }
  destruct (nothing_succeeds _ _ Hfail) as [Hzero Hall].
  destruct (download_run_summary api c dir st (disk st) Hensure)
    as (Hok & Hbatch & Hlogged & Hlast).
  rewrite Hzero in Hlast. rewrite Hall in Hlogged.
  do 4 (split; [assumption |]).
  rewrite (download_photos_ok _ _ _ _ _ Hensure). cbn [final fst snd].
  rewrite (no_open_no_writes _ _ _ Hopen). destruct st as [inp [D F]]. reflexivity.
Qed.

Lemma output_path_is_a_file_witness :
  Posix.exists_ disk_with_file_downloads "downloads" = true /\
  Posix.isdir disk_with_file_downloads "downloads" = false /\
  last (trace (download_photos (api_of sample_photos) (Date 2022 1 2) "downloads"
                 (State [] disk_with_file_downloads)))
  = Some (Print "Downloaded 0 photos to 'downloads'.") /\
  final (download_photos (api_of sample_photos) (Date 2022 1 2) "downloads"
           (State [] disk_with_file_downloads))
  = State [] disk_with_file_downloads.
Proof.
  assert (Hex : Posix.exists_ (disk (State [] disk_with_file_downloads)) "downloads"
                = true) by (vm_compute; reflexivity).
  assert (Hnodir : Posix.isdir (disk (State [] disk_with_file_downloads)) "downloads"
                   = false) by (vm_compute; reflexivity).
  assert (Hplain : forall p,
            In p (select_matching (photos_all (api_of sample_photos)) (Date 2022 1 2)) ->
            plain_name (filename p) = true).
  { intros p Hp. apply select_matching_In in Hp as [Hp _].
    destruct Hp as [<- | [<- | [<- | [<- | []]]]]; reflexivity. }
  destruct (output_path_is_a_file (api_of sample_photos) (Date 2022 1 2) "downloads"
              (State [] disk_with_file_downloads) Hex Hnodir Hplain)
    as (_ & _ & _ & Hlast & Hfinal).
  split; [exact Hex |]. split; [exact Hnodir |]. split; [exact Hlast | exact Hfinal].
Defined.

(** ** Making the output directory *)

(** X15: the output directory.  When nothing exists at the output path,
    [download_photos] calls [os.makedirs] before anything else.  If that
    raises, the exception goes uncaught and the run ends there, with
    nothing enumerated and nothing printed, on the disk as [os.makedirs]
    left it, which may hold new directories; if it returns, the run goes
    through on the directories as [os.makedirs] left them, and the output
    path is then a directory unless its last name is [.].  Either way
    every directory and every file that was there before is still there,
    and no file has been touched by [os.makedirs]. *)
Theorem output_directory_creation (api : api) (c : date) (dir : string) (st : state) :
  Posix.exists_ (disk st) dir = false ->
  let r := download_photos api c dir st in
  let after := Posix.makedirs dir (disk st) in
  (forall e, fst after = Some e ->
     r = (Raise (Exception (Posix.oserror_str e)), State (stdin st) (snd after), []) /\
     exit_status (outcome r) = 1) /\
  (fst after = None ->
     outcome r = Ok tt /\
     Posix.dirs (disk (final r)) = Posix.dirs (snd after) /\
     (snd (Posix.head_tail dir) <> "." -> Posix.isdir (disk (final r)) dir = true)) /\
  Posix.files (snd after) = Posix.files (disk st) /\
  Posix.cwd (Posix.dirs (disk (final r))) = Posix.cwd (Posix.dirs (disk st)) /\
  Posix.made (Posix.dirs (disk st)) ⊆ Posix.made (Posix.dirs (disk (final r))) /\
  (forall l, is_Some (Posix.files (disk st) !! l) ->
             is_Some (Posix.files (disk (final r)) !! l)).
Proof.
  intros Hex. cbv zeta.
  assert (Hensure : ensure dir (disk st) = Posix.makedirs dir (disk st))
    by (unfold ensure; rewrite Hex; reflexivity).
  destruct (Posix.makedirs dir (disk st)) as [raised fs1] eqn:Hmk.
  destruct (makedirs_from_grows _ _ _ _ _ Hmk) as (Hfiles & Hcwd & _ & Hmade).
  cbn [fst snd].
  destruct raised as [e |].
  - assert (He : ensure_dir dir (disk st) = inl e)
      by (unfold ensure_dir; rewrite Hensure; reflexivity).
    rewrite (download_photos_crash _ _ _ _ _ He), Hensure.
    cbn [outcome final fst snd disk].
    split; [intros e' [= <-]; split; reflexivity |].
    split; [discriminate |].
    split; [exact Hfiles |]. split; [exact Hcwd |]. split; [exact Hmade |].
    intros l Hl. rewrite Hfiles. exact Hl.
  - assert (He : ensure_dir dir (disk st) = inr fs1)
      by (unfold ensure_dir; rewrite Hensure; reflexivity).
    rewrite (download_photos_ok _ _ _ _ _ He).
    cbn [outcome final fst snd disk Posix.dirs Posix.files].
    split; [discriminate |]. split.
    { intros _. split; [reflexivity |]. split; [reflexivity |].
      intros Htail. destruct fs1 as [D1 F1]. apply isdir_after_writes.
      exact (makedirs_from_isdir _ _ _ _ Hmk Htail). }
    split; [exact Hfiles |]. split; [exact Hcwd |]. split; [exact Hmade |].
    intros l Hl. rewrite lookup_apply_writes, Hfiles.
    destruct (last_write _ l); eauto.
Qed.

Lemma output_directory_creation_witness :
  Posix.exists_ empty_disk "out/2022" = false /\
  Posix.isdir
    (disk (final (download_photos (api_of sample_photos) (Date 2022 1 2) "out/2022"
                    (State [] empty_disk)))) "out/2022" = true /\
  Posix.exists_ empty_disk "a/.." = false /\
  download_photos (api_of sample_photos) (Date 2022 1 2) "a/.." (State [] empty_disk)
  = (Raise (Exception "[Errno 17] File exists: 'a/..'"),
     State [] (Posix.Filesystem (in_home {[ home ++ ["a"] ]}) ∅), []).
Proof.
  assert (Hex : Posix.exists_ (disk (State [] empty_disk)) "out/2022" = false)
    by (vm_compute; reflexivity).
  assert (Hex' : Posix.exists_ (disk (State [] empty_disk)) "a/.." = false)
    by (vm_compute; reflexivity).
  destruct (output_directory_creation (api_of sample_photos) (Date 2022 1 2)
              "out/2022" (State [] empty_disk) Hex) as (_ & Hmade & _).
  destruct (output_directory_creation (api_of sample_photos) (Date 2022 1 2)
              "a/.." (State [] empty_disk) Hex') as (Hraised & _).
  split; [exact Hex |]. split.
  - apply Hmade; [vm_compute; reflexivity | discriminate].
  - split; [exact Hex' |].
    refine (eq_trans (proj1 (Hraised (Posix.FileExistsError "a/..") _)) _).
    + vm_compute. reflexivity.
    + vm_compute. reflexivity.
Defined.

(** ** The library is reached only after login *)

Lemma authentications_app (t1 t2 : list event) :
  authentications (t1 ++ t2) = authentications t1 ++ authentications t2.
Proof. apply flat_map_app. Qed.

Lemma authenticate_in_trace (t : list event) :
  List.existsb is_authenticate t = true -> exists u p, In (Authenticate u p) t.
Proof.
  rewrite existsb_exists. intros (e & He & Hauth).
  destruct e; try discriminate Hauth. eauto.
Qed.

Lemma diagnostics_no_authentication (photos : list photo) :
  authentications (diagnostics photos) = [].
Proof.
  induction photos as [| p rest IH]; [reflexivity |].
  unfold diagnostics in *. cbn [flat_map]. rewrite authentications_app, IH.
  unfold diagnostic. destruct (date_error p); reflexivity.
Qed.

Lemma delete_no_authentication (api : api) (c : date) (st : state) :
  authentications (trace (delete_photos api c st)) = [].
Proof.
  rewrite delete_photos_run. cbv zeta.
  assert (Hpre : authentications (delete_prefix api c) = []).
  { unfold delete_prefix. cbn [authentications flat_map app].
    change (flat_map _ ?t) with (authentications t).
    rewrite authentications_app, diagnostics_no_authentication. reflexivity. }
  assert (Hbatch : forall batch, authentications (flat_map delete_events batch) = []).
  { induction batch as [| p rest IH]; [reflexivity |].
    cbn [flat_map]. rewrite authentications_app, IH.
    unfold delete_events. destruct (delete p); reflexivity. }
  destruct (stdin st) as [| confirm rest]; [exact Hpre |].
  destruct (String.eqb (PyStr.lower confirm) "yes"); cbn [trace snd];
    rewrite !authentications_app, Hpre; [| reflexivity].
  rewrite Hbatch. reflexivity.
Qed.

Lemma download_no_authentication (api : api) (c : date) (dir : string) (st : state) :
  authentications (trace (download_photos api c dir st)) = [].
Proof.
  assert (Hloop : forall photos D F,
            authentications (download_loop_events photos c dir D F) = []).
  { induction photos as [| p rest IH]; intros D F; [reflexivity |].
    cbn [download_loop_events]. rewrite authentications_app.
    assert (Hdiag : authentications (diagnostic p) = [])
      by (unfold diagnostic; destruct (date_error p); reflexivity).
    rewrite Hdiag. cbn [app].
    destruct (creation_date p) as [d |]; [destruct (date_leb d c) |]; try apply IH.
    rewrite authentications_app, IH, app_nil_r.
    unfold download_events. destruct (download_failure _ dir p); reflexivity. }
  destruct (ensure_dir dir (disk st)) as [e | fs1] eqn:E.
  - rewrite (download_photos_crash _ _ _ _ _ E). reflexivity.
  - rewrite (download_photos_ok _ _ _ _ _ E). cbn [trace snd].
    cbn [authentications flat_map app]. change (flat_map _ ?t) with (authentications t).
    rewrite authentications_app, Hloop. reflexivity.
Qed.

(** X16: the photo library is reached only after a login that returned.
    In every run of [main], if the trace enumerates the library or calls
    [download()] or [delete()] at all, then it splits into a first part
    that loads the configuration and calls the authentication without
    touching the library, followed by the run of the sub-command; and the
    authentication is called at most once in the whole run. *)
Theorem library_only_after_login (w : world) (a : args) (st : state) :
  (quiet (trace (main w a st)) = false ->
   exists before after u p,
     trace (main w a st) = before ++ after /\
     quiet before = true /\
     In (LoadConfig (args_config a)) before /\
     In (Authenticate u p) before /\
     authentications after = []) /\
  (length (authentications (trace (main w a st))) <= 1)%nat.
Proof.
  rewrite main_run.
  destruct (args_command a) as [cmd |]; [| split; [discriminate | cbn; lia]].
  destruct (yaml_load w (args_config a)) as [msg | config];
    [split; [discriminate | cbn; lia] |].
  cbv zeta.
  pose proof (login_facts w config st) as (Hq & _ & _ & Hauth).
  pose proof (login_authentications_length w config st) as Hlen.
  destruct (outcome (login w config st)) as [api | e] eqn:Ho.
  2: { cbn [trace snd]. split; [| exact Hlen].
       intros H. cbn [quiet List.forallb negb touches_library andb] in H.
       unfold quiet in Hq. rewrite Hq in H. discriminate H. }
  specialize (Hauth api eq_refl).
  destruct (strptime_date w (args_date a)) as [msg | d].
  { cbn [trace snd]. split.
    - intros H. rewrite app_comm_cons, quiet_app in H.
      cbn [quiet List.forallb negb touches_library andb] in H.
      unfold quiet in Hq. rewrite Hq in H. discriminate H.
    - cbn [authentications flat_map app]. change (flat_map _ ?t) with (authentications t).
      rewrite authentications_app, app_nil_r. exact Hlen. }
  cbv zeta. cbn [trace snd].
  set (r2 := match cmd with
             | CmdDownload => download_photos api d (args_output_dir a)
             | CmdDelete => delete_photos api d
             end (final (login w config st))).
  assert (Hr2 : authentications (trace r2) = []).
  { subst r2. destruct cmd;
      [apply download_no_authentication | apply delete_no_authentication]. }
  split.
  - intros _. destruct (authenticate_in_trace _ Hauth) as (u & p & Hin).
    exists (LoadConfig (args_config a) :: trace (login w config st)), (trace r2), u, p.
    split; [reflexivity |]. split.
    { cbn [quiet List.forallb negb touches_library andb]. exact Hq. }
    split; [left; reflexivity |]. split; [right; exact Hin | exact Hr2].
  - cbn [authentications flat_map app]. change (flat_map _ ?t) with (authentications t).
    rewrite authentications_app, Hr2, app_nil_r. exact Hlen.
Qed.

Lemma library_only_after_login_witness :
  quiet (trace (main sample_world delete_args (State ["yes"] empty_disk))) = false /\
  exists before after u p,
    trace (main sample_world delete_args (State ["yes"] empty_disk)) = before ++ after /\
    quiet before = true /\ In (Authenticate u p) before.
Proof.
  assert (H : quiet (trace (main sample_world delete_args (State ["yes"] empty_disk)))
              = false) by reflexivity.
  split; [exact H |].
  destruct (proj1 (library_only_after_login sample_world delete_args
                     (State ["yes"] empty_disk)) H)
    as (before & after & u & p & Hsplit & Hq & _ & Hin & _).
  exists before, after, u, p. split; [exact Hsplit |]. split; [exact Hq | exact Hin].
Defined.
